(** * Sales analysis service (app.py): a shallow embedding and its properties

    The service keeps one pandas DataFrame (or an error string) in the global
    [df_global] and answers requests by calling pandas and scikit-learn on it.
    This development embeds the functions of [app.py] as Rocq functions:

    - a DataFrame is a list of typed column names and a list of labelled rows;
    - a float64 or int64 value is the real number it stands for, NaN / NaT /
      None the single null cell; the sums and means that pandas computes on
      such values, rounded in float64 and wrapped around in int64, are
      routines of the library like the others, and are exact only where a
      theorem says so; order statistics and correlations are written out in
      exact arithmetic, and what is proved of them survives rounding;
      [float(x)] of a number is that number (an int64 beyond 2^53 in
      magnitude, which [float] would round, is outside the model);
    - a Python exception leaving a function is the [Raises] result;
    - pandas and scikit-learn routines whose result [app.py] only passes on
      (CSV parsing, date parsing, the default sort, scaling, PCA, k-means,
      rendering) are fields of the interfaces [Pandas], [Sklearn] and
      [Renderer]; what the libraries document about them is stated where a
      theorem needs it. *)

From Stdlib Require PrimFloat.
From Stdlib Require Import String List ZArith Reals Lra Lia Bool.
From Stdlib Require Import Permutation Sorted DecimalString.
Import ListNotations.

Open Scope string_scope.
Open Scope list_scope.
Open Scope Z_scope.

(** ** Exceptions and results *)

(** The Python exceptions that can leave the functions of [app.py]. *)
Inductive exn : Type :=
| KeyError (key : string)
| TypeError (msg : string)
| ValueError (msg : string)
| AttributeError (msg : string)
| UnicodeDecodeError (msg : string)
| LibraryError (msg : string).

(** [str(e)]; the [str] of a [KeyError] is the [repr] of its key, which
    for a column name without quotes is the name between single quotes. *)
Definition str_exn (e : exn) : string :=
  match e with
  | KeyError k => String.append "'" (String.append k "'")
  | TypeError m | ValueError m | AttributeError m
  | UnicodeDecodeError m | LibraryError m => m
  end.

(** The result of running a piece of Python: a value, or an exception. *)
Inductive outcome (A : Type) : Type :=
| Returns (a : A)
| Raises (e : exn).

Arguments Returns {A} a.
Arguments Raises {A} e.

Definition bind {A B : Type} (m : outcome A) (k : A -> outcome B) : outcome B :=
  match m with
  | Returns a => k a
  | Raises e => Raises e
  end.

Notation "x <- m ;; k" := (bind m (fun x => k))
  (at level 61, m at next level, right associativity).

(** ** DataFrames *)

(** Column dtypes as the service tells them apart: [select_dtypes('number')]
    keeps int64 / float64 columns; [to_datetime] makes datetime64 columns;
    text columns have dtype object. *)
Inductive dtype : Type := DNumber | DDatetime | DObject.

Inductive cell : Type :=
| CNum (x : R)        (* an int64 / float64 value *)
| CDate (t : Z)       (* a Timestamp, nanoseconds since the epoch *)
| CStr (s : string)   (* a str *)
| CNull.              (* NaN, NaT or None *)

(** A row: its index label and its cells, one per column. *)
Record row : Type := mkRow { label : Z; cells : list cell }.

Record DataFrame : Type := mkDF {
  columns : list (string * dtype);
  rows : list row
}.

(** A column taken out of a frame, [df[name]]. *)
Record Series : Type := mkSeries { s_dtype : dtype; s_values : list cell }.

Definition isna (c : cell) : bool :=
  match c with CNull => true | _ => false end.

Definition notna (c : cell) : bool := negb (isna c).

Definition is_number (d : dtype) : bool :=
  match d with DNumber => true | _ => false end.

(** [df.shape] *)
Definition shape (df : DataFrame) : Z * Z :=
  (Z.of_nat (length (rows df)), Z.of_nat (length (columns df))).

(** [name in df.columns] *)
Definition has_column (name : string) (df : DataFrame) : bool :=
  existsb (fun c => String.eqb (fst c) name) (columns df).

(** Position and dtype of the first column called [name]. *)
Fixpoint find_column (name : string) (cols : list (string * dtype))
  : option (nat * dtype) :=
  match cols with
  | [] => None
  | (n, d) :: cols' =>
      if String.eqb n name then Some (O, d)
      else match find_column name cols' with
           | Some (i, d') => Some (S i, d')
           | None => None
           end
  end.

Definition cell_at (i : nat) (r : row) : cell := nth i (cells r) CNull.

(** [df[name]]: KeyError when the column is absent. *)
Definition getitem (df : DataFrame) (name : string) : outcome Series :=
  match find_column name (columns df) with
  | Some (i, d) => Returns (mkSeries d (map (cell_at i) (rows df)))
  | None => Raises (KeyError name)
  end.

(** Keep the entries of [l] whose flag in [m] is set. *)
Fixpoint mask {A : Type} (m : list bool) (l : list A) : list A :=
  match m, l with
  | b :: m', x :: l' => if b then x :: mask m' l' else mask m' l'
  | _, _ => []
  end.

(** [df.select_dtypes(include=['number'])] *)
Definition select_dtypes_number (df : DataFrame) : DataFrame :=
  let keep := map (fun c => is_number (snd c)) (columns df) in
  mkDF (mask keep (columns df))
       (map (fun r => mkRow (label r) (mask keep (cells r))) (rows df)).

(** [df.dropna()]: drop the rows holding any null. *)
Definition dropna (df : DataFrame) : DataFrame :=
  mkDF (columns df) (filter (fun r => forallb notna (cells r)) (rows df)).

(** [list(df.columns)] *)
Definition column_names (df : DataFrame) : list string :=
  map fst (columns df).

(** ** scikit-learn *)

Definition matrix : Type := list (list R).

(** The state of an unseeded random generator: what a run of the library
    draws from when it is given [random_state=None]. *)
Definition entropy : Type := Z.

Class Sklearn : Type := {
  (** [StandardScaler().fit_transform(df)] *)
  StandardScaler_fit_transform : DataFrame -> outcome matrix;
  (** [PCA(n_components, random_state).fit_transform(X)] with
      [explained_variance_ratio_] *)
  PCA_fit_transform :
    Z -> option Z -> entropy -> matrix -> outcome (matrix * list R);
  (** [KMeans(n_clusters, random_state).fit_predict(X)]; [columns] are the
      feature names of the frame it is given *)
  KMeans_fit_predict :
    Z -> option Z -> entropy -> list string -> matrix -> outcome (list Z)
}.


(** ** The projection: [perform_pca_analysis] *)

Inductive value : Type :=
| VFloat (x : R)
| VInt (n : Z).

(** [pca_df]: the components, by row, and the cluster labels once assigned. *)
Record PcaFrame : Type := mkPcaFrame {
  pc_names : list string;
  pc_rows : matrix;
  cluster : option (list Z)
}.

(** The [result] dict. *)
Record PcaResult : Type := mkPcaResult {
  explained_variance_ratio : list R;
  components : list (list (string * value))
}.

(** What [perform_pca_analysis] returns: the one-key error dict of line 111,
    or the pair of line 132. *)
Inductive PcaReturn : Type :=
| PcaErrorDict (msg : string)
| PcaPair (pca_df : PcaFrame) (result : PcaResult).

Definition insufficient_msg : string :=
  "No hay suficientes datos numéricos para realizar PCA".

(** [f'PC{i+1}' for i in range(n_components)] *)
Definition pc_column_names (n_components : Z) : list string :=
  map (fun i => String.append "PC" (NilEmpty.string_of_uint (Nat.to_uint (S i))))
      (seq 0 (Z.to_nat n_components)).

(** [pd.DataFrame(data, columns=names)]: the row widths must match. *)
Definition make_pca_frame (data : matrix) (names : list string)
  : outcome PcaFrame :=
  if forallb (fun r => Nat.eqb (length r) (length names)) data
  then Returns (mkPcaFrame names data None)
  else Raises (ValueError "Shape of passed values does not match columns").

(** [pca_df['cluster'] = clusters] *)
Definition set_cluster (f : PcaFrame) (clusters : list Z) : outcome PcaFrame :=
  if Nat.eqb (length clusters) (length (pc_rows f))
  then Returns (mkPcaFrame (pc_names f) (pc_rows f) (Some clusters))
  else Raises (ValueError "Length of values does not match length of index").

(** [pca_df.to_dict(orient='records')] *)
Definition to_records (f : PcaFrame) : list (list (string * value)) :=
  match cluster f with
  | None =>
      map (fun r => combine (pc_names f) (map VFloat r)) (pc_rows f)
  | Some cl =>
      map (fun rc => combine (pc_names f) (map VFloat (fst rc))
                       ++ [("cluster", VInt (snd rc))])
          (combine (pc_rows f) cl)
  end.

(** [df_num]: the number columns, without the rows holding a null. *)
Definition df_num (df : DataFrame) : DataFrame :=
  dropna (select_dtypes_number df).

(** [e] is what an unseeded generator would draw from during this call. *)
Definition perform_pca_analysis `{Sklearn} (e : entropy) (df : DataFrame)
    (n_components : Z) (apply_clustering : bool) (n_clusters : Z)
  : outcome PcaReturn :=
  if (fst (shape (df_num df)) =? 0) || (snd (shape (df_num df)) <? n_components)
  then Returns (PcaErrorDict insufficient_msg)
  else
    df_scaled <- StandardScaler_fit_transform (df_num df) ;;
    fitted <- PCA_fit_transform n_components None e df_scaled ;;
    let '(pca_result, ratio) := fitted in
    pca_df <- make_pca_frame pca_result (pc_column_names n_components) ;;
    let result := mkPcaResult ratio (to_records pca_df) in
    if apply_clustering then
      clusters <- KMeans_fit_predict n_clusters (Some 42) e
                    (pc_names pca_df) (pc_rows pca_df) ;;
      pca_df' <- set_cluster pca_df clusters ;;
      Returns (PcaPair pca_df' (mkPcaResult ratio (to_records pca_df')))
    else Returns (PcaPair pca_df result).

(** ** pandas *)

(** A Python float: a real number, or [None] for NaN. *)
Definition float : Type := option R.

(** The bytes of a CSV file. *)
Definition source : Type := list Byte.byte.

(** The [encoding_errors] argument of [read_csv]. *)
Inductive encoding_errors : Type := Strict | Replace.

(** The routines of pandas that [app.py] calls without looking into
    them, with NumPy's arithmetic behind the sums and Python's [float]
    on a [str] beside them. *)
Class Pandas : Type := {
  (** [pd.read_csv(src, encoding=enc, encoding_errors=policy)] *)
  read_csv : source -> string -> encoding_errors -> outcome DataFrame;
  (** [pd.to_datetime(values, errors='coerce')] on values that are not
      datetimes yet: a timestamp, or [None] for NaT, per position *)
  to_datetime_coerce : list cell -> list (option Z);
  (** [keys.argsort(kind='quicksort')], the sort behind [sort_values] *)
  argsort : list Z -> list nat;
  (** [Timestamp.strftime('%Y-%m-%d')] *)
  strftime_ymd : Z -> string;
  (** [float(Series.sum())] of a number column, given its non-null
      values, of which there is at least one: an int64 sum wraps around,
      a float64 sum is rounded, in the order NumPy adds *)
  series_sum : list R -> R;
  (** [float(Series.mean())] of a number column, given its non-null
      values, of which there is at least one *)
  series_mean : list R -> R;
  (** the sum of one group in [groupby(...).sum()], given the non-null
      values of the group, of which there is at least one, in the order
      of the rows *)
  group_sum : list R -> R;
  (** Python's [float(s)] on a [str]: [None] where it raises
      [ValueError] *)
  float_of_str : string -> option float
}.

(** What pandas documents of [argsort]: the result lists every position
    once, and reading the keys in that order is ascending.  The default
    kind, quicksort, is documented as not stable: the order of equal keys
    is left open. *)
Definition argsort_sorts `{Pandas} : Prop :=
  forall ks : list Z,
    Permutation (argsort ks) (seq 0 (length ks)) /\
    Sorted Z.le (map (fun i => nth i ks 0) (argsort ks)).

(** ** Loading: [load_data] *)

(** The [for encoding in ...] loop of [load_data] and the retry after it:
    a parsed frame is returned at once, [UnicodeDecodeError] moves on to
    the next encoding, any other exception leaves the loop. *)
Fixpoint try_encodings `{Pandas} (src : source) (encodings : list string)
  : outcome DataFrame :=
  match encodings with
  | [] => read_csv src "utf-8" Replace
  | encoding :: rest =>
      match read_csv src encoding Strict with
      | Returns df => Returns df
      | Raises (UnicodeDecodeError _) => try_encodings src rest
      | Raises e => Raises e
      end
  end.

Definition encodings : list string := ["latin1"; "iso-8859-1"; "cp1252"].

(** What [load_data] returns: a DataFrame, or the [str] of an exception. *)
Inductive loaded : Type :=
| Frame (df : DataFrame)
| ErrorStr (msg : string).

(** [load_data]: the outer [except Exception as e: return str(e)]. *)
Definition load_data `{Pandas} (src : source) : loaded :=
  match try_encodings src encodings with
  | Returns df => Frame df
  | Raises e => ErrorStr (str_exn e)
  end.

(** ** Preprocessing: [preprocess_data] *)

Definition is_datetime (d : dtype) : bool :=
  match d with DDatetime => true | _ => false end.

Definition date_cell (t : option Z) : cell :=
  match t with Some t => CDate t | None => CNull end.

(** [pd.to_datetime(series, errors='coerce')]: a datetime64 series is
    returned as it is, anything else is parsed. *)
Definition to_datetime `{Pandas} (s : Series) : Series :=
  if is_datetime (s_dtype s) then s
  else mkSeries DDatetime (map date_cell (to_datetime_coerce (s_values s))).

(** Replace the [i]-th entry of [l]. *)
Fixpoint set_nth {A : Type} (i : nat) (x : A) (l : list A) : list A :=
  match i, l with
  | _, [] => []
  | O, _ :: l' => x :: l'
  | S i', y :: l' => y :: set_nth i' x l'
  end.

(** Give each row the cell of [vals] at its position; a row past the end
    of [vals] gets a null. *)
Fixpoint set_cells (i : nat) (vals : list cell) (rs : list row) : list row :=
  match rs with
  | [] => []
  | r :: rs' =>
      mkRow (label r) (set_nth i (hd CNull vals) (cells r))
        :: set_cells i (tl vals) rs'
  end.

(** [df[name] = series] for a column at position [i]. *)
Definition setitem_at (i : nat) (name : string) (s : Series) (df : DataFrame)
  : DataFrame :=
  mkDF (set_nth i (name, s_dtype s) (columns df))
       (set_cells i (s_values s) (rows df)).

(** [df.dropna(subset=[name])] for a column at position [i]. *)
Definition dropna_subset_at (i : nat) (df : DataFrame) : DataFrame :=
  mkDF (columns df) (filter (fun r => notna (cell_at i r)) (rows df)).

(** The sort key of a row: its timestamp in column [i], if it has one. *)
Definition date_key (i : nat) (r : row) : option Z :=
  match cell_at i r with CDate t => Some t | _ => None end.

Definition has_date (i : nat) (r : row) : bool :=
  match date_key i r with Some _ => true | None => false end.

Definition key_or_zero (i : nat) (r : row) : Z :=
  match date_key i r with Some t => t | None => 0 end.

Definition empty_row : row := mkRow 0 [].

(** [l[order]]: the entries of [l] at the positions [order]. *)
Definition take {A : Type} (d : A) (l : list A) (order : list nat) : list A :=
  map (fun i => nth i l d) order.

(** [df.sort_values(name)] for a datetime column at position [i]: the
    rows with a timestamp in the order [argsort] gives, then the rows
    without one ([na_position='last']). *)
Definition sort_values_at `{Pandas} (i : nat) (df : DataFrame) : DataFrame :=
  let dated := filter (has_date i) (rows df) in
  let undated := filter (fun r => negb (has_date i r)) (rows df) in
  mkDF (columns df)
       (take empty_row dated (argsort (map (key_or_zero i) dated)) ++ undated).

Definition preprocess_data `{Pandas} (df : DataFrame) : DataFrame :=
  match find_column "ORDERDATE" (columns df) with
  | Some (i, d) =>
      let df1 :=
        setitem_at i "ORDERDATE"
          (to_datetime (mkSeries d (map (cell_at i) (rows df)))) df in
      let df2 := dropna_subset_at i df1 in
      sort_values_at i df2
  | None => df
  end.

(** The frame between parsing and sorting: the dates parsed, the rows
    without a date dropped. *)
Definition parsed `{Pandas} (i : nat) (d : dtype) (df : DataFrame) : DataFrame :=
  dropna_subset_at i
    (setitem_at i "ORDERDATE"
       (to_datetime (mkSeries d (map (cell_at i) (rows df)))) df).

(** The rows of a sorted frame: those with a date, in the order of
    [argsort], then the others. *)
Definition sorted_dated `{Pandas} (i : nat) (df : DataFrame) : list row :=
  take empty_row (filter (has_date i) (rows df))
    (argsort (map (key_or_zero i) (filter (has_date i) (rows df)))).

Definition undated (i : nat) (df : DataFrame) : list row :=
  filter (fun r => negb (has_date i r)) (rows df).

(** A cell of a parsed date column: a timestamp or NaT. *)
Definition date_or_null (c : cell) : Prop :=
  c = CNull \/ exists t, c = CDate t.

(** ** Statistics *)

Open Scope R_scope.

(** The numbers of a column, nulls skipped ([skipna=True]). *)
Fixpoint non_null (vals : list cell) : list R :=
  match vals with
  | [] => []
  | CNum x :: vals' => x :: non_null vals'
  | _ :: vals' => non_null vals'
  end.

Definition Rsum (xs : list R) : R := fold_right Rplus 0 xs.

Definition is_text (c : cell) : bool :=
  match c with CStr _ => true | _ => false end.

Definition is_num (c : cell) : bool :=
  match c with CNum _ => true | _ => false end.

(** What [mean], [std], [min], [max], [quantile] and [median] with the
    [float(...)] around them work on: the non-null values of a number
    column, and of an object column that holds no [str] (as the columns
    of a CSV file without rows are).  On an object column with a [str]
    [mean] raises; the mean of a datetime column is a [Timestamp] or
    [NaT], which [float] refuses. *)
Definition numeric_values (s : Series) : outcome (list R) :=
  match s_dtype s with
  | DNumber => Returns (non_null (s_values s))
  | DObject =>
      if existsb is_text (s_values s)
      then Raises (TypeError "Could not convert string to numeric")
      else Returns (non_null (s_values s))
  | DDatetime =>
      Raises (TypeError "float() argument must be a string or a real number")
  end.

(** [sum()]: the sum of no value is 0. *)
Definition sum_of `{Pandas} (xs : list R) : float :=
  match xs with
  | [] => Some 0
  | _ => Some (series_sum xs)
  end.

Definition mean_of `{Pandas} (xs : list R) : float :=
  match xs with
  | [] => None
  | _ => Some (series_mean xs)
  end.

Definition max_of (xs : list R) : float :=
  match xs with
  | [] => None
  | x :: xs' => Some (fold_left Rmax xs' x)
  end.

Definition min_of (xs : list R) : float :=
  match xs with
  | [] => None
  | x :: xs' => Some (fold_left Rmin xs' x)
  end.

(** Sample standard deviation ([ddof=1]). *)
Definition std_of (xs : list R) : float :=
  match xs with
  | [] | [_] => None
  | _ =>
      let m := Rsum xs / INR (length xs) in
      Some (sqrt (Rsum (map (fun x => (x - m) * (x - m)) xs)
                  / INR (length xs - 1)))
  end.

Fixpoint insert_sorted (x : R) (l : list R) : list R :=
  match l with
  | [] => [x]
  | y :: l' => if Rle_dec x y then x :: l else y :: insert_sorted x l'
  end.

Definition sort_R (xs : list R) : list R := fold_right insert_sorted [] xs.

(** [quantile(num/den)] with linear interpolation between the two
    neighbouring order statistics. *)
Definition quantile_of (num den : nat) (xs : list R) : float :=
  match sort_R xs with
  | [] => None
  | (v0 :: _) as v =>
      let h := ((length v - 1) * num)%nat in
      let lo := (h / den)%nat in
      let a := nth lo v v0 in
      let b := nth (S lo) v a in
      Some (a + (b - a) * (INR (h mod den) / INR den))
  end.

(** The mark at [h / den] positions from the start of a list: between
    the values at the two neighbouring positions. *)
Definition mark (v : list R) (d : R) (h den : nat) : R :=
  let a := nth (h / den) v d in
  let b := nth (S (h / den)) v a in
  a + (b - a) * (INR (h mod den) / INR den).

(** [median()] *)
Definition median_of (xs : list R) : float :=
  match sort_R xs with
  | [] => None
  | (v0 :: _) as v =>
      let n := length v in
      if Nat.odd n then Some (nth (n / 2) v v0)
      else Some ((nth (n / 2 - 1) v v0 + nth (n / 2) v v0) / 2)
  end.

Record Summary : Type := mkSummary {
  total_sales : float;
  average_sales : float;
  max_sales : float;
  min_sales : float;
  total_orders : Z
}.

(** The strings of a column, joined: the [sum] of a column of [str]. *)
Fixpoint joined (vals : list cell) : string :=
  match vals with
  | [] => ""
  | CStr s :: vals' => String.append s (joined vals')
  | _ :: vals' => joined vals'
  end.

(** [float(series.sum())]: a datetime column has no sum; the sum of an
    object column that holds a [str] is the join of its strings, which
    [float] parses or refuses, unless the column also holds a number,
    which cannot be added to a [str]. *)
Definition float_of_sum `{Pandas} (s : Series) : outcome float :=
  match s_dtype s with
  | DNumber => Returns (sum_of (non_null (s_values s)))
  | DDatetime =>
      Raises (TypeError "datetime64 type does not support sum operations")
  | DObject =>
      if existsb is_text (s_values s) then
        if existsb is_num (s_values s)
        then Raises (TypeError "unsupported operand type(s) for +")
        else match float_of_str (joined (s_values s)) with
             | Some x => Returns x
             | None => Raises (ValueError "could not convert string to float")
             end
      else Returns (sum_of (non_null (s_values s)))
  end.

Definition get_sales_summary `{Pandas} (df : DataFrame) : outcome Summary :=
  s <- getitem df "SALES" ;;
  total <- float_of_sum s ;;
  xs <- numeric_values s ;;
  Returns (mkSummary total (mean_of xs) (max_of xs) (min_of xs)
             (fst (shape df))).

(** One group more: [k] goes into its place among the ascending keys. *)
Fixpoint group_add {V : Type} (add : V -> V -> V) (k : Z) (v : V)
    (gs : list (Z * V)) : list (Z * V) :=
  match gs with
  | [] => [(k, v)]
  | (k', s) :: gs' =>
      if (k <? k')%Z then (k, v) :: gs
      else if (k =? k')%Z then (k', add s v) :: gs'
      else (k', s) :: group_add add k v gs'
  end.

(** [groupby(key).sum()]: one entry per distinct key, keys ascending,
    each with the sum of its group. *)
Definition groupby_agg {V : Type} (add : V -> V -> V) (kvs : list (Z * V))
  : list (Z * V) :=
  fold_left (fun gs kv => group_add add (fst kv) (snd kv) gs) kvs [].

(** The groups of [groupby(key)]: one entry per distinct key, keys
    ascending, each with the values of its group in the order given. *)
Definition groupby_values (kvs : list (Z * list R)) : list (Z * list R) :=
  groupby_agg (@app R) kvs.

(** The sum of a group: 0 when it has no value. *)
Definition group_total `{Pandas} (vs : list R) : R :=
  match vs with
  | [] => 0
  | _ => group_sum vs
  end.

(** [groupby(key).sum()]: each group summed by the library. *)
Definition groupby_sum `{Pandas} (kvs : list (Z * list R)) : list (Z * R) :=
  map (fun g => (fst g, group_total (snd g))) (groupby_values kvs).

(** What a cell adds to its group: its number, nothing when it is null. *)
Definition number_in (c : cell) : list R :=
  match c with CNum x => [x] | _ => [] end.

(** The number in a cell, 0 when there is none. *)
Definition num_or_zero (c : cell) : R :=
  match c with CNum x => x | _ => 0 end.

(** The (key, value) pairs that [groupby] sees, the value of a row read
    by [f]: rows whose key is null are left out ([dropna=True]). *)
Fixpoint keyed {V : Type} (f : cell -> V) (i j : nat) (rs : list row)
  : list (Z * V) :=
  match rs with
  | [] => []
  | r :: rs' =>
      match date_key i r with
      | Some t => (t, f (cell_at j r)) :: keyed f i j rs'
      | None => keyed f i j rs'
      end
  end.

Definition keyed_values (i j : nat) (rs : list row) : list (Z * list R) :=
  keyed number_in i j rs.

(** The sum of a text column joins its strings; a group without any
    string sums to 0. *)
Definition text_of (c : cell) : option string :=
  match c with CStr s => Some s | _ => None end.

Definition join_text (a b : option string) : option string :=
  match a, b with
  | Some x, Some y => Some (String.append x y)
  | Some x, None => Some x
  | None, _ => b
  end.

Definition text_cell (t : option string) : cell :=
  match t with Some s => CStr s | None => CNum 0 end.

(** The frame [group_sales_by_date] returns, by row: [ORDERDATE] (a date
    string) and [SALES] (the sum of the group).  The sum of a datetime
    column is refused by pandas; [.dt] is refused on a key column that
    holds no datetimes. *)
Definition group_sales_by_date `{Pandas} (df : DataFrame)
  : outcome (list (string * cell)) :=
  match find_column "ORDERDATE" (columns df) with
  | None => Raises (KeyError "ORDERDATE")
  | Some (i, dk) =>
      match find_column "SALES" (columns df) with
      | None => Raises (KeyError "Column not found: SALES")
      | Some (j, dv) =>
          match dv with
          | DDatetime =>
              Raises (TypeError "datetime64 type does not support sum operations")
          | _ =>
              if negb (is_datetime dk)
              then Raises (AttributeError
                             "Can only use .dt accessor with datetimelike values")
              else
                let sums :=
                  if is_number dv
                  then map (fun g => (fst g, CNum (snd g)))
                         (groupby_sum (keyed_values i j (rows df)))
                  else map (fun g => (fst g, text_cell (snd g)))
                         (groupby_agg join_text (keyed text_of i j (rows df)))
                in
                Returns (map (fun g => (strftime_ymd (fst g), snd g)) sums)
          end
      end
  end.

(** The numbers of the [SALES] column of such a frame. *)
Definition grouped_sales (g : list (string * cell)) : list R :=
  map (fun r => num_or_zero (snd r)) g.

(** The rows on which both columns hold a number. *)
Fixpoint complete_pairs (a b : list cell) : list (R * R) :=
  match a, b with
  | CNum x :: a', CNum y :: b' => (x, y) :: complete_pairs a' b'
  | _ :: a', _ :: b' => complete_pairs a' b'
  | _, _ => []
  end.

(** A pair of values, the other way round. *)
Definition swap (p : R * R) : R * R := (snd p, fst p).

(** Sum of products of deviations from the means. *)
Definition codeviation (xs ys : list R) : R :=
  let mx := Rsum xs / INR (length xs) in
  let my := Rsum ys / INR (length ys) in
  Rsum (map (fun p => (fst p - mx) * (snd p - my)) (combine xs ys)).

Definition clip (x : R) : R := Rmax (-1) (Rmin 1 x).

(** Pearson correlation of two columns over their complete pairs
    ([min_periods=1]); NaN when the divisor vanishes. *)
Definition pearson (a b : list cell) : float :=
  let ps := complete_pairs a b in
  let xs := map fst ps in
  let ys := map snd ps in
  match ps with
  | [] => None
  | _ =>
      let divisor := sqrt (codeviation xs xs * codeviation ys ys) in
      if Req_dec_T divisor 0 then None
      else Some (clip (codeviation xs ys / divisor))
  end.

(** A square frame of floats with the same labels on both axes. *)
Record CorrMatrix : Type := mkCorr {
  corr_labels : list string;
  corr_values : list (list float)
}.

Definition column_cells (j : nat) (df : DataFrame) : list cell :=
  map (cell_at j) (rows df).

(** [DataFrame.corr()] *)
Definition corr (df : DataFrame) : CorrMatrix :=
  let js := seq 0 (length (columns df)) in
  mkCorr (column_names df)
         (map (fun i =>
                 map (fun j => pearson (column_cells i df) (column_cells j df))
                     js)
              js).

Definition get_correlation_matrix (df : DataFrame) : CorrMatrix :=
  corr (select_dtypes_number df).

Record Distribution : Type := mkDistribution {
  d_mean : float;
  d_std : float;
  d_min : float;
  d_max : float;
  d_q25 : float;
  d_q50 : float;
  d_q75 : float
}.

Definition distribution_of `{Pandas} (xs : list R) : Distribution :=
  mkDistribution (mean_of xs) (std_of xs) (min_of xs) (max_of xs)
    (quantile_of 1 4 xs) (median_of xs) (quantile_of 3 4 xs).

(** [get_sales_distribution]: [None] when the column is absent. *)
Definition get_sales_distribution `{Pandas} (df : DataFrame) (column : string)
  : outcome (option Distribution) :=
  if negb (has_column column df) then Returns None
  else
    s <- getitem df column ;;
    xs <- numeric_values s ;;
    Returns (Some (distribution_of xs)).

Close Scope R_scope.

(** ** Charts *)

(** The bytes of a PNG image. *)
Definition image : Type := list Byte.byte.

(** matplotlib / seaborn: a figure drawn from the data and saved as PNG. *)
Class Renderer : Type := {
  render_line : list (string * cell) -> outcome image;
  render_heatmap : CorrMatrix -> outcome image;
  render_hist : string -> list cell -> outcome image;
  render_scatter3d : PcaFrame -> outcome image;
  render_scatter2d : PcaFrame -> outcome image
}.

Definition plot_grouped_sales `{Pandas} `{Renderer} (df : DataFrame)
  : outcome image :=
  grouped <- group_sales_by_date df ;;
  render_line grouped.

Definition plot_correlation_heatmap `{Renderer} (df : DataFrame)
  : outcome image :=
  render_heatmap (get_correlation_matrix df).

(** [plot_sales_distribution]: [None] when the column is absent. *)
Definition plot_sales_distribution `{Renderer} (df : DataFrame)
    (column : string) : outcome (option image) :=
  if negb (has_column column df) then Returns None
  else
    s <- getitem df column ;;
    img <- render_hist column (filter notna (s_values s)) ;;
    Returns (Some img).

Definition unpack_error : exn :=
  ValueError "not enough values to unpack (expected 2, got 1)".

(** [a, b = perform_pca_analysis(...)]: the one-key error dict does not
    unpack into two names. *)
Definition unpack_pair (r : PcaReturn) : outcome (PcaFrame * PcaResult) :=
  match r with
  | PcaPair pca_df result => Returns (pca_df, result)
  | PcaErrorDict _ => Raises unpack_error
  end.

Definition plot_pca_clusters `{Sklearn} `{Renderer} (e : entropy)
    (df : DataFrame) (n_components n_clusters : Z) : outcome image :=
  r <- perform_pca_analysis e df n_components true n_clusters ;;
  p <- unpack_pair r ;;
  if 3 <=? n_components then render_scatter3d (fst p)
  else render_scatter2d (fst p).

(** ** The session and the routes *)

(** [df_global]: [None], the [str] of a failed load, or a DataFrame. *)
Inductive pyval : Type :=
| PyNone
| PyStr (s : string)
| PyFrame (df : DataFrame).

Record session : Type := mkSession {
  df_global : pyval;
  data_initialized : bool
}.

(** The file system at [DATA_FILE]: its bytes, when the path exists. *)
Class FileSystem : Type := { data_file : option source }.

(** [initialize_data], run before every request. *)
Definition initialize_data `{Pandas} `{FileSystem} (s : session) : session :=
  if data_initialized s then s
  else
    match data_file with
    | Some src =>
        match load_data src with
        | Frame df => mkSession (PyFrame (preprocess_data df)) true
        | ErrorStr msg => mkSession (PyStr msg) true
        end
    | None => mkSession (df_global s) true
    end.

(** The JSON documents and images the routes answer with. *)
Inductive body : Type :=
| JError (message : string)
| JMessage (message : string)
| JSummary (s : Summary)
| JRecords (records : list (string * cell))
| JDistribution (d : Distribution)
| JPca (result : PcaResult)
| JUploaded (n_rows n_columns : Z) (names : list string)
| JStatusNoData
| JStatusError (message : string)
| JStatusLoaded (n_rows n_columns : Z) (names : list string)
    (has_sales has_orderdate : bool) (numeric : list string)
| Png (img : image).

Record response : Type := mkResponse { resp_body : body; resp_code : Z }.

(** What [check_data_loaded] returns: [(False, response, 400)], or
    [(True, None, None)] when [df_global] is a DataFrame. *)
Inductive check : Type :=
| NotLoaded (resp : body) (code : Z)
| IsLoaded (df : DataFrame).

Definition no_data_msg : string :=
  "No hay datos cargados. Utiliza POST /upload para cargar un archivo CSV.".

Definition check_data_loaded (g : pyval) : check :=
  match g with
  | PyNone => NotLoaded (JError no_data_msg) 400
  | PyStr s => NotLoaded (JError (String.append "Error con los datos: " s)) 400
  | PyFrame df => IsLoaded df
  end.

Definition ok (b : body) : outcome response := Returns (mkResponse b 200).

Definition no_sales_msg : string := "Columna SALES no encontrada".

Definition summary `{Pandas} (g : pyval) : outcome response :=
  match check_data_loaded g with
  | NotLoaded resp code => Returns (mkResponse resp code)
  | IsLoaded df => s <- get_sales_summary df ;; ok (JSummary s)
  end.

Definition grouped `{Pandas} (g : pyval) : outcome response :=
  match check_data_loaded g with
  | NotLoaded resp code => Returns (mkResponse resp code)
  | IsLoaded df => r <- group_sales_by_date df ;; ok (JRecords r)
  end.

(** [jsonify] is handed the DataFrame itself, which it cannot serialize. *)
Definition correlation (g : pyval) : outcome response :=
  match check_data_loaded g with
  | NotLoaded resp code => Returns (mkResponse resp code)
  | IsLoaded df =>
      let _ := get_correlation_matrix df in
      Raises (TypeError "Object of type DataFrame is not JSON serializable")
  end.

Definition distribution `{Pandas} (g : pyval) : outcome response :=
  match check_data_loaded g with
  | NotLoaded resp code => Returns (mkResponse resp code)
  | IsLoaded df =>
      dist <- get_sales_distribution df "SALES" ;;
      match dist with
      | None => Returns (mkResponse (JError no_sales_msg) 400)
      | Some d => ok (JDistribution d)
      end
  end.

Definition pca `{Sklearn} (e : entropy) (g : pyval) : outcome response :=
  match check_data_loaded g with
  | NotLoaded resp code => Returns (mkResponse resp code)
  | IsLoaded df =>
      r <- perform_pca_analysis e df 3 true 3 ;;
      p <- unpack_pair r ;;
      ok (JPca (snd p))
  end.

Definition plot_grouped `{Pandas} `{Renderer} (g : pyval) : outcome response :=
  match check_data_loaded g with
  | NotLoaded resp code => Returns (mkResponse resp code)
  | IsLoaded df => img <- plot_grouped_sales df ;; ok (Png img)
  end.

Definition plot_corr `{Renderer} (g : pyval) : outcome response :=
  match check_data_loaded g with
  | NotLoaded resp code => Returns (mkResponse resp code)
  | IsLoaded df => img <- plot_correlation_heatmap df ;; ok (Png img)
  end.

Definition plot_dist `{Renderer} (g : pyval) : outcome response :=
  match check_data_loaded g with
  | NotLoaded resp code => Returns (mkResponse resp code)
  | IsLoaded df =>
      img <- plot_sales_distribution df "SALES" ;;
      match img with
      | None => Returns (mkResponse (JError no_sales_msg) 400)
      | Some i => ok (Png i)
      end
  end.

Definition plot_pca `{Sklearn} `{Renderer} (e : entropy) (g : pyval)
  : outcome response :=
  match check_data_loaded g with
  | NotLoaded resp code => Returns (mkResponse resp code)
  | IsLoaded df => img <- plot_pca_clusters e df 3 3 ;; ok (Png img)
  end.

(** [POST /upload]: the uploaded file, if the request has one, as its
    name and bytes.  [df_global] is assigned before the result is looked at. *)
Definition upload_file `{Pandas} (file : option (string * source))
    (s : session) : session * response :=
  match file with
  | None => (s, mkResponse (JError "No se envió ningún archivo") 400)
  | Some (filename, src) =>
      if String.eqb filename ""
      then (s, mkResponse (JError "No se seleccionó ningún archivo") 400)
      else
        match load_data src with
        | ErrorStr msg =>
            (mkSession (PyStr msg) (data_initialized s),
             mkResponse
               (JError (String.append "Error al cargar el archivo: " msg)) 400)
        | Frame df =>
            let df' := preprocess_data df in
            (mkSession (PyFrame df') (data_initialized s),
             mkResponse
               (JUploaded (fst (shape df')) (snd (shape df'))
                  (column_names df')) 200)
        end
  end.

Definition status (g : pyval) : response :=
  match g with
  | PyNone => mkResponse JStatusNoData 200
  | PyStr s => mkResponse (JStatusError s) 200
  | PyFrame df =>
      mkResponse
        (JStatusLoaded (fst (shape df)) (snd (shape df)) (column_names df)
           (has_column "SALES" df) (has_column "ORDERDATE" df)
           (column_names (select_dtypes_number df))) 200
  end.

(** The read routes, by name. *)
Inductive route : Type :=
| RSummary | RGrouped | RCorrelation | RDistribution | RPca
| RPlotGrouped | RPlotCorr | RPlotDist | RPlotPca.

Definition dispatch `{Pandas} `{Sklearn} `{Renderer} (e : entropy) (r : route)
    (g : pyval) : outcome response :=
  match r with
  | RSummary => summary g
  | RGrouped => grouped g
  | RCorrelation => correlation g
  | RDistribution => distribution g
  | RPca => pca e g
  | RPlotGrouped => plot_grouped g
  | RPlotCorr => plot_corr g
  | RPlotDist => plot_dist g
  | RPlotPca => plot_pca e g
  end.

(** A GET request: [before_request_func], then the route. *)
Definition request `{Pandas} `{Sklearn} `{Renderer} `{FileSystem}
    (e : entropy) (r : route) (s : session) : session * outcome response :=
  let s' := initialize_data s in
  (s', dispatch e r (df_global s')).


(** ** Failures, as the interface names them *)

Inductive failure : Type :=
| LoadError
| NotLoadedError
| ColumnNotFoundError
| InsufficientDataError
| InvalidParameterError.

(** How a call ends: with a value, with one of the failures the service
    reports itself, or with an exception of a library. *)
Inductive ending : Type :=
| Succeeds
| Fails (f : failure)
| LibraryException (e : exn).

(** The projection reports one failure of its own, the error dict. *)
Definition pca_ending (r : outcome PcaReturn) : ending :=
  match r with
  | Returns (PcaErrorDict _) => Fails InsufficientDataError
  | Returns (PcaPair _ _) => Succeeds
  | Raises e => LibraryException e
  end.

(** The distribution reports an absent column by returning [None]. *)
Definition distribution_ending (r : outcome (option Distribution)) : ending :=
  match r with
  | Returns None => Fails ColumnNotFoundError
  | Returns (Some _) => Succeeds
  | Raises e => LibraryException e
  end.

(** ** Stand-ins for the libraries, to run the service on examples *)

(** The number of rows and of columns of a matrix, whichever is less. *)
Definition min_dimension (X : matrix) : Z :=
  Z.of_nat (Nat.min (length X) (length (hd [] X))).

(** A scaler that passes numbers through, a PCA that refuses a number of
    components below one or above the smaller dimension of the data and
    otherwise keeps the first [n_components] coordinates, a k-means that
    refuses a cluster count below one or above the number of rows and
    otherwise labels every row 0 when seeded, and by the entropy when
    not. *)
Definition toy_sklearn : Sklearn := {|
  StandardScaler_fit_transform df :=
    Returns (map (fun r => non_null (cells r)) (rows df));
  PCA_fit_transform n random_state e X :=
    if (n <? 1) || (min_dimension X <? n)
    then Raises (LibraryError "n_components out of range")
    else Returns (map (firstn (Z.to_nat n)) X, repeat 0%R (Z.to_nat n));
  KMeans_fit_predict n random_state e names X :=
    if (n <? 1) || (Z.of_nat (length X) <? n)
    then Raises (LibraryError "n_clusters out of range")
    else match random_state with
         | Some _ => Returns (map (fun _ => 0) X)
         | None => Returns (map (fun _ => e mod n) X)
         end
|}.


(** Three number columns, two full rows and one with a null. *)
Definition df_three : DataFrame :=
  mkDF [("A", DNumber); ("CITY", DObject); ("B", DNumber); ("C", DNumber)]
       [mkRow 0 [CNum 1; CStr "NYC"; CNum 2; CNum 3];
        mkRow 1 [CNum 4; CStr "Paris"; CNull; CNum 6];
        mkRow 2 [CNum 7; CNull; CNum 8; CNum 9]].

(** No number column at all. *)
Definition df_text : DataFrame :=
  mkDF [("CITY", DObject)] [mkRow 0 [CStr "NYC"]; mkRow 1 [CStr "Paris"]].

(** One number column. *)
Definition df_one : DataFrame :=
  mkDF [("SALES", DNumber)] [mkRow 0 [CNum 100]].

(** The response of [check_data_loaded] when [df_global] is no DataFrame. *)
Definition not_loaded_response (g : pyval) : option response :=
  match check_data_loaded g with
  | NotLoaded resp code => Some (mkResponse resp code)
  | IsLoaded _ => None
  end.

(** [df_global] is [None] or a [str]: no load has succeeded, or the
    last one failed. *)
Definition no_table (g : pyval) : Prop :=
  match g with
  | PyFrame _ => False
  | _ => True
  end.

(** The session at start-up. *)
Definition initial_session : session := mkSession PyNone false.

(** [read_csv] raised [UnicodeDecodeError] under [enc]. *)
Definition decode_fails `{Pandas} (src : source) (enc : string) : Prop :=
  exists m, read_csv src enc Strict = Raises (UnicodeDecodeError m).

(** Insertion of a position among positions ordered by key; a position
    goes before the equal keys already there when [before_ties] is set,
    after them otherwise. *)
Fixpoint insert_pos (before_ties : bool) (ks : list Z) (i : nat)
    (l : list nat) : list nat :=
  match l with
  | [] => [i]
  | j :: l' =>
      if (if before_ties then nth i ks 0 <=? nth j ks 0
          else nth i ks 0 <? nth j ks 0)
      then i :: l
      else j :: insert_pos before_ties ks i l'
  end.

(** An argsort by insertion: stable when [before_ties] is set, and
    reversing the order of equal keys otherwise. *)
Definition insertion_argsort (before_ties : bool) (ks : list Z) : list nat :=
  fold_right (insert_pos before_ties ks) [] (seq 0 (length ks)).

Definition toy_parse_date (c : cell) : option Z :=
  match c with
  | CDate t => Some t
  | CStr s =>
      if String.eqb s "2021-01-01" then Some 1
      else if String.eqb s "2021-01-02" then Some 2
      else None
  | _ => None
  end.

(** A pandas that reads a file by its first byte only: ["a"] parses
    under latin1, [x80] only under iso-8859-1, [xff] only with invalid
    characters replaced, [xfe] under nothing, anything else is not
    tabular. *)
Definition toy_read_csv (src : source) (enc : string) (p : encoding_errors)
  : outcome DataFrame :=
  match src, p with
  | Byte.x61 :: _, _ => Returns df_one
  | Byte.x80 :: _, Strict =>
      if String.eqb enc "iso-8859-1" then Returns df_three
      else Raises (UnicodeDecodeError "invalid start byte")
  | Byte.xff :: _, Strict => Raises (UnicodeDecodeError "invalid start byte")
  | Byte.xff :: _, Replace => Returns df_text
  | Byte.xfe :: _, _ => Raises (UnicodeDecodeError "invalid start byte")
  | _, _ => Raises (LibraryError "No columns to parse from file")
  end.

(** Sums and means without rounding. *)
Definition exact_mean_of (xs : list R) : R := (Rsum xs / INR (length xs))%R.

Definition toy_pandas (before_ties : bool) : Pandas := {|
  read_csv := toy_read_csv;
  to_datetime_coerce := map toy_parse_date;
  argsort := insertion_argsort before_ties;
  strftime_ymd t :=
    if t =? 1 then "2021-01-01" else if t =? 2 then "2021-01-02" else "other";
  series_sum := Rsum;
  series_mean := exact_mean_of;
  group_sum := Rsum;
  float_of_str _ := None
|}.

(** The same pandas with an argsort shaped after quicksort: stable on
    up to 16 keys, as an insertion sort is, and not stable above. *)
Definition quicksort_pandas : Pandas := {|
  read_csv := toy_read_csv;
  to_datetime_coerce := map toy_parse_date;
  argsort ks := insertion_argsort (length ks <=? 16)%nat ks;
  strftime_ymd t :=
    if t =? 1 then "2021-01-01" else if t =? 2 then "2021-01-02" else "other";
  series_sum := Rsum;
  series_mean := exact_mean_of;
  group_sum := Rsum;
  float_of_str _ := None
|}.

(** Addition in the manner of float64, whose values carry 53 binary
    digits: an addend more than [2^53] times smaller than the other is
    lost. *)
Definition absorbing_add (x y : R) : R :=
  if Rlt_dec (Rabs y * 9007199254740992) (Rabs x) then x
  else if Rlt_dec (Rabs x * 9007199254740992) (Rabs y) then y
  else (x + y)%R.

Definition absorbing_sum (xs : list R) : R := fold_left absorbing_add xs 0%R.

(** The same pandas with sums that add from left to right and lose small
    addends. *)
Definition absorbing_pandas : Pandas := {|
  read_csv := toy_read_csv;
  to_datetime_coerce := map toy_parse_date;
  argsort := insertion_argsort true;
  strftime_ymd t :=
    if t =? 1 then "2021-01-01" else if t =? 2 then "2021-01-02" else "other";
  series_sum := absorbing_sum;
  series_mean xs := (absorbing_sum xs / INR (length xs))%R;
  group_sum := absorbing_sum;
  float_of_str _ := None
|}.

(** The same pandas with timestamps in hours since the epoch. *)
Definition hourly_pandas : Pandas := {|
  read_csv := toy_read_csv;
  to_datetime_coerce := map toy_parse_date;
  argsort := insertion_argsort true;
  strftime_ymd t :=
    if t <? 24 then "1970-01-01" else if t <? 48 then "1970-01-02"
    else "later";
  series_sum := Rsum;
  series_mean := exact_mean_of;
  group_sum := Rsum;
  float_of_str _ := None
|}.

Definition toy_renderer : Renderer := {|
  render_line _ := Returns [];
  render_heatmap _ := Returns [];
  render_hist _ _ := Returns [];
  render_scatter3d _ := Returns [];
  render_scatter2d _ := Returns []
|}.

Definition no_data_file : FileSystem := {| data_file := None |}.

(** A frame as the preprocessor leaves it and the sales views need it:
    [ORDERDATE] is a datetime column without nulls, [SALES] a number
    column. *)
Definition dated_sales_table (df : DataFrame) : Prop :=
  exists i j,
    find_column "ORDERDATE" (columns df) = Some (i, DDatetime)
    /\ find_column "SALES" (columns df) = Some (j, DNumber)
    /\ Forall (fun r => has_date i r = true) (rows df).

(** The scenario table of the specification, preprocessed. *)
Definition df_scenario : DataFrame :=
  mkDF [("ORDERDATE", DDatetime); ("SALES", DNumber)]
       [mkRow 0 [CDate 1; CNum 100];
        mkRow 1 [CDate 1; CNum 50];
        mkRow 2 [CDate 2; CNum 30]].

(** Three orders, one of them without a [SALES] value. *)
Definition df_missing_sales : DataFrame :=
  mkDF [("SALES", DNumber)]
       [mkRow 0 [CNum 100]; mkRow 1 [CNull]; mkRow 2 [CNum 50]].

(** The entry of a correlation matrix at row [i], column [j]. *)
Definition corr_entry (m : CorrMatrix) (i j : nat) : float :=
  nth j (nth i (corr_values m) []) None.

(** A column has zero variance when the squared deviations of its
    numbers from their mean add up to 0. *)
Definition zero_variance (vals : list cell) : Prop :=
  codeviation (non_null vals) (non_null vals) = 0%R.

(** Two correlated number columns, a constant one and a text column. *)
Definition df_corr : DataFrame :=
  mkDF [("X", DNumber); ("CITY", DObject); ("Y", DNumber); ("Z", DNumber)]
       [mkRow 0 [CNum 1; CStr "NYC"; CNum 2; CNum 5];
        mkRow 1 [CNum 2; CStr "Paris"; CNum 4; CNum 5];
        mkRow 2 [CNum 3; CStr "Rome"; CNum 6; CNum 5]].

(** Two orders of the same day, as read from a CSV file. *)
Definition df_same_day : DataFrame :=
  mkDF [("ORDERDATE", DObject); ("SALES", DNumber)]
       [mkRow 0 [CStr "2021-01-01"; CNum 100];
        mkRow 1 [CStr "2021-01-01"; CNum 50]].

(** Eighteen orders of the same day, as read from a CSV file. *)
Definition df_busy_day : DataFrame :=
  mkDF [("ORDERDATE", DObject); ("SALES", DNumber)]
       (map (fun n => mkRow (Z.of_nat n) [CStr "2021-01-01"; CNum (INR n)])
            (seq 0 18)).

(** Three orders on two days, the later day first, one date unreadable. *)
Definition df_two_days : DataFrame :=
  mkDF [("ORDERDATE", DObject); ("SALES", DNumber)]
       [mkRow 0 [CStr "2021-01-02"; CNum 30];
        mkRow 1 [CStr "soon"; CNum 20];
        mkRow 2 [CStr "2021-01-01"; CNum 100]].

(** A large order and two small ones the day after. *)
Definition df_large_and_small : DataFrame :=
  mkDF [("ORDERDATE", DDatetime); ("SALES", DNumber)]
       [mkRow 0 [CDate 1; CNum 10000000000000000];
        mkRow 1 [CDate 2; CNum 1];
        mkRow 2 [CDate 2; CNum 1]].

(** Two orders at different hours of the first day, one the day after. *)
Definition df_hours : DataFrame :=
  mkDF [("ORDERDATE", DDatetime); ("SALES", DNumber)]
       [mkRow 0 [CDate 9; CNum 100];
        mkRow 1 [CDate 30; CNum 30];
        mkRow 2 [CDate 17; CNum 50]].

(** A CSV file with a header and no rows: every column has dtype object. *)
Definition df_header_only : DataFrame :=
  mkDF [("ORDERDATE", DObject); ("SALES", DObject)] [].

(** Amounts read as text. *)
Definition df_text_sales : DataFrame :=
  mkDF [("SALES", DObject)]
       [mkRow 0 [CStr "1,200"]; mkRow 1 [CNull]; mkRow 2 [CStr "n/a"]].

(** Four orders with three number columns. *)
Definition df_four : DataFrame :=
  mkDF [("QUANTITY", DNumber); ("PRICE", DNumber); ("SALES", DNumber)]
       [mkRow 0 [CNum 1; CNum 20; CNum 20];
        mkRow 1 [CNum 2; CNum 10; CNum 20];
        mkRow 2 [CNum 3; CNum 5; CNum 15];
        mkRow 3 [CNum 4; CNum 5; CNum 20]].

(** ** Frames, rows and sessions in general *)

(** Every row has one cell per column. *)
Definition well_formed (df : DataFrame) : Prop :=
  Forall (fun r => length (cells r) = length (columns df)) (rows df).

(** [r'] is [r] with the cell at position [i] possibly replaced. *)
Definition same_but_at (i : nat) (r' r : row) : Prop :=
  label r' = label r
  /\ length (cells r') = length (cells r)
  /\ forall k, k <> i -> cell_at k r' = cell_at k r.

(** The values listed under the key [t], in the order of the list. *)
Definition values_at (t : Z) (kvs : list (Z * list R)) : list R :=
  concat (map snd (filter (fun kv => fst kv =? t) kvs)).

(** The rows of the date [t]. *)
Definition on_date (i : nat) (t : Z) (r : row) : bool :=
  match date_key i r with
  | Some t' => t' =? t
  | None => false
  end.

(** The library sums [xs] without rounding and without wrapping around:
    the result is the sum of [xs]. *)
Definition exact_sum `{Pandas} (xs : list R) : Prop :=
  sum_of xs = Some (Rsum xs).

(** The mean the library computes of [xs] is their sum over their
    number. *)
Definition exact_mean `{Pandas} (xs : list R) : Prop :=
  xs <> [] -> mean_of xs = Some (Rsum xs / INR (length xs))%R.

(** Neither the sum of [SALES] nor the sum of the [SALES] of any date is
    rounded or wraps around. *)
Definition sums_are_exact_in `{Pandas} (df : DataFrame) : Prop :=
  forall i j,
    find_column "ORDERDATE" (columns df) = Some (i, DDatetime) ->
    find_column "SALES" (columns df) = Some (j, DNumber) ->
    exact_sum (non_null (column_cells j df))
    /\ forall t,
         group_total (non_null (map (cell_at j) (filter (on_date i t) (rows df))))
         = Rsum (non_null (map (cell_at j) (filter (on_date i t) (rows df)))).

(** [POST /upload] as a request: [before_request_func], then the route. *)
Definition post_upload `{Pandas} `{FileSystem}
    (file : option (string * source)) (s : session) : session * response :=
  upload_file file (initialize_data s).

(** [GET /status] as a request. *)
Definition get_status `{Pandas} `{FileSystem} (s : session)
  : session * response :=
  let s' := initialize_data s in
  (s', status (df_global s')).

(** The requests that reach the session. *)
Inductive event : Type :=
| Get (e : entropy) (r : route)
| GetStatus
| Upload (file : option (string * source)).

(** The session after a request. *)
Definition handle `{Pandas} `{Sklearn} `{Renderer} `{FileSystem}
    (ev : event) (s : session) : session :=
  match ev with
  | Get e r => fst (request e r s)
  | GetStatus => fst (get_status s)
  | Upload file => fst (post_upload file s)
  end.

(** The session after a sequence of requests. *)
Definition run `{Pandas} `{Sklearn} `{Renderer} `{FileSystem}
    (evs : list event) (s : session) : session :=
  fold_left (fun s ev => handle ev s) evs s.

(** The table of the session, if there is one, came out of the
    preprocessor. *)
Definition holds_preprocessed_table `{Pandas} (s : session) : Prop :=
  match df_global s with
  | PyFrame df => exists raw, df = preprocess_data raw
  | _ => True
  end.

(** A data file with one readable order. *)
Definition one_order_file : FileSystem := {| data_file := Some [Byte.x61] |}.

(** * Properties *)

(** ** The projection *)

Section Projection.

Context {sk : Sklearn}.

Lemma bind_returns {A B : Type} (m : outcome A) (k : A -> outcome B) (a : A) :
  m = Returns a -> bind m k = k a.
Proof. intros ->. reflexivity. Qed.

Lemma bind_raises {A B : Type} (m : outcome A) (k : A -> outcome B) (e : exn) :
  m = Raises e -> bind m k = Raises e.
Proof. intros ->. reflexivity. Qed.

(** The guard of line 110, as a proposition. *)
Lemma guard_spec (df : DataFrame) (k : Z) :
  (fst (shape (df_num df)) =? 0) || (snd (shape (df_num df)) <? k) = true
  <-> fst (shape (df_num df)) = 0 \/ snd (shape (df_num df)) < k.
Proof.
  rewrite orb_true_iff, Z.eqb_eq, Z.ltb_lt. tauto.
Qed.

(** Past the guard the function ends with the pair or with an exception
    of a library, never with the error dict. *)
Lemma past_guard_no_error_dict (e : entropy) (df : DataFrame) (k : Z)
    (cl : bool) (c : Z) :
  (fst (shape (df_num df)) =? 0) || (snd (shape (df_num df)) <? k) = false ->
  forall msg, perform_pca_analysis e df k cl c <> Returns (PcaErrorDict msg).
Proof.
  intros Hg msg. unfold perform_pca_analysis. rewrite Hg.
  destruct (StandardScaler_fit_transform (df_num df)) as [X|ex]; simpl;
    [|discriminate].
  destruct (PCA_fit_transform k None e X) as [[Y ratio]|ex]; simpl;
    [|discriminate].
  destruct (make_pca_frame Y (pc_column_names k)) as [f|ex]; simpl;
    [|discriminate].
  destruct cl; [|discriminate].
  destruct (KMeans_fit_predict c (Some 42) e (pc_names f) (pc_rows f))
    as [labels|ex]; simpl; [|discriminate].
  destruct (set_cluster f labels) as [f'|ex]; simpl; discriminate.
Qed.

Lemma mask_all_false {A : Type} (m : list bool) (l : list A) :
  Forall (fun b => b = false) m -> mask m l = [].
Proof.
  intros Hm. revert l. induction Hm as [|b m Hb _ IH]; intros l.
  - reflexivity.
  - destruct l as [|x l]; [reflexivity|]. simpl. rewrite Hb. apply IH.
Qed.

Lemma no_number_column (df : DataFrame) :
  (forall c, In c (columns df) -> is_number (snd c) = false) ->
  columns (df_num df) = [].
Proof.
  intros Hc. unfold df_num, dropna, select_dtypes_number. simpl.
  apply mask_all_false. apply Forall_forall. intros b Hb.
  apply in_map_iff in Hb. destruct Hb as (c & <- & Hin). now apply Hc.
Qed.

(** C2: the projection returns the insufficient-data error dict exactly
    when, after keeping the number columns and dropping the rows with a
    null among them, no row is left or there are fewer columns than
    [n_components]; a frame without any number column projected on 3
    components gets that error. *)
Theorem insufficient_data_exactly (e : entropy) (df : DataFrame) (k : Z)
    (cl : bool) (c : Z) :
  (pca_ending (perform_pca_analysis e df k cl c) = Fails InsufficientDataError
   <-> fst (shape (df_num df)) = 0 \/ snd (shape (df_num df)) < k)
  /\ ((forall col, In col (columns df) -> is_number (snd col) = false) ->
      perform_pca_analysis e df 3 cl c = Returns (PcaErrorDict insufficient_msg)).
Proof.
  split.
  - rewrite <- guard_spec.
    destruct ((fst (shape (df_num df)) =? 0) || (snd (shape (df_num df)) <? k))
      eqn:Hg.
    + unfold perform_pca_analysis. rewrite Hg. simpl. tauto.
    + split; [|discriminate].
      intros Hend. exfalso.
      destruct (perform_pca_analysis e df k cl c) as [[msg|f r]|ex] eqn:Hrun;
        simpl in Hend; try discriminate.
      eapply past_guard_no_error_dict; eauto.
  - intros Hcols. unfold perform_pca_analysis.
    assert (Hg : (fst (shape (df_num df)) =? 0)
                 || (snd (shape (df_num df)) <? 3) = true).
    { apply guard_spec. right.
      change (snd (shape (df_num df)))
        with (Z.of_nat (length (columns (df_num df)))).
      rewrite (no_number_column df Hcols). simpl. lia. }
    now rewrite Hg.
Qed.



End Projection.

(** ** The loader *)

Section Loader.

Context {pd : Pandas}.

Variable src : source.

(** Encodings that fail to decode are passed over. *)
Lemma try_encodings_skips (pre rest : list string) :
  (forall enc, In enc pre -> decode_fails src enc) ->
  try_encodings src (pre ++ rest) = try_encodings src rest.
Proof.
  induction pre as [|enc pre IH]; intros Hpre; [reflexivity|].
  simpl. destruct (Hpre enc (or_introl eq_refl)) as [m ->].
  apply IH. intros enc' Hin. apply Hpre. now right.
Qed.

Lemma try_encodings_stops (enc : string) (rest : list string)
    (r : outcome DataFrame) :
  read_csv src enc Strict = r ->
  (forall m, r <> Raises (UnicodeDecodeError m)) ->
  try_encodings src (enc :: rest) = r.
Proof.
  intros Hr Hnot. simpl. rewrite Hr.
  destruct r as [df|[]]; try reflexivity.
  now destruct (Hnot msg).
Qed.

(** C4: [load_data] tries latin1, iso-8859-1 and cp1252 in this order
    and returns the frame of the first one that parses, the earlier ones
    having failed to decode; when all three fail to decode it reads once
    more as utf-8 with invalid characters replaced, and returns that
    frame or the message of that exception; an exception other than a
    decode failure ends the attempts and its message is returned.  The
    function returns in every case. *)
Theorem load_data_fallback :
  (forall pre enc post df,
     encodings = pre ++ enc :: post ->
     (forall enc', In enc' pre -> decode_fails src enc') ->
     read_csv src enc Strict = Returns df ->
     load_data src = Frame df)
  /\ ((forall enc, In enc encodings -> decode_fails src enc) ->
      load_data src
      = match read_csv src "utf-8" Replace with
        | Returns df => Frame df
        | Raises e => ErrorStr (str_exn e)
        end)
  /\ (forall pre enc post e,
        encodings = pre ++ enc :: post ->
        (forall enc', In enc' pre -> decode_fails src enc') ->
        read_csv src enc Strict = Raises e ->
        (forall m, e <> UnicodeDecodeError m) ->
        load_data src = ErrorStr (str_exn e)).
Proof.
  split; [|split].
  - intros pre enc post df Henc Hpre Hread.
    unfold load_data. rewrite Henc, (try_encodings_skips pre _ Hpre).
    rewrite (try_encodings_stops enc post _ Hread); [reflexivity|].
    intros m. discriminate.
  - intros Hall. unfold load_data.
    rewrite <- (app_nil_r encodings), (try_encodings_skips encodings [] Hall).
    reflexivity.
  - intros pre enc post e Henc Hpre Hread Hother.
    unfold load_data. rewrite Henc, (try_encodings_skips pre _ Hpre).
    rewrite (try_encodings_stops enc post _ Hread); [reflexivity|].
    intros m [= He]. now apply (Hother m).
Qed.

End Loader.

(** ** The session and the read routes *)

Section Session.

Context {pd : Pandas} {sk : Sklearn} {rd : Renderer}.

(** Every read route starts with [check_data_loaded] and hands its
    response back when the check fails. *)
Lemma dispatch_not_loaded (e : entropy) (r : route) (g : pyval)
    (resp : response) :
  not_loaded_response g = Some resp -> dispatch e r g = Returns resp.
Proof.
  unfold not_loaded_response. intros Hresp.
  destruct r; simpl;
    unfold summary, grouped, correlation, distribution, pca, plot_grouped,
      plot_corr, plot_dist, plot_pca;
    destruct (check_data_loaded g); inversion Hresp; reflexivity.
Qed.

Lemma no_table_response (g : pyval) :
  no_table g ->
  exists msg, not_loaded_response g = Some (mkResponse (JError msg) 400).
Proof.
  destruct g as [|s|df]; simpl; intros Hg.
  - now exists no_data_msg.
  - now exists (String.append "Error con los datos: " s).
  - destruct Hg.
Qed.

(** What the first request finds in [df_global]. *)
Lemma initialize_data_first {fs : FileSystem} :
  df_global (initialize_data initial_session)
  = match data_file with
    | Some src =>
        match load_data src with
        | Frame df => PyFrame (preprocess_data df)
        | ErrorStr msg => PyStr msg
        end
    | None => PyNone
    end.
Proof.
  unfold initialize_data, initial_session. simpl.
  destruct data_file as [src|]; [|reflexivity].
  now destruct (load_data src).
Qed.

(** C3: while [df_global] holds no DataFrame ([None], or the message of a
    failed load) every read route answers with the 400 error of
    [check_data_loaded] and with nothing else, and [/status] reports the
    state without any data of a table.  This is the state of the first
    request when the data file is absent or fails to load, and the state
    an upload that fails to load leaves behind. *)
Theorem reads_fail_until_loaded (g : pyval) :
  no_table g ->
  (exists msg,
     not_loaded_response g = Some (mkResponse (JError msg) 400)
     /\ forall e r, dispatch e r g = Returns (mkResponse (JError msg) 400))
  /\ (status g = mkResponse JStatusNoData 200
      \/ exists msg, status g = mkResponse (JStatusError msg) 200)
  /\ (forall (fs : FileSystem) e r,
        (data_file = None
         \/ exists src msg, data_file = Some src /\ load_data src = ErrorStr msg) ->
        exists msg,
          snd (request e r initial_session)
          = Returns (mkResponse (JError msg) 400))
  /\ (forall s name src msg e r,
        name <> "" ->
        load_data src = ErrorStr msg ->
        dispatch e r (df_global (fst (upload_file (Some (name, src)) s)))
        = Returns
            (mkResponse (JError (String.append "Error con los datos: " msg))
               400)).
Proof.
  intros Hg. split; [|split; [|split]].
  - destruct (no_table_response g Hg) as [msg Hmsg].
    exists msg. split; [exact Hmsg|].
    intros e r. now apply dispatch_not_loaded.
  - destruct g as [|s|df]; simpl; [now left|right; now exists s|destruct Hg].
  - intros fs e r Hfile. unfold request. simpl snd.
    rewrite initialize_data_first.
    destruct Hfile as [-> | (src & msg & -> & ->)].
    + exists no_data_msg. now apply dispatch_not_loaded.
    + exists (String.append "Error con los datos: " msg).
      now apply dispatch_not_loaded.
  - intros s name src msg e r Hname Hload.
    unfold upload_file. apply String.eqb_neq in Hname. rewrite Hname, Hload.
    simpl fst. simpl df_global. now apply dispatch_not_loaded.
Qed.

(** X1: the routes of the projection cannot report insufficient data: the
    error dict of [perform_pca_analysis] does not unpack into the two
    names the callers bind, so [/pca] and [/plot/pca] raise. *)
Theorem pca_routes_raise_on_insufficient_data (e : entropy) (df : DataFrame) :
  fst (shape (df_num df)) = 0 \/ snd (shape (df_num df)) < 3 ->
  pca e (PyFrame df) = Raises unpack_error
  /\ plot_pca e (PyFrame df) = Raises unpack_error.
Proof.
  intros Hg.
  assert (Hrun : forall cl c,
             perform_pca_analysis e df 3 cl c
             = Returns (PcaErrorDict insufficient_msg)).
  { intros cl c. unfold perform_pca_analysis.
    destruct Hg as [Hg | Hg].
    - apply Z.eqb_eq in Hg. now rewrite Hg.
    - apply Z.ltb_lt in Hg. rewrite Hg. now rewrite orb_true_r. }
  unfold pca, plot_pca, plot_pca_clusters. simpl.
  now rewrite !Hrun.
Qed.

(** [/correlation] hands the DataFrame itself to [jsonify]: with a table
    loaded it always raises. *)
Remark correlation_route_raises (df : DataFrame) :
  correlation (PyFrame df)
  = Raises (TypeError "Object of type DataFrame is not JSON serializable").
Proof. unfold correlation. simpl. reflexivity. Qed.

(** X2: an upload that fails to load replaces whatever [df_global] held,
    a loaded table included, by the error message. *)
Theorem failed_upload_discards_table (s : session) (name : string)
    (src : source) (msg : string) :
  name <> "" ->
  load_data src = ErrorStr msg ->
  df_global (fst (upload_file (Some (name, src)) s)) = PyStr msg.
Proof.
  intros Hname Hload. unfold upload_file.
  apply String.eqb_neq in Hname. now rewrite Hname, Hload.
Qed.

End Session.

(** ** Summary and grouping *)

Section Statistics.

Open Scope R_scope.

Lemma has_column_find (name : string) (cols : list (string * dtype)) :
  existsb (fun c => String.eqb (fst c) name) cols = false
  <-> find_column name cols = None.
Proof.
  induction cols as [|[n d] cols IH]; simpl; [tauto|].
  destruct (String.eqb n name); simpl.
  - split; discriminate.
  - rewrite IH. destruct (find_column name cols) as [[i d']|];
      split; congruence.
Qed.

(** Dropping the rows whose cell in column [j] is null leaves the
    numbers of that column as they were. *)
Lemma non_null_dropna (j : nat) (rs : list row) :
  non_null (map (cell_at j) (filter (fun r => notna (cell_at j r)) rs))
  = non_null (map (cell_at j) rs).
Proof.
  induction rs as [|r rs IH]; [reflexivity|].
  simpl. destruct (cell_at j r) eqn:Hc; simpl; rewrite ?Hc, IH; reflexivity.
Qed.

Lemma Rsum_app (xs ys : list R) : Rsum (xs ++ ys) = Rsum xs + Rsum ys.
Proof.
  induction xs as [|x xs IH]; simpl; [lra|]. rewrite IH. lra.
Qed.

(** Summing list by list is summing all at once. *)
Lemma Rsum_concat (ls : list (list R)) :
  Rsum (map Rsum ls) = Rsum (concat ls).
Proof.
  induction ls as [|l ls IH]; [reflexivity|].
  simpl. now rewrite Rsum_app, IH.
Qed.

Lemma non_null_number_in (vals : list cell) :
  concat (map number_in vals) = non_null vals.
Proof.
  induction vals as [|c vals IH]; [reflexivity|].
  destruct c; simpl; now rewrite IH.
Qed.

(** *** The groups of [groupby] *)

Lemma keys_group_add {V : Type} (add : V -> V -> V) (t k : Z) (v : V)
    (gs : list (Z * V)) :
  In t (map fst (group_add add k v gs)) <-> t = k \/ In t (map fst gs).
Proof.
  induction gs as [|[k' s] gs IH]; simpl.
  - intuition.
  - destruct (k <? k')%Z; simpl; [intuition|].
    destruct (k =? k')%Z eqn:Heq; simpl.
    + apply Z.eqb_eq in Heq. subst k'. intuition.
    + rewrite IH. intuition.
Qed.

Lemma keys_groupby_agg {V : Type} (add : V -> V -> V) (t : Z)
    (kvs : list (Z * V)) :
  In t (map fst (groupby_agg add kvs)) <-> In t (map fst kvs).
Proof.
  unfold groupby_agg.
  assert (Hgen : forall gs,
             In t (map fst (fold_left
                              (fun gs kv => group_add add (fst kv) (snd kv) gs)
                              kvs gs))
             <-> In t (map fst gs) \/ In t (map fst kvs)).
  { induction kvs as [|[k v] kvs IH]; intros gs; simpl; [tauto|].
    rewrite IH, keys_group_add. simpl. intuition. }
  rewrite Hgen. simpl. tauto.
Qed.

Lemma sorted_group_add {V : Type} (add : V -> V -> V) (k : Z) (v : V)
    (gs : list (Z * V)) :
  StronglySorted Z.lt (map fst gs) ->
  StronglySorted Z.lt (map fst (group_add add k v gs)).
Proof.
  induction gs as [|[k' s] gs IH]; simpl; intros Hs.
  - repeat constructor.
  - inversion Hs as [|? ? Hs' Hlt]; subst.
    destruct (k <? k')%Z eqn:Hk; simpl.
    + apply Z.ltb_lt in Hk. constructor; [exact Hs|].
      constructor; [exact Hk|].
      eapply Forall_impl; [|exact Hlt]. intros z Hz. simpl in Hz. lia.
    + apply Z.ltb_ge in Hk.
      destruct (k =? k')%Z eqn:Heq; simpl.
      * now constructor.
      * apply Z.eqb_neq in Heq. constructor; [now apply IH|].
        apply Forall_forall. intros z Hz. apply keys_group_add in Hz.
        destruct Hz as [-> | Hz]; [lia|].
        rewrite Forall_forall in Hlt. now apply Hlt.
Qed.

Lemma sorted_groupby_agg {V : Type} (add : V -> V -> V)
    (kvs : list (Z * V)) :
  StronglySorted Z.lt (map fst (groupby_agg add kvs)).
Proof.
  unfold groupby_agg.
  assert (Hgen : forall gs,
             StronglySorted Z.lt (map fst gs) ->
             StronglySorted Z.lt
               (map fst (fold_left
                           (fun gs kv => group_add add (fst kv) (snd kv) gs)
                           kvs gs))).
  { induction kvs as [|[k v] kvs IH]; intros gs Hs; simpl; [exact Hs|].
    apply IH. now apply sorted_group_add. }
  apply Hgen. constructor.
Qed.

(** No value is listed under a key that is not there. *)
Lemma values_at_absent (t : Z) (gs : list (Z * list R)) :
  ~ In t (map fst gs) -> values_at t gs = [].
Proof.
  unfold values_at.
  induction gs as [|[k vs] gs IH]; simpl; intros Hnot; [reflexivity|].
  destruct (k =? t)%Z eqn:Hk.
  - apply Z.eqb_eq in Hk. exfalso. apply Hnot. now left.
  - apply IH. intros Hin. apply Hnot. now right.
Qed.

Lemma values_at_cons (t k : Z) (vs : list R) (gs : list (Z * list R)) :
  values_at t ((k, vs) :: gs)
  = (if (k =? t)%Z then vs else []) ++ values_at t gs.
Proof.
  unfold values_at. simpl. now destruct (k =? t)%Z.
Qed.

Lemma above_absent (t : Z) (keys : list Z) :
  Forall (Z.lt t) keys -> ~ In t keys.
Proof.
  intros Hlt Hin. rewrite Forall_forall in Hlt.
  specialize (Hlt t Hin). lia.
Qed.

(** A new value goes to the end of the list of its key. *)
Lemma values_at_group_add (t k : Z) (v : list R) (gs : list (Z * list R)) :
  StronglySorted Z.lt (map fst gs) ->
  values_at t (group_add (@app R) k v gs)
  = values_at t gs ++ (if (k =? t)%Z then v else []).
Proof.
  induction gs as [|[k' s] gs IH]; simpl; intros Hs.
  - rewrite values_at_cons. unfold values_at. simpl.
    now rewrite app_nil_r.
  - inversion Hs as [|? ? Hs' Hlt]; subst.
    destruct (k <? k')%Z eqn:Hk.
    + apply Z.ltb_lt in Hk. rewrite values_at_cons.
      destruct (k =? t)%Z eqn:Hkt; [|now rewrite app_nil_r].
      apply Z.eqb_eq in Hkt. subst t.
      rewrite (values_at_absent k ((k', s) :: gs)); [now rewrite app_nil_r|].
      apply above_absent. simpl. constructor; [exact Hk|].
      eapply Forall_impl; [|exact Hlt]. intros z Hz. simpl in Hz. lia.
    + destruct (k =? k')%Z eqn:Heq.
      * apply Z.eqb_eq in Heq. subst k'. rewrite !values_at_cons.
        destruct (k =? t)%Z eqn:Hkt; [|now rewrite app_nil_r].
        apply Z.eqb_eq in Hkt. subst t.
        rewrite (values_at_absent k gs) by now apply above_absent.
        now rewrite !app_nil_r.
      * rewrite !values_at_cons, IH by exact Hs'. now rewrite app_assoc.
Qed.

Lemma values_at_fold (t : Z) (kvs gs : list (Z * list R)) :
  StronglySorted Z.lt (map fst gs) ->
  values_at t (fold_left (fun gs kv => group_add (@app R) (fst kv) (snd kv) gs)
                 kvs gs)
  = values_at t gs ++ values_at t kvs.
Proof.
  revert gs. induction kvs as [|[k v] kvs IH]; intros gs Hs; simpl.
  - unfold values_at at 3. simpl. now rewrite app_nil_r.
  - rewrite IH by now apply sorted_group_add.
    rewrite values_at_group_add by exact Hs.
    now rewrite values_at_cons, app_assoc.
Qed.

(** The values listed under a key are what was grouped there, in the
    order it came. *)
Lemma values_at_groupby_values (t : Z) (kvs : list (Z * list R)) :
  values_at t (groupby_values kvs) = values_at t kvs.
Proof.
  unfold groupby_values, groupby_agg.
  rewrite values_at_fold by constructor. reflexivity.
Qed.

(** Under strictly ascending keys, an entry holds all the values of its
    key. *)
Lemma values_at_entry (t : Z) (vs : list R) (gs : list (Z * list R)) :
  StronglySorted Z.lt (map fst gs) -> In (t, vs) gs -> values_at t gs = vs.
Proof.
  induction gs as [|[k' s'] gs IH]; simpl; intros Hs Hin; [destruct Hin|].
  inversion Hs as [|? ? Hs' Hlt]; subst.
  rewrite values_at_cons.
  destruct Hin as [[= -> ->] | Hin].
  - rewrite Z.eqb_refl.
    rewrite (values_at_absent t gs) by now apply above_absent.
    apply app_nil_r.
  - assert (k' < t)%Z.
    { rewrite Forall_forall in Hlt. apply Hlt.
      apply in_map_iff. now exists (t, vs). }
    assert ((k' =? t)%Z = false) as -> by (apply Z.eqb_neq; lia).
    now apply IH.
Qed.

Lemma keyed_values_keys (i j : nat) (t : Z) (rs : list row) :
  In t (map fst (keyed_values i j rs))
  <-> exists r, In r rs /\ date_key i r = Some t.
Proof.
  unfold keyed_values.
  induction rs as [|r rs IH]; simpl.
  - split; [intros []|intros (r & [] & _)].
  - destruct (date_key i r) as [t'|] eqn:Hkey; simpl; rewrite IH.
    + split.
      * intros [<- | (r0 & Hr0 & Hk)]; [exists r; auto|exists r0; auto].
      * intros (r0 & [<- | Hr0] & Hk); [left; congruence|right; eauto].
    + split.
      * intros (r0 & Hr0 & Hk). exists r0. auto.
      * intros (r0 & [<- | Hr0] & Hk); [congruence|eauto].
Qed.

(** The values grouped under a date are the non-null values of the rows
    of that date, in the order of the rows. *)
Lemma values_at_keyed_values (i j : nat) (t : Z) (rs : list row) :
  values_at t (keyed_values i j rs)
  = non_null (map (cell_at j) (filter (on_date i t) rs)).
Proof.
  unfold keyed_values, on_date.
  induction rs as [|r rs IH]; simpl; [reflexivity|].
  destruct (date_key i r) as [t'|]; simpl; [|exact IH].
  rewrite values_at_cons.
  destruct (t' =? t)%Z; simpl; rewrite IH; [|reflexivity].
  now destruct (cell_at j r).
Qed.

(** The values of a group of the frame: those of one of its dates. *)
Lemma group_of_date (i j : nat) (t : Z) (vs : list R) (rs : list row) :
  In (t, vs) (groupby_values (keyed_values i j rs)) ->
  vs = non_null (map (cell_at j) (filter (on_date i t) rs)).
Proof.
  intros Hin.
  rewrite <- values_at_keyed_values, <- values_at_groupby_values.
  symmetry. apply values_at_entry; [apply sorted_groupby_agg|exact Hin].
Qed.

Lemma concat_group_add (k : Z) (v : list R) (gs : list (Z * list R)) :
  Rsum (concat (map snd (group_add (@app R) k v gs)))
  = Rsum (concat (map snd gs)) + Rsum v.
Proof.
  induction gs as [|[k' s] gs IH]; simpl.
  - rewrite app_nil_r. lra.
  - destruct (k <? k')%Z; simpl; [rewrite !Rsum_app; lra|].
    destruct (k =? k')%Z; simpl; [rewrite !Rsum_app; lra|].
    rewrite !Rsum_app, IH. lra.
Qed.

(** The groups hold, between them, what was grouped. *)
Lemma concat_groupby_values (kvs : list (Z * list R)) :
  Rsum (concat (map snd (groupby_values kvs))) = Rsum (concat (map snd kvs)).
Proof.
  unfold groupby_values, groupby_agg.
  assert (Hgen : forall gs,
             Rsum (concat (map snd
                             (fold_left
                                (fun gs kv =>
                                   group_add (@app R) (fst kv) (snd kv) gs)
                                kvs gs)))
             = Rsum (concat (map snd gs)) + Rsum (concat (map snd kvs))).
  { induction kvs as [|[k v] kvs IH]; intros gs; simpl; [lra|].
    rewrite IH, concat_group_add, Rsum_app. lra. }
  rewrite Hgen. simpl. lra.
Qed.

(** When every row has a date, every row is grouped. *)
Lemma keyed_values_all (i j : nat) (rs : list row) :
  Forall (fun r => has_date i r = true) rs ->
  map snd (keyed_values i j rs) = map (fun r => number_in (cell_at j r)) rs.
Proof.
  unfold keyed_values.
  induction 1 as [|r rs Hr _ IH]; [reflexivity|].
  simpl. unfold has_date in Hr. destruct (date_key i r); [|discriminate].
  simpl. now rewrite IH.
Qed.

Section ExactSums.

Context {pd : Pandas}.

(** The sums of the groups of fully dated rows add up to the sum of the
    non-null values of the summed column, when every group is summed
    without rounding. *)
Lemma grouped_values_sum (i j : nat) (rs : list row) :
  Forall (fun r => has_date i r = true) rs ->
  (forall t,
     group_total (non_null (map (cell_at j) (filter (on_date i t) rs)))
     = Rsum (non_null (map (cell_at j) (filter (on_date i t) rs)))) ->
  Rsum (map snd (groupby_sum (keyed_values i j rs)))
  = Rsum (non_null (map (cell_at j) rs)).
Proof.
  intros Hrows Hexact. unfold groupby_sum. rewrite map_map. simpl.
  transitivity
    (Rsum (map Rsum (map snd (groupby_values (keyed_values i j rs))))).
  - rewrite map_map. f_equal. apply map_ext_in. intros [t vs] Hin. simpl.
    rewrite (group_of_date i j t vs rs Hin). apply Hexact.
  - rewrite Rsum_concat, concat_groupby_values.
    rewrite (keyed_values_all i j _ Hrows).
    rewrite <- (map_map (cell_at j) number_in).
    now rewrite non_null_number_in.
Qed.

(** C6, as the code has it: the totals agree where the sums are exact.
    On a frame whose [ORDERDATE] is a datetime column without nulls and
    whose [SALES] is a number column, when neither the sum of [SALES]
    nor the sum of any date is rounded or wraps around, the [SALES]
    values of [group_sales_by_date] add up to [total_sales] of
    [get_sales_summary]. *)
Theorem grouping_preserves_total (df : DataFrame) :
  dated_sales_table df ->
  sums_are_exact_in df ->
  exists g s,
    group_sales_by_date df = Returns g
    /\ get_sales_summary df = Returns s
    /\ total_sales s = Some (Rsum (grouped_sales g)).
Proof.
  intros (i & j & Hdate & Hsales & Hrows) Hexact.
  destruct (Hexact i j Hdate Hsales) as [Htotal Hgroups].
  unfold group_sales_by_date, get_sales_summary, getitem.
  rewrite Hdate, Hsales. simpl.
  eexists. eexists. split; [reflexivity|]. split; [reflexivity|].
  simpl. fold (column_cells j df). rewrite Htotal. f_equal.
  unfold grouped_sales. rewrite !map_map. simpl.
  symmetry. exact (grouped_values_sum i j _ Hrows Hgroups).
Qed.

End ExactSums.

End Statistics.

(** ** The order of the quartiles *)

Section Quartiles.

Open Scope R_scope.

Lemma insert_sorted_permutation (x : R) (l : list R) :
  Permutation (insert_sorted x l) (x :: l).
Proof.
  induction l as [|y l IH]; simpl; [reflexivity|].
  destruct (Rle_dec x y); [reflexivity|].
  rewrite IH. apply perm_swap.
Qed.

Lemma insert_sorted_sorted (x : R) (l : list R) :
  StronglySorted Rle l -> StronglySorted Rle (insert_sorted x l).
Proof.
  induction l as [|y l IH]; simpl; intros Hs.
  - repeat constructor.
  - inversion Hs as [|? ? Hs' Hle]; subst.
    destruct (Rle_dec x y) as [Hxy|Hxy].
    + constructor; [exact Hs|].
      constructor; [exact Hxy|].
      eapply Forall_impl; [|exact Hle]. intros z Hz. simpl in Hz. lra.
    + constructor; [now apply IH|].
      apply Forall_forall. intros z Hz.
      apply (Permutation_in _ (insert_sorted_permutation x l)) in Hz.
      destruct Hz as [<- | Hz]; [lra|].
      rewrite Forall_forall in Hle. now apply Hle.
Qed.

Lemma sort_R_permutation (xs : list R) : Permutation (sort_R xs) xs.
Proof.
  unfold sort_R. induction xs as [|x xs IH]; simpl; [reflexivity|].
  rewrite insert_sorted_permutation. now constructor.
Qed.

Lemma sort_R_sorted (xs : list R) : StronglySorted Rle (sort_R xs).
Proof.
  unfold sort_R. induction xs as [|x xs IH]; simpl; [constructor|].
  now apply insert_sorted_sorted.
Qed.

(** In an ascending list, a later position holds no smaller value. *)
Lemma nth_ascending (v : list R) (d : R) (i j : nat) :
  StronglySorted Rle v ->
  (i <= j)%nat -> (j < length v)%nat -> nth i v d <= nth j v d.
Proof.
  intros Hs. revert i j.
  induction Hs as [|x v Hs IH Hle]; intros i j Hij Hj; simpl in Hj; [lia|].
  destruct i as [|i], j as [|j]; simpl; try lia.
  - lra.
  - rewrite Forall_forall in Hle. apply Hle. apply nth_In. lia.
  - apply IH; lia.
Qed.

Lemma fraction_bounds (h den : nat) :
  (0 < den)%nat -> 0 <= INR (h mod den) / INR den <= 1.
Proof.
  intros Hden.
  assert (Hpos : 0 < INR den) by (apply lt_0_INR; exact Hden).
  assert (Hmod : INR (h mod den) <= INR den).
  { apply le_INR. pose proof (Nat.mod_upper_bound h den). lia. }
  pose proof (pos_INR (h mod den)) as Hnn.
  split.
  - apply Rmult_le_pos; [exact Hnn|].
    apply Rlt_le, Rinv_0_lt_compat, Hpos.
  - apply (Rmult_le_reg_r (INR den)); [exact Hpos|].
    unfold Rdiv. rewrite Rmult_assoc, Rinv_l by lra. lra.
Qed.

(** The neighbour to the right, or the value itself at the last position. *)
Lemma right_neighbour (v : list R) (d : R) (i : nat) :
  StronglySorted Rle v ->
  (i < length v)%nat ->
  nth i v d <= nth (S i) v (nth i v d)
  /\ (nth (S i) v (nth i v d) = nth i v d
      \/ ((S i < length v)%nat
          /\ nth (S i) v (nth i v d) = nth (S i) v d)).
Proof.
  intros Hs Hi.
  destruct (Nat.lt_ge_cases (S i) (length v)) as [Hsi|Hsi].
  - rewrite (nth_indep v (nth i v d) d Hsi). split.
    + apply nth_ascending; auto.
    + right. now split.
  - rewrite (nth_overflow v (nth i v d) Hsi). split; [lra|now left].
Qed.

Lemma mark_bounds (v : list R) (d : R) (h den : nat) :
  StronglySorted Rle v ->
  (0 < den)%nat -> (h / den < length v)%nat ->
  nth (h / den) v d <= mark v d h den
  /\ mark v d h den <= nth (S (h / den)) v (nth (h / den) v d).
Proof.
  intros Hs Hden Hlo. unfold mark.
  destruct (right_neighbour v d (h / den) Hs Hlo) as [Hab _].
  pose proof (fraction_bounds h den Hden) as [Hf0 Hf1].
  set (a := nth (h / den) v d) in *.
  set (b := nth (S (h / den)) v a) in *.
  set (f := INR (h mod den) / INR den) in *.
  split; nra.
Qed.

(** A mark further along the list is no smaller. *)
Lemma mark_monotone (v : list R) (d : R) (h1 h2 den : nat) :
  StronglySorted Rle v ->
  (0 < den)%nat -> (h1 <= h2)%nat -> (h2 / den < length v)%nat ->
  mark v d h1 den <= mark v d h2 den.
Proof.
  intros Hs Hden Hh Hlo2.
  assert (Hdiv : (h1 / den <= h2 / den)%nat)
    by (apply Nat.Div0.div_le_mono; exact Hh).
  assert (Hlo1 : (h1 / den < length v)%nat) by lia.
  destruct (Nat.eq_dec (h1 / den) (h2 / den)) as [Heq|Hne].
  - unfold mark. rewrite <- Heq.
    destruct (right_neighbour v d (h1 / den) Hs Hlo1) as [Hab _].
    assert (Hmod : (h1 mod den <= h2 mod den)%nat).
    { pose proof (Nat.div_mod_eq h1 den). pose proof (Nat.div_mod_eq h2 den).
      rewrite <- Heq in H0. nia. }
    assert (Hf : INR (h1 mod den) / INR den <= INR (h2 mod den) / INR den).
    { apply Rmult_le_compat_r.
      - apply Rlt_le, Rinv_0_lt_compat, lt_0_INR, Hden.
      - now apply le_INR. }
    set (a := nth (h1 / den) v d) in *.
    set (b := nth (S (h1 / den)) v a) in *.
    nra.
  - destruct (mark_bounds v d h1 den Hs Hden Hlo1) as [_ Hup].
    destruct (mark_bounds v d h2 den Hs Hden Hlo2) as [Hlow _].
    destruct (right_neighbour v d (h1 / den) Hs Hlo1) as [_ [Hsame | [Hin Hnb]]].
    + rewrite Hsame in Hup.
      assert (nth (h1 / den) v d <= nth (h2 / den) v d)
        by (apply nth_ascending; auto).
      lra.
    + rewrite Hnb in Hup.
      assert (nth (S (h1 / den)) v d <= nth (h2 / den) v d)
        by (apply nth_ascending; auto; lia).
      lra.
Qed.

Lemma quantile_as_mark (num den : nat) (xs : list R) :
  quantile_of num den xs
  = match sort_R xs with
    | [] => None
    | v0 :: _ =>
        Some (mark (sort_R xs) v0 ((length (sort_R xs) - 1) * num) den)
    end.
Proof. unfold quantile_of, mark. now destruct (sort_R xs). Qed.

(** The median is the quantile at one half. *)
Lemma median_as_quantile (xs : list R) : median_of xs = quantile_of 2 4 xs.
Proof.
  unfold median_of, quantile_of.
  destruct (sort_R xs) as [|v0 v'] eqn:Hv; [reflexivity|].
  set (v := v0 :: v'). set (n := length v).
  assert (Hn : (1 <= n)%nat) by (unfold n, v; simpl; lia).
  destruct (Nat.Even_or_Odd n) as [[m Hm] | [m Hm]].
  - assert (Hm1 : (1 <= m)%nat) by lia.
    rewrite Hm, Nat.odd_even.
    replace ((2 * m - 1) * 2 / 4)%nat with (m - 1)%nat
      by (apply Nat.div_unique with (r := 2%nat); lia).
    replace (((2 * m - 1) * 2) mod 4)%nat with 2%nat
      by (apply Nat.mod_unique with (q := (m - 1)%nat); lia).
    replace (2 * m / 2)%nat with m
      by (apply Nat.div_unique with (r := 0%nat); lia).
    replace (S (m - 1)) with m by lia.
    rewrite (nth_indep v (nth (m - 1) v v0) v0) by (fold n; lia).
    f_equal. simpl INR. field.
  - rewrite Hm, Nat.odd_odd.
    replace ((2 * m + 1 - 1) * 2 / 4)%nat with m
      by (apply Nat.div_unique with (r := 0%nat); lia).
    replace (((2 * m + 1 - 1) * 2) mod 4)%nat with 0%nat
      by (apply Nat.mod_unique with (q := m); lia).
    replace ((2 * m + 1) / 2)%nat with m
      by (apply Nat.div_unique with (r := 1%nat); lia).
    f_equal. simpl INR. field.
Qed.

Lemma fold_min_lower (l : list R) (x : R) :
  fold_left Rmin l x <= x /\ Forall (fun y => fold_left Rmin l x <= y) l.
Proof.
  revert x. induction l as [|y l IH]; intros x; simpl.
  - split; [lra|constructor].
  - destruct (IH (Rmin x y)) as [Hx Hl].
    pose proof (Rmin_l x y). pose proof (Rmin_r x y).
    split; [lra|]. constructor; [lra|exact Hl].
Qed.

Lemma fold_max_upper (l : list R) (x : R) :
  x <= fold_left Rmax l x /\ Forall (fun y => y <= fold_left Rmax l x) l.
Proof.
  revert x. induction l as [|y l IH]; intros x; simpl.
  - split; [lra|constructor].
  - destruct (IH (Rmax x y)) as [Hx Hl].
    pose proof (Rmax_l x y). pose proof (Rmax_r x y).
    split; [lra|]. constructor; [lra|exact Hl].
Qed.

Lemma fold_min_attained (l : list R) (x : R) :
  In (fold_left Rmin l x) (x :: l).
Proof.
  revert x. induction l as [|y l IH]; intros x; simpl; [now left|].
  destruct (IH (Rmin x y)) as [Hm | Hm].
  - rewrite <- Hm. destruct (Rle_dec x y) as [Hxy|Hxy].
    + left. symmetry. now apply Rmin_left.
    + right. left. symmetry. apply Rmin_right. lra.
  - right. now right.
Qed.

Lemma fold_max_attained (l : list R) (x : R) :
  In (fold_left Rmax l x) (x :: l).
Proof.
  revert x. induction l as [|y l IH]; intros x; simpl; [now left|].
  destruct (IH (Rmax x y)) as [Hm | Hm].
  - rewrite <- Hm. destruct (Rle_dec x y) as [Hxy|Hxy].
    + right. left. symmetry. now apply Rmax_right.
    + left. symmetry. apply Rmax_left. lra.
  - right. now right.
Qed.

(** The minimum and the maximum bound every value. *)
Lemma min_max_bound (xs : list R) :
  xs <> [] ->
  exists lo hi,
    min_of xs = Some lo /\ max_of xs = Some hi
    /\ forall x, In x xs -> lo <= x <= hi.
Proof.
  destruct xs as [|x xs]; [now intros []|]. intros _.
  exists (fold_left Rmin xs x), (fold_left Rmax xs x).
  split; [reflexivity|]. split; [reflexivity|].
  destruct (fold_min_lower xs x) as [Hmin Hmins].
  destruct (fold_max_upper xs x) as [Hmax Hmaxs].
  rewrite Forall_forall in Hmins, Hmaxs.
  intros y [<- | Hy]; [lra|]. split; [now apply Hmins|now apply Hmaxs].
Qed.

Lemma position_in_range (n num den : nat) :
  (0 < den)%nat -> (num <= den)%nat -> (1 <= n)%nat ->
  ((n - 1) * num / den < n)%nat.
Proof.
  intros Hden Hnum Hn.
  assert (((n - 1) * num / den <= n - 1)%nat); [|lia].
  apply Nat.Div0.div_le_upper_bound. nia.
Qed.

(** The quartiles of a sample with at least one value lie in order
    between its minimum and its maximum. *)
Lemma quartiles_in_order (xs : list R) :
  xs <> [] ->
  exists lo q1 q2 q3 hi,
    min_of xs = Some lo /\ quantile_of 1 4 xs = Some q1
    /\ median_of xs = Some q2 /\ quantile_of 3 4 xs = Some q3
    /\ max_of xs = Some hi
    /\ lo <= q1 /\ q1 <= q2 /\ q2 <= q3 /\ q3 <= hi.
Proof.
  intros Hxs.
  destruct (min_max_bound xs Hxs) as (lo & hi & Hlo & Hhi & Hbound).
  rewrite median_as_quantile, !quantile_as_mark.
  pose proof (sort_R_sorted xs) as Hs.
  pose proof (sort_R_permutation xs) as Hperm.
  destruct (sort_R xs) as [|v0 v'].
  { apply Permutation_nil in Hperm. contradiction. }
  set (v := v0 :: v') in *.
  set (n := length v).
  assert (Hn : (1 <= n)%nat).
  { unfold n. rewrite (Permutation_length Hperm).
    destruct xs; [contradiction|simpl; lia]. }
  assert (Hin : forall i, (i < n)%nat -> lo <= nth i v v0 <= hi).
  { intros i Hi. apply Hbound, (Permutation_in _ Hperm), nth_In, Hi. }
  assert (Hpos : forall num, (num <= 4)%nat -> ((n - 1) * num / 4 < n)%nat).
  { intros num Hnum. apply position_in_range; lia. }
  exists lo, (mark v v0 ((n - 1) * 1) 4), (mark v v0 ((n - 1) * 2) 4),
    (mark v v0 ((n - 1) * 3) 4), hi.
  split; [exact Hlo|]. do 3 (split; [reflexivity|]). split; [exact Hhi|].
  split; [|split; [|split]].
  - destruct (mark_bounds v v0 ((n - 1) * 1) 4 Hs) as [Hlow _];
      [lia|apply Hpos; lia|].
    pose proof (Hin _ (Hpos 1%nat ltac:(lia))). lra.
  - apply mark_monotone; [exact Hs|lia|lia|apply Hpos; lia].
  - apply mark_monotone; [exact Hs|lia|lia|apply Hpos; lia].
  - destruct (mark_bounds v v0 ((n - 1) * 3) 4 Hs) as [_ Hup];
      [lia|apply Hpos; lia|].
    destruct (right_neighbour v v0 ((n - 1) * 3 / 4) Hs
                (Hpos 3%nat ltac:(lia))) as [_ [Hsame | [Hnext Hnb]]].
    + rewrite Hsame in Hup.
      pose proof (Hin _ (Hpos 3%nat ltac:(lia))). lra.
    + rewrite Hnb in Hup. pose proof (Hin _ Hnext). lra.
Qed.

(** X4: for a number column with at least one non-null value, the
    distribution has its minimum, quartiles and maximum in order. *)
Theorem distribution_quartiles_ordered {pd : Pandas} (df : DataFrame)
    (column : string) (j : nat) :
  find_column column (columns df) = Some (j, DNumber) ->
  non_null (column_cells j df) <> [] ->
  exists d lo q1 q2 q3 hi,
    get_sales_distribution df column = Returns (Some d)
    /\ d_min d = Some lo /\ d_q25 d = Some q1 /\ d_q50 d = Some q2
    /\ d_q75 d = Some q3 /\ d_max d = Some hi
    /\ lo <= q1 /\ q1 <= q2 /\ q2 <= q3 /\ q3 <= hi.
Proof.
  intros Hfind Hsome.
  destruct (quartiles_in_order _ Hsome)
    as (lo & q1 & q2 & q3 & hi & Hlo & Hq1 & Hq2 & Hq3 & Hhi & Hord).
  exists (distribution_of (non_null (column_cells j df))), lo, q1, q2, q3, hi.
  split.
  - unfold get_sales_distribution, getitem.
    assert (Hhas : has_column column df = true).
    { destruct (has_column column df) eqn:Hh; [reflexivity|].
      apply has_column_find in Hh. congruence. }
    rewrite Hhas, Hfind. reflexivity.
  - simpl. auto 10.
Qed.

End Quartiles.

(** ** Distribution *)

Section DistributionOfAColumn.

Context {pd : Pandas}.

Open Scope R_scope.

Lemma has_column_false (name : string) (df : DataFrame) :
  has_column name df = false <-> find_column name (columns df) = None.
Proof. apply has_column_find. Qed.

Lemma has_column_found (name : string) (df : DataFrame) (j : nat) (d : dtype) :
  find_column name (columns df) = Some (j, d) -> has_column name df = true.
Proof.
  intros Hfind. destruct (has_column name df) eqn:Hhas; [reflexivity|].
  apply has_column_false in Hhas. congruence.
Qed.

(** What the distribution returns is the distribution of the non-null
    values of the column. *)
Lemma distribution_returned (df : DataFrame) (column : string)
    (dist : Distribution) :
  get_sales_distribution df column = Returns (Some dist) ->
  exists j d,
    find_column column (columns df) = Some (j, d)
    /\ dist = distribution_of (non_null (column_cells j df)).
Proof.
  unfold get_sales_distribution, getitem.
  destruct (has_column column df); simpl; [|discriminate].
  destruct (find_column column (columns df)) as [[j d]|]; simpl;
    [|discriminate].
  intros Hret. exists j, d. split; [reflexivity|].
  unfold numeric_values in Hret. simpl in Hret.
  fold (column_cells j df) in Hret.
  destruct d; simpl in Hret; try discriminate.
  - now injection Hret as <-.
  - destruct (existsb is_text (column_cells j df)); simpl in Hret;
      [discriminate|]. now injection Hret as <-.
Qed.

(** The seven statistics of a sample with at least one value. *)
Lemma distribution_of_values (xs : list R) :
  xs <> [] ->
  d_mean (distribution_of xs) = Some (series_mean xs)
  /\ (exists lo q1 q2 q3 hi,
        d_min (distribution_of xs) = Some lo
        /\ d_q25 (distribution_of xs) = Some q1
        /\ d_q50 (distribution_of xs) = Some q2
        /\ d_q75 (distribution_of xs) = Some q3
        /\ d_max (distribution_of xs) = Some hi
        /\ In lo xs /\ In hi xs
        /\ (forall x, In x xs -> lo <= x <= hi)
        /\ lo <= q1 /\ q1 <= q2 /\ q2 <= q3 /\ q3 <= hi)
  /\ (d_std (distribution_of xs) = None <-> length xs = 1%nat)
  /\ (forall sd, d_std (distribution_of xs) = Some sd -> 0 <= sd).
Proof.
  intros Hne.
  destruct (quartiles_in_order xs Hne)
    as (lo & q1 & q2 & q3 & hi & Hlo & Hq1 & Hq2 & Hq3 & Hhi & Hord).
  destruct (min_max_bound xs Hne) as (lo' & hi' & Hlo' & Hhi' & Hbound).
  assert (lo' = lo) as -> by congruence.
  assert (hi' = hi) as -> by congruence.
  destruct xs as [|x xs']; [contradiction|].
  split; [reflexivity|]. split; [|split].
  - exists lo, q1, q2, q3, hi. simpl in *.
    do 5 (split; [assumption|]).
    injection Hlo as <-. injection Hhi as <-.
    split; [apply fold_min_attained|]. split; [apply fold_max_attained|].
    split; [exact Hbound|exact Hord].
  - simpl. destruct xs' as [|y xs'']; simpl.
    + tauto.
    + split; [discriminate|intros [=]].
  - simpl. destruct xs' as [|y xs'']; [discriminate|].
    intros sd [= <-]. apply sqrt_pos.
Qed.

(** C7, as the code has it: for an absent column the distribution
    returns [None], which the route reports as the missing-column error;
    for a number column it returns the mean, standard deviation,
    minimum, maximum and quartiles of the non-null values, the same as on
    the frame without the rows that are null in that column; so it does
    for an object column that holds no [str], as the columns of a file
    without rows are.  Of what is returned, the mean is the library's
    mean of the non-null values, the minimum and the maximum are the
    least and the greatest of them, the quartiles lie in order between
    these, and the standard deviation is a number, not negative, unless
    there is one value only; all seven are NaN when there is no value.
    For a column that holds a [str], and for a datetime column, the
    reductions raise a type error instead of returning. *)
Theorem distribution_by_column (df : DataFrame) (column : string) :
  (has_column column df = false ->
   get_sales_distribution df column = Returns None
   /\ distribution_ending (get_sales_distribution df column)
      = Fails ColumnNotFoundError)
  /\ (has_column "SALES" df = false ->
      distribution (PyFrame df)
      = Returns (mkResponse (JError no_sales_msg) 400))
  /\ (forall j,
        find_column column (columns df) = Some (j, DNumber) ->
        get_sales_distribution df column
        = Returns (Some (distribution_of (non_null (column_cells j df))))
        /\ get_sales_distribution (dropna_subset_at j df) column
           = get_sales_distribution df column)
  /\ (forall j,
        find_column column (columns df) = Some (j, DObject) ->
        existsb is_text (column_cells j df) = false ->
        get_sales_distribution df column
        = Returns (Some (distribution_of (non_null (column_cells j df)))))
  /\ (forall j d dist,
        find_column column (columns df) = Some (j, d) ->
        get_sales_distribution df column = Returns (Some dist) ->
        (non_null (column_cells j df) = [] ->
         dist = mkDistribution None None None None None None None)
        /\ (non_null (column_cells j df) <> [] ->
            d_mean dist = Some (series_mean (non_null (column_cells j df)))
            /\ (exists lo q1 q2 q3 hi,
                  d_min dist = Some lo /\ d_q25 dist = Some q1
                  /\ d_q50 dist = Some q2 /\ d_q75 dist = Some q3
                  /\ d_max dist = Some hi
                  /\ In lo (non_null (column_cells j df))
                  /\ In hi (non_null (column_cells j df))
                  /\ (forall x,
                        In x (non_null (column_cells j df)) -> lo <= x <= hi)
                  /\ lo <= q1 /\ q1 <= q2 /\ q2 <= q3 /\ q3 <= hi)
            /\ (d_std dist = None
                <-> length (non_null (column_cells j df)) = 1%nat)
            /\ (forall sd, d_std dist = Some sd -> 0 <= sd)))
  /\ (forall j d,
        find_column column (columns df) = Some (j, d) ->
        d = DDatetime
        \/ (d = DObject /\ existsb is_text (column_cells j df) = true) ->
        exists msg, get_sales_distribution df column = Raises (TypeError msg)).
Proof.
  split; [|split; [|split; [|split; [|split]]]].
  - intros Habsent. unfold get_sales_distribution. rewrite Habsent. now simpl.
  - intros Habsent. unfold distribution, get_sales_distribution. simpl.
    now rewrite Habsent.
  - intros j Hfind.
    assert (Hhas : has_column column df = true)
      by exact (has_column_found _ _ _ _ Hfind).
    unfold get_sales_distribution, getitem, dropna_subset_at, has_column in *.
    simpl. rewrite Hhas, Hfind. simpl. rewrite non_null_dropna.
    split; reflexivity.
  - intros j Hfind Hnone.
    assert (Hhas : has_column column df = true)
      by exact (has_column_found _ _ _ _ Hfind).
    unfold get_sales_distribution, getitem. rewrite Hhas, Hfind. simpl.
    unfold numeric_values. simpl. fold (column_cells j df).
    now rewrite Hnone.
  - intros j d dist Hfind Hret.
    destruct (distribution_returned df column dist Hret)
      as (j' & d' & Hfind' & ->).
    assert (j' = j) as -> by congruence.
    split.
    + now intros ->.
    + apply distribution_of_values.
  - intros j d Hfind Hd.
    assert (Hhas : has_column column df = true)
      by exact (has_column_found _ _ _ _ Hfind).
    unfold get_sales_distribution, getitem. rewrite Hhas, Hfind. simpl.
    unfold numeric_values. simpl. fold (column_cells j df).
    destruct Hd as [-> | [-> Htext]]; simpl.
    + eexists. reflexivity.
    + rewrite Htext. simpl. eexists. reflexivity.
Qed.

End DistributionOfAColumn.

(** ** Correlation *)

Section Correlation.

Open Scope R_scope.

Lemma nth_map_seq {A : Type} (f : nat -> A) (n i : nat) (d : A) :
  (i < n)%nat -> nth i (map f (seq 0 n)) d = f i.
Proof.
  intros Hi. rewrite (nth_indep _ d (f O)).
  - rewrite map_nth, seq_nth; [reflexivity|exact Hi].
  - now rewrite length_map, length_seq.
Qed.

(** The entries of [corr]: Pearson's coefficient inside the square, and
    nothing outside. *)
Lemma corr_entry_spec (df : DataFrame) (i j : nat) :
  corr_entry (corr df) i j
  = if ((i <? length (columns df)) && (j <? length (columns df)))%nat
    then pearson (column_cells i df) (column_cells j df)
    else None.
Proof.
  unfold corr_entry, corr. simpl.
  set (n := length (columns df)).
  destruct (Nat.ltb_spec i n) as [Hi|Hi]; simpl.
  - rewrite nth_map_seq by exact Hi.
    destruct (Nat.ltb_spec j n) as [Hj|Hj].
    + now rewrite nth_map_seq.
    + apply nth_overflow. now rewrite length_map, length_seq.
  - rewrite (nth_overflow _ _ (n := i)).
    + now destruct j.
    + now rewrite length_map, length_seq.
Qed.

Lemma complete_pairs_swap (a b : list cell) :
  complete_pairs b a = map swap (complete_pairs a b).
Proof.
  revert b. induction a as [|x a IH]; intros [|y b].
  - reflexivity.
  - now destruct y.
  - now destruct x.
  - destruct x, y; simpl; rewrite ?IH; reflexivity.
Qed.

Lemma codeviation_sym (xs ys : list R) :
  codeviation xs ys = codeviation ys xs.
Proof.
  unfold codeviation.
  generalize (Rsum xs / INR (length xs)) (Rsum ys / INR (length ys)).
  intros mx my. revert ys.
  induction xs as [|x xs IH]; intros [|y ys]; simpl; try reflexivity.
  rewrite IH. lra.
Qed.

Lemma map_fst_swap (ps : list (R * R)) : map fst (map swap ps) = map snd ps.
Proof. rewrite map_map. apply map_ext. reflexivity. Qed.

Lemma map_snd_swap (ps : list (R * R)) : map snd (map swap ps) = map fst ps.
Proof. rewrite map_map. apply map_ext. reflexivity. Qed.

(** Pearson's coefficient does not depend on the order of the columns. *)
Lemma pearson_sym (a b : list cell) : pearson a b = pearson b a.
Proof.
  unfold pearson. rewrite (complete_pairs_swap a b).
  rewrite map_fst_swap, map_snd_swap.
  set (ps := complete_pairs a b).
  rewrite (codeviation_sym (map snd ps) (map fst ps)).
  rewrite (Rmult_comm (codeviation (map snd ps) (map snd ps))).
  now destruct ps.
Qed.

Lemma combine_self {A : Type} (l : list A) :
  combine l l = map (fun x => (x, x)) l.
Proof. induction l as [|x l IH]; simpl; [|rewrite IH]; reflexivity. Qed.

(** The squared deviations from [m] add up to a non-negative number, and
    to 0 only when every value is [m]. *)
Lemma sum_squares_nonneg (m : R) (xs : list R) :
  0 <= Rsum (map (fun x => (x - m) * (x - m)) xs).
Proof.
  induction xs as [|x xs IH]; simpl; [lra|].
  pose proof (Rle_0_sqr (x - m)) as Hsq. unfold Rsqr in Hsq. lra.
Qed.

Lemma sum_squares_zero (m : R) (xs : list R) :
  Rsum (map (fun x => (x - m) * (x - m)) xs) = 0 ->
  forall x, In x xs -> x = m.
Proof.
  induction xs as [|y xs IH]; simpl; intros Hsum x Hin; [destruct Hin|].
  pose proof (Rle_0_sqr (y - m)) as Hsq. unfold Rsqr in Hsq.
  pose proof (sum_squares_nonneg m xs) as Hrest.
  destruct Hin as [<- | Hin].
  - assert (Hz : (y - m) * (y - m) = 0) by lra.
    apply Rmult_integral in Hz. lra.
  - apply IH; [lra|exact Hin].
Qed.

Lemma codeviation_self (xs : list R) :
  codeviation xs xs
  = Rsum (map (fun x => (x - Rsum xs / INR (length xs))
                        * (x - Rsum xs / INR (length xs))) xs).
Proof.
  unfold codeviation. rewrite combine_self, map_map. reflexivity.
Qed.

Lemma codeviation_self_nonneg (xs : list R) : 0 <= codeviation xs xs.
Proof. rewrite codeviation_self. apply sum_squares_nonneg. Qed.

Lemma Rsum_constant (c : R) (xs : list R) :
  (forall x, In x xs -> x = c) -> Rsum xs = INR (length xs) * c.
Proof.
  induction xs as [|x xs IH]; intros Hc.
  - simpl. lra.
  - change (Rsum (x :: xs)) with (x + Rsum xs).
    change (length (x :: xs)) with (S (length xs)).
    rewrite S_INR, IH by (intros y Hy; apply Hc; now right).
    rewrite (Hc x) by now left. lra.
Qed.

(** A constant sample has no deviation from its mean. *)
Lemma codeviation_constant (c : R) (xs : list R) :
  (forall x, In x xs -> x = c) -> codeviation xs xs = 0.
Proof.
  intros Hc. rewrite codeviation_self.
  destruct xs as [|x0 xs]; [reflexivity|].
  set (l := x0 :: xs) in *.
  assert (Hmean : Rsum l / INR (length l) = c).
  { rewrite (Rsum_constant c l Hc). field.
    apply not_0_INR. discriminate. }
  rewrite Hmean.
  assert (Hall : forall ys, (forall y, In y ys -> y = c) ->
                   Rsum (map (fun x => (x - c) * (x - c)) ys) = 0).
  { induction ys as [|y ys IH]; intros Hys; simpl; [reflexivity|].
    rewrite IH by (intros z Hz; apply Hys; now right).
    rewrite (Hys y) by now left. lra. }
  now apply Hall.
Qed.

Lemma complete_pairs_diagonal (a : list cell) :
  complete_pairs a a = map (fun x => (x, x)) (non_null a).
Proof.
  induction a as [|c a IH]; [reflexivity|].
  destruct c; simpl; rewrite IH; reflexivity.
Qed.

Lemma In_complete_pairs_fst (a b : list cell) (x : R) :
  In x (map fst (complete_pairs a b)) -> In x (non_null a).
Proof.
  revert b. induction a as [|c a IH]; intros [|d b]; simpl; try tauto.
  - now destruct c.
  - destruct c, d; simpl; intros Hin;
      try (right; now apply (IH b)); try now apply (IH b).
    destruct Hin as [-> | Hin]; [now left|right; now apply (IH b)].
Qed.

Lemma clip_one : clip 1 = 1.
Proof.
  unfold clip, Rmax, Rmin.
  repeat (destruct Rle_dec; try lra).
Qed.

(** A column with some variance correlates with itself by 1. *)
Lemma pearson_diagonal (a : list cell) :
  ~ zero_variance a -> pearson a a = Some 1.
Proof.
  unfold zero_variance, pearson. intros Hvar.
  rewrite complete_pairs_diagonal, !map_map. simpl.
  rewrite !map_id.
  set (xs := non_null a) in *.
  destruct xs as [|x xs'] eqn:Hxs.
  - destruct Hvar. reflexivity.
  - rewrite <- Hxs in *. simpl map.
    destruct (map (fun x => (x, x)) xs) eqn:Hmap.
    + rewrite Hxs in Hmap. discriminate.
    + rewrite sqrt_square by apply codeviation_self_nonneg.
      destruct (Req_dec_T (codeviation xs xs) 0) as [Hz|Hnz];
        [contradiction|].
      f_equal. unfold Rdiv. rewrite Rinv_r by exact Hnz. apply clip_one.
Qed.

(** A column without variance has no defined correlation with any
    column. *)
Lemma pearson_zero_variance (a b : list cell) :
  zero_variance a -> pearson a b = None.
Proof.
  unfold zero_variance. intros Hvar.
  rewrite codeviation_self in Hvar.
  pose proof (sum_squares_zero _ _ Hvar) as Hconst.
  unfold pearson.
  destruct (complete_pairs a b) as [|p ps] eqn:Hps; [reflexivity|].
  rewrite <- Hps.
  rewrite (codeviation_constant
             (Rsum (non_null a) / INR (length (non_null a)))
             (map fst (complete_pairs a b))).
  - rewrite Rmult_0_l, sqrt_0.
    destruct (Req_dec_T 0 0) as [_|Hne]; [reflexivity|now destruct Hne].
  - intros x Hin. apply Hconst. now apply In_complete_pairs_fst with (b := b).
Qed.

(** C8: the matrix of [get_correlation_matrix] is symmetric; its
    diagonal entry is 1 for every number column whose values have some
    variance; it has one row and one column per number column, whatever
    their variance; and the entries of a number column without variance
    are NaN, in its row and in its column. *)
Theorem correlation_matrix_properties (df : DataFrame) :
  let num := select_dtypes_number df in
  let m := get_correlation_matrix df in
  let n := length (columns num) in
  (forall i j, corr_entry m i j = corr_entry m j i)
  /\ (forall i, (i < n)%nat ->
        ~ zero_variance (column_cells i num) ->
        corr_entry m i i = Some 1)
  /\ (corr_labels m = column_names num
      /\ length (corr_values m) = n
      /\ Forall (fun r => length r = n) (corr_values m))
  /\ (forall i j, (i < n)%nat -> (j < n)%nat ->
        zero_variance (column_cells i num) ->
        corr_entry m i j = None /\ corr_entry m j i = None).
Proof.
  intros num m n. unfold m, get_correlation_matrix. fold num.
  split; [|split; [|split]].
  - intros i j. rewrite !corr_entry_spec, (andb_comm (j <? _)%nat).
    destruct ((i <? _)%nat && (j <? _)%nat); [apply pearson_sym|reflexivity].
  - intros i Hi Hvar. rewrite corr_entry_spec.
    apply Nat.ltb_lt in Hi. fold n. rewrite Hi. simpl.
    now apply pearson_diagonal.
  - unfold corr. simpl. fold n. split; [reflexivity|]. split.
    + now rewrite length_map, length_seq.
    + apply Forall_forall. intros r Hr.
      apply in_map_iff in Hr. destruct Hr as (i & <- & _).
      now rewrite length_map, length_seq.
  - intros i j Hi Hj Hvar. rewrite !corr_entry_spec. fold n.
    apply Nat.ltb_lt in Hi, Hj. rewrite Hi, Hj. simpl.
    split; [|rewrite pearson_sym]; now apply pearson_zero_variance.
Qed.

End Correlation.

(** ** The preprocessor *)

Section SortingFacts.

Context {A : Type} (key : A -> Z).

Lemma NoDup_map_injective (l : list A) (x y : A) :
  NoDup (map key l) -> In x l -> In y l -> key x = key y -> x = y.
Proof.
  induction l as [|a l IH]; simpl; intros Hnd Hx Hy Hk; [destruct Hx|].
  inversion Hnd as [|? ? Hnotin Hnd']; subst.
  destruct Hx as [<- | Hx], Hy as [<- | Hy].
  - reflexivity.
  - exfalso. apply Hnotin. rewrite Hk. now apply in_map.
  - exfalso. apply Hnotin. rewrite <- Hk. now apply in_map.
  - now apply IH.
Qed.

(** Two orderings of the same entries by ascending key coincide when no
    two entries share a key. *)
Lemma sorted_permutation_unique (l1 l2 : list A) :
  Permutation l1 l2 ->
  StronglySorted Z.le (map key l1) ->
  StronglySorted Z.le (map key l2) ->
  NoDup (map key l2) ->
  l1 = l2.
Proof.
  revert l2. induction l1 as [|a l1 IH]; intros l2 Hperm Hs1 Hs2 Hnd.
  - apply Permutation_nil in Hperm. now subst.
  - destruct l2 as [|b l2].
    + apply Permutation_sym, Permutation_nil in Hperm. discriminate.
    + simpl in Hs1, Hs2, Hnd.
      inversion Hs1 as [|? ? Hs1' Hle1]; subst.
      inversion Hs2 as [|? ? Hs2' Hle2]; subst.
      assert (Ha : In a (b :: l2))
        by (apply (Permutation_in _ Hperm); now left).
      assert (Hb : In b (a :: l1))
        by (apply (Permutation_in _ (Permutation_sym Hperm)); now left).
      assert (Hab : key a = key b).
      { apply Z.le_antisymm.
        - destruct Hb as [-> | Hb]; [reflexivity|].
          rewrite Forall_forall in Hle1. apply Hle1. now apply in_map.
        - destruct Ha as [-> | Ha]; [reflexivity|].
          rewrite Forall_forall in Hle2. apply Hle2. now apply in_map. }
      assert (a = b) as ->.
      { apply (NoDup_map_injective (b :: l2)); auto. now left. }
      f_equal. apply IH; auto.
      * now apply Permutation_cons_inv with (a := b).
      * now inversion Hnd.
Qed.

(** Reading a list at every position, in order, gives the list back. *)
Lemma take_all (d : A) (l : list A) : take d l (seq 0 (length l)) = l.
Proof.
  unfold take. induction l as [|x l IH]; [reflexivity|].
  simpl. f_equal. rewrite <- seq_shift, map_map. exact IH.
Qed.

Lemma take_permutation (d : A) (l : list A) (order : list nat) :
  Permutation order (seq 0 (length l)) -> Permutation (take d l order) l.
Proof.
  intros Hperm. rewrite <- (take_all d l) at 2.
  unfold take. now apply Permutation_map.
Qed.

Lemma take_keys (d : A) (l : list A) (order : list nat) :
  map key (take d l order) = map (fun i => nth i (map key l) (key d)) order.
Proof.
  unfold take. rewrite map_map. apply map_ext. intros i.
  symmetry. apply map_nth.
Qed.

Lemma filter_all (f : A -> bool) (l : list A) :
  Forall (fun x => f x = true) l -> filter f l = l.
Proof.
  induction 1 as [|x l Hx _ IH]; simpl; [reflexivity|].
  now rewrite Hx, IH.
Qed.

Lemma filter_none (f : A -> bool) (l : list A) :
  Forall (fun x => f x = false) l -> filter f l = [].
Proof.
  induction 1 as [|x l Hx _ IH]; simpl; [reflexivity|].
  now rewrite Hx, IH.
Qed.

Lemma Forall_filter_true (f : A -> bool) (l : list A) :
  Forall (fun x => f x = true) (filter f l).
Proof. apply Forall_forall. intros x Hx. now apply filter_In in Hx. Qed.

End SortingFacts.

Section InsertionArgsort.

Variable before_ties : bool.
Variable ks : list Z.

Let key (i : nat) : Z := nth i ks 0.

Let goes_first (i j : nat) : bool :=
  if before_ties then key i <=? key j else key i <? key j.

Lemma goes_first_le (i j : nat) : goes_first i j = true -> key i <= key j.
Proof. unfold goes_first. destruct before_ties; lia. Qed.

Lemma goes_after_le (i j : nat) : goes_first i j = false -> key j <= key i.
Proof. unfold goes_first. destruct before_ties; lia. Qed.

Lemma insert_pos_permutation (i : nat) (l : list nat) :
  Permutation (insert_pos before_ties ks i l) (i :: l).
Proof.
  induction l as [|j l IH]; simpl; [reflexivity|].
  fold (key i) (key j). fold (goes_first i j).
  destruct (goes_first i j); [reflexivity|].
  rewrite IH. apply perm_swap.
Qed.

Lemma insert_pos_sorted (i : nat) (l : list nat) :
  StronglySorted Z.le (map key l) ->
  StronglySorted Z.le (map key (insert_pos before_ties ks i l)).
Proof.
  induction l as [|j l IH]; simpl; intros Hs.
  - repeat constructor.
  - fold (key i) (key j). fold (goes_first i j).
    inversion Hs as [|? ? Hs' Hle]; subst.
    destruct (goes_first i j) eqn:Hgo; simpl.
    + apply goes_first_le in Hgo.
      constructor; [exact Hs|].
      constructor; [exact Hgo|].
      eapply Forall_impl; [|exact Hle]. intros k Hk. simpl in Hk. lia.
    + apply goes_after_le in Hgo.
      constructor; [now apply IH|].
      apply Forall_forall. intros k Hk.
      apply in_map_iff in Hk. destruct Hk as (p & <- & Hp).
      apply (Permutation_in _ (insert_pos_permutation i l)) in Hp.
      destruct Hp as [<- | Hp]; [exact Hgo|].
      rewrite Forall_forall in Hle. apply Hle. now apply in_map.
Qed.

Lemma insertion_argsort_permutation :
  Permutation (insertion_argsort before_ties ks) (seq 0 (length ks)).
Proof.
  unfold insertion_argsort.
  induction (seq 0 (length ks)) as [|i l IH]; simpl; [reflexivity|].
  rewrite insert_pos_permutation. now constructor.
Qed.

Lemma insertion_argsort_sorted :
  StronglySorted Z.le (map key (insertion_argsort before_ties ks)).
Proof.
  unfold insertion_argsort.
  induction (seq 0 (length ks)) as [|i l IH]; simpl; [constructor|].
  now apply insert_pos_sorted.
Qed.

End InsertionArgsort.

(** Both insertion argsorts do what pandas documents of [argsort]. *)
Lemma toy_pandas_argsort_sorts (before_ties : bool) :
  @argsort_sorts (toy_pandas before_ties).
Proof.
  intros ks. split.
  - apply insertion_argsort_permutation.
  - apply StronglySorted_Sorted.
    apply (insertion_argsort_sorted before_ties ks).
Qed.

Lemma quicksort_pandas_argsort_sorts : @argsort_sorts quicksort_pandas.
Proof.
  intros ks. split.
  - apply insertion_argsort_permutation.
  - apply StronglySorted_Sorted.
    apply (insertion_argsort_sorted (length ks <=? 16)%nat ks).
Qed.

Section Preprocessor.

Context {pd : Pandas}.

Lemma set_nth_same {A : Type} (i : nat) (d : A) (l : list A) :
  set_nth i (nth i l d) l = l.
Proof.
  revert i. induction l as [|x l IH]; intros [|i]; simpl; try reflexivity.
  now rewrite IH.
Qed.

Lemma set_nth_twice {A : Type} (i : nat) (x y : A) (l : list A) :
  set_nth i x (set_nth i y l) = set_nth i x l.
Proof.
  revert i. induction l as [|z l IH]; intros [|i]; simpl; try reflexivity.
  now rewrite IH.
Qed.

Lemma find_column_set_nth (name : string) (cols : list (string * dtype))
    (i : nat) (d d' : dtype) :
  find_column name cols = Some (i, d) ->
  find_column name (set_nth i (name, d') cols) = Some (i, d').
Proof.
  revert i. induction cols as [|[n d0] cols IH]; intros i; simpl;
    [discriminate|].
  destruct (String.eqb n name) eqn:Hn.
  - intros [= <- _]. simpl. now rewrite String.eqb_refl.
  - destruct (find_column name cols) as [[i' d1]|] eqn:Hfind;
      [|discriminate].
    intros [= <- <-]. simpl. rewrite Hn.
    now rewrite (IH i' eq_refl).
Qed.

Lemma row_eta (r : row) : mkRow (label r) (cells r) = r.
Proof. now destruct r. Qed.

Lemma df_eta (df : DataFrame) : mkDF (columns df) (rows df) = df.
Proof. now destruct df. Qed.

(** Writing a column back over itself changes nothing. *)
Lemma set_cells_same (i : nat) (rs : list row) :
  set_cells i (map (cell_at i) rs) rs = rs.
Proof.
  induction rs as [|r rs IH]; [reflexivity|].
  simpl. unfold cell_at at 1. now rewrite set_nth_same, row_eta, IH.
Qed.

Lemma to_datetime_dtype (s : Series) : s_dtype (to_datetime s) = DDatetime.
Proof.
  unfold to_datetime. destruct (s_dtype s) eqn:Hd; simpl; auto.
Qed.

Lemma preprocess_data_present (df : DataFrame) (i : nat) (d : dtype) :
  find_column "ORDERDATE" (columns df) = Some (i, d) ->
  preprocess_data df = sort_values_at i (parsed i d df).
Proof. unfold preprocess_data. now intros ->. Qed.

Lemma parsed_columns (i : nat) (d : dtype) (df : DataFrame) :
  columns (parsed i d df)
  = set_nth i ("ORDERDATE", DDatetime) (columns df).
Proof.
  unfold parsed, dropna_subset_at, setitem_at. simpl.
  now rewrite to_datetime_dtype.
Qed.

Lemma parsed_notna (i : nat) (d : dtype) (df : DataFrame) :
  Forall (fun r => notna (cell_at i r) = true) (rows (parsed i d df)).
Proof. unfold parsed, dropna_subset_at. simpl. apply Forall_filter_true. Qed.

Lemma has_date_notna (i : nat) (r : row) :
  has_date i r = true -> notna (cell_at i r) = true.
Proof.
  unfold has_date, date_key. now destruct (cell_at i r).
Qed.

Lemma key_of_empty_row (i : nat) : key_or_zero i empty_row = 0.
Proof. unfold key_or_zero, date_key, cell_at. simpl. now destruct i. Qed.

Lemma sort_values_rows (i : nat) (df : DataFrame) :
  rows (sort_values_at i df) = sorted_dated i df ++ undated i df.
Proof. reflexivity. Qed.

Section WithContract.

Hypothesis Hargsort : argsort_sorts.

Lemma sorted_dated_permutation (i : nat) (df : DataFrame) :
  Permutation (sorted_dated i df) (filter (has_date i) (rows df)).
Proof.
  unfold sorted_dated. apply take_permutation.
  rewrite <- (length_map (key_or_zero i)). apply Hargsort.
Qed.

Lemma sorted_dated_ascending (i : nat) (df : DataFrame) :
  Sorted Z.le (map (key_or_zero i) (sorted_dated i df)).
Proof.
  unfold sorted_dated. rewrite take_keys, key_of_empty_row.
  apply Hargsort.
Qed.

Lemma sorted_dated_has_date (i : nat) (df : DataFrame) :
  Forall (fun r => has_date i r = true) (sorted_dated i df).
Proof.
  apply Forall_forall. intros r Hr.
  apply (Permutation_in _ (sorted_dated_permutation i df)) in Hr.
  now apply filter_In in Hr.
Qed.

Lemma undated_no_date (i : nat) (df : DataFrame) :
  Forall (fun r => has_date i r = false) (undated i df).
Proof.
  apply Forall_forall. intros r Hr. apply filter_In in Hr.
  now apply negb_true_iff.
Qed.

(** Sorting keeps the rows. *)
Lemma sort_values_permutation (i : nat) (df : DataFrame) :
  Permutation (rows (sort_values_at i df)) (rows df).
Proof.
  rewrite sort_values_rows.
  rewrite (sorted_dated_permutation i df). unfold undated.
  induction (rows df) as [|r rs IH]; simpl; [reflexivity|].
  destruct (has_date i r); simpl.
  - now constructor.
  - apply Permutation_sym, Permutation_cons_app. now apply Permutation_sym.
Qed.

(** In a sorted frame the rows with a date are the sorted ones. *)
Lemma dated_of_sorted (i : nat) (df : DataFrame) :
  filter (has_date i) (rows (sort_values_at i df)) = sorted_dated i df
  /\ undated i (sort_values_at i df) = undated i df.
Proof.
  unfold undated at 1. rewrite sort_values_rows, !filter_app.
  rewrite (filter_all _ _ (sorted_dated_has_date i df)).
  rewrite (filter_none (has_date i) (undated i df))
    by apply undated_no_date.
  rewrite (filter_none (fun r => negb (has_date i r)) (sorted_dated i df)).
  - rewrite (filter_all (fun r => negb (has_date i r)) (undated i df)).
    + now rewrite app_nil_r.
    + eapply Forall_impl; [|apply undated_no_date].
      intros r Hr. simpl in Hr. now rewrite Hr.
  - eapply Forall_impl; [|apply sorted_dated_has_date].
    intros r Hr. simpl in Hr. now rewrite Hr.
Qed.

(** A preprocessed frame goes through parsing and dropping unchanged:
    preprocessing it again only sorts it again. *)
Lemma preprocess_again (df : DataFrame) (i : nat) (d : dtype) :
  find_column "ORDERDATE" (columns df) = Some (i, d) ->
  preprocess_data (preprocess_data df)
  = sort_values_at i (preprocess_data df).
Proof.
  intros Hfind. rewrite (preprocess_data_present df i d Hfind).
  set (df1 := sort_values_at i (parsed i d df)).
  assert (Hcols : columns df1
                  = set_nth i ("ORDERDATE", DDatetime) (columns df)).
  { unfold df1. simpl. apply parsed_columns. }
  assert (Hfind1 : find_column "ORDERDATE" (columns df1)
                   = Some (i, DDatetime)).
  { rewrite Hcols. now apply find_column_set_nth with (d := d). }
  assert (Hrows : Forall (fun r => notna (cell_at i r) = true) (rows df1)).
  { apply Forall_forall. intros r Hr.
    apply (Permutation_in _ (sort_values_permutation i (parsed i d df))) in Hr.
    pose proof (parsed_notna i d df) as Hnotna.
    rewrite Forall_forall in Hnotna. now apply Hnotna. }
  clearbody df1.
  rewrite (preprocess_data_present df1 i DDatetime Hfind1).
  f_equal. unfold parsed, to_datetime, setitem_at, dropna_subset_at. simpl.
  rewrite set_cells_same, (filter_all _ _ Hrows).
  rewrite Hcols, set_nth_twice, <- Hcols. apply df_eta.
Qed.

(** Sorting a sorted frame again gives the same frame once [argsort]
    leaves its dated rows where they are. *)
Lemma sort_values_again (i : nat) (df : DataFrame) :
  sorted_dated i (sort_values_at i df) = sorted_dated i df ->
  sort_values_at i (sort_values_at i df) = sort_values_at i df.
Proof.
  intros Hfixed.
  transitivity (mkDF (columns (sort_values_at i df))
                     (rows (sort_values_at i (sort_values_at i df))));
    [reflexivity|].
  rewrite (sort_values_rows i (sort_values_at i df)), Hfixed.
  rewrite (proj2 (dated_of_sorted i df)), <- sort_values_rows.
  apply df_eta.
Qed.

Lemma sorted_dated_again (i : nat) (df : DataFrame) :
  sorted_dated i (sort_values_at i df)
  = take empty_row (sorted_dated i df)
      (argsort (map (key_or_zero i) (sorted_dated i df))).
Proof.
  unfold sorted_dated at 1. now rewrite (proj1 (dated_of_sorted i df)).
Qed.

(** C5, as the code has it: preprocessing a preprocessed frame keeps its
    columns and its rows, and the dates stay ascending; the frame itself
    is the same when [ORDERDATE] is absent, when no two rows share a
    date, and when the sort leaves ascending keys where they are.  Rows
    that share a date may change places, the default sort of
    [sort_values] being quicksort. *)
Theorem preprocess_twice (df : DataFrame) :
  columns (preprocess_data (preprocess_data df))
  = columns (preprocess_data df)
  /\ Permutation (rows (preprocess_data (preprocess_data df)))
       (rows (preprocess_data df))
  /\ (find_column "ORDERDATE" (columns df) = None ->
      preprocess_data df = df
      /\ preprocess_data (preprocess_data df) = preprocess_data df)
  /\ (forall i d,
        find_column "ORDERDATE" (columns df) = Some (i, d) ->
        Sorted Z.le
          (map (key_or_zero i)
             (filter (has_date i) (rows (preprocess_data df))))
        /\ Sorted Z.le
             (map (key_or_zero i)
                (filter (has_date i)
                   (rows (preprocess_data (preprocess_data df)))))
        /\ (NoDup (map (key_or_zero i)
                     (filter (has_date i) (rows (preprocess_data df)))) ->
            preprocess_data (preprocess_data df) = preprocess_data df)
        /\ ((forall ks, Sorted Z.le ks -> argsort ks = seq 0 (length ks)) ->
            preprocess_data (preprocess_data df) = preprocess_data df)).
Proof.
  destruct (find_column "ORDERDATE" (columns df)) as [[i d]|] eqn:Hfind.
  - pose proof (preprocess_again df i d Hfind) as Hagain.
    pose proof (preprocess_data_present df i d Hfind) as Hfirst.
    set (F := parsed i d df) in *.
    split; [|split; [|split]].
    + now rewrite Hagain.
    + rewrite Hagain. apply sort_values_permutation.
    + discriminate.
    + intros i' d' [= <- <-].
      rewrite Hagain, Hfirst.
      rewrite (proj1 (dated_of_sorted i (sort_values_at i F))).
      rewrite (proj1 (dated_of_sorted i F)).
      split; [apply sorted_dated_ascending|].
      split; [apply sorted_dated_ascending|].
      split.
      * intros Hnodup. apply sort_values_again.
        rewrite sorted_dated_again.
        apply (sorted_permutation_unique (key_or_zero i)).
        -- apply take_permutation.
           rewrite <- (length_map (key_or_zero i)). apply Hargsort.
        -- apply Sorted_StronglySorted; [exact Z.le_trans|].
           rewrite take_keys, key_of_empty_row. apply Hargsort.
        -- apply Sorted_StronglySorted; [exact Z.le_trans|].
           apply sorted_dated_ascending.
        -- exact Hnodup.
      * intros Hstable. apply sort_values_again.
        rewrite sorted_dated_again.
        rewrite Hstable by apply sorted_dated_ascending.
        rewrite length_map. apply take_all.
  - assert (Hsame : preprocess_data df = df).
    { unfold preprocess_data. now rewrite Hfind. }
    rewrite !Hsame. split; [reflexivity|]. split; [reflexivity|].
    split; [now split|]. intros i d. discriminate.
Qed.

Lemma find_column_set_nth_other (name other : string)
    (cols : list (string * dtype)) (i : nat) (d d' : dtype) :
  find_column name cols = Some (i, d) ->
  other <> name ->
  find_column other (set_nth i (name, d') cols) = find_column other cols.
Proof.
  intros Hfind Hne. revert i Hfind.
  induction cols as [|[n d0] cols IH]; intros i; simpl; [discriminate|].
  destruct (String.eqb n name) eqn:Hn.
  - intros [= <- _]. simpl. apply String.eqb_eq in Hn. subst n.
    assert (String.eqb name other = false) as ->; [|reflexivity].
    apply String.eqb_neq. congruence.
  - destruct (find_column name cols) as [[i' d1]|] eqn:Hfind;
      [|discriminate].
    intros [= <- <-]. simpl. now rewrite (IH i' eq_refl).
Qed.

Lemma nth_set_nth {A : Type} (i : nat) (v d : A) (l : list A) :
  nth i (set_nth i v l) d = v \/ nth i (set_nth i v l) d = d.
Proof.
  revert i. induction l as [|x l IH]; intros [|i]; simpl; auto.
Qed.

Lemma set_cells_date_or_null (i : nat) (vals : list cell) (rs : list row) :
  Forall date_or_null vals ->
  Forall (fun r => date_or_null (cell_at i r)) (set_cells i vals rs).
Proof.
  revert vals. induction rs as [|r rs IH]; intros vals Hvals; simpl;
    constructor.
  - unfold cell_at. simpl.
    destruct (nth_set_nth i (hd CNull vals) CNull (cells r)) as [-> | ->].
    + destruct Hvals; simpl; [now left|assumption].
    + now left.
  - apply IH. destruct Hvals; simpl; [constructor|assumption].
Qed.

(** After parsing a column that was not a datetime column yet, every row
    that is kept has a date. *)
Lemma parsed_has_date (i : nat) (d : dtype) (df : DataFrame) :
  d <> DDatetime ->
  Forall (fun r => has_date i r = true) (rows (parsed i d df)).
Proof.
  intros Hd. unfold parsed, dropna_subset_at, setitem_at, to_datetime.
  simpl. assert (is_datetime d = false) as -> by now destruct d.
  simpl. apply Forall_forall. intros r Hr.
  apply filter_In in Hr. destruct Hr as [Hin Hnotna].
  assert (Hcell : date_or_null (cell_at i r)).
  { clear Hnotna. revert r Hin. apply Forall_forall.
    apply set_cells_date_or_null.
    apply Forall_forall. intros c Hc. apply in_map_iff in Hc.
    destruct Hc as ([t|] & <- & _); [right; now exists t|now left]. }
  unfold has_date, date_key.
  destruct Hcell as [Hnull | [t Ht]].
  - rewrite Hnull in Hnotna. discriminate.
  - now rewrite Ht.
Qed.

(** The invariant of the session's table: a frame read from CSV with
    [ORDERDATE] and a number column [SALES] is, once preprocessed, a
    frame whose [ORDERDATE] is a datetime column without nulls. *)
Lemma preprocess_makes_dated_table (df : DataFrame) (i j : nat)
    (d : dtype) :
  find_column "ORDERDATE" (columns df) = Some (i, d) ->
  d <> DDatetime ->
  find_column "SALES" (columns df) = Some (j, DNumber) ->
  dated_sales_table (preprocess_data df).
Proof.
  intros Hdate Hd Hsales. exists i, j.
  rewrite (preprocess_data_present df i d Hdate).
  change (columns (sort_values_at i (parsed i d df)))
    with (columns (parsed i d df)).
  rewrite parsed_columns. split; [|split].
  - now apply find_column_set_nth with (d := d).
  - rewrite (find_column_set_nth_other "ORDERDATE" "SALES" _ i d DDatetime);
      [exact Hsales|exact Hdate|discriminate].
  - rewrite sort_values_rows. apply Forall_app. split.
    + apply sorted_dated_has_date.
    + unfold undated. rewrite filter_none; [constructor|].
      eapply Forall_impl; [|apply (parsed_has_date i d df Hd)].
      intros r Hr. simpl in Hr. now rewrite Hr.
Qed.

(** X3: on the table a load leaves in the session, whatever the order of
    equal dates, the grouped sales add up to the total of the summary,
    when neither the sum of [SALES] nor the sum of any date is rounded
    or wraps around. *)
Theorem session_table_preserves_total (df : DataFrame) (i j : nat)
    (d : dtype) :
  find_column "ORDERDATE" (columns df) = Some (i, d) ->
  d <> DDatetime ->
  find_column "SALES" (columns df) = Some (j, DNumber) ->
  sums_are_exact_in (preprocess_data df) ->
  exists g s,
    group_sales_by_date (preprocess_data df) = Returns g
    /\ get_sales_summary (preprocess_data df) = Returns s
    /\ total_sales s = Some (Rsum (grouped_sales g)).
Proof.
  intros Hdate Hd Hsales Hexact.
  destruct (preprocess_makes_dated_table df i j d Hdate Hd Hsales)
    as (i' & j' & Hdate' & Hsales' & Hrows).
  destruct (Hexact i' j' Hdate' Hsales') as [Htotal Hgroups].
  unfold group_sales_by_date, get_sales_summary, getitem.
  rewrite Hdate', Hsales'. simpl.
  eexists. eexists. split; [reflexivity|]. split; [reflexivity|].
  simpl. fold (column_cells j' (preprocess_data df)). rewrite Htotal.
  f_equal. unfold grouped_sales. rewrite !map_map. simpl.
  symmetry. exact (grouped_values_sum i' j' _ Hrows Hgroups).
Qed.

End WithContract.

End Preprocessor.

(** ** What the loader returns, read backwards *)

Section LoaderInversion.

Context {pd : Pandas}.

Variable src : source.

(** How the attempts over a list of encodings end: at the first encoding
    that does not fail to decode, with what [read_csv] gave there, or,
    all of them failing to decode, with what the retry gave. *)
Lemma try_encodings_ends (encs : list string) :
  (exists pre enc post,
     encs = pre ++ enc :: post
     /\ (forall enc', In enc' pre -> decode_fails src enc')
     /\ ~ decode_fails src enc
     /\ try_encodings src encs = read_csv src enc Strict)
  \/ ((forall enc, In enc encs -> decode_fails src enc)
      /\ try_encodings src encs = read_csv src "utf-8" Replace).
Proof.
  induction encs as [|enc encs IH].
  - right. split; [intros enc []|reflexivity].
  - destruct (read_csv src enc Strict) as [df|e] eqn:Hread.
    + left. exists [], enc, encs. simpl. rewrite Hread.
      repeat split; try reflexivity; try (intros enc' []).
      intros [m Hm]. congruence.
    + destruct e as [k|m|m|m|m|m];
        try (left; exists [], enc, encs; simpl; rewrite Hread;
             repeat split; try reflexivity; try (intros enc' []);
             intros [m' Hm']; congruence).
      assert (Hfail : decode_fails src enc) by (now exists m).
      destruct IH as [(pre & enc0 & post & -> & Hpre & Hnot & Hrun) | [Hall Hrun]].
      * left. exists (enc :: pre), enc0, post. simpl. rewrite Hread.
        repeat split; auto.
        intros enc' [<- | Hin]; auto.
      * right. split.
        -- intros enc' [<- | Hin]; auto.
        -- simpl. now rewrite Hread.
Qed.

(** X5: a frame returned by [load_data] is a frame [read_csv] returned,
    either under the first of latin1, iso-8859-1, cp1252 that did not
    fail to decode, or, all three having failed to decode, in the utf-8
    retry with invalid characters replaced; an error string is the
    message of the exception [read_csv] raised at that same point. *)
Theorem load_data_inversion :
  (forall df,
     load_data src = Frame df ->
     (exists pre enc post,
        encodings = pre ++ enc :: post
        /\ (forall enc', In enc' pre -> decode_fails src enc')
        /\ read_csv src enc Strict = Returns df)
     \/ ((forall enc, In enc encodings -> decode_fails src enc)
         /\ read_csv src "utf-8" Replace = Returns df))
  /\ (forall msg,
        load_data src = ErrorStr msg ->
        exists e,
          msg = str_exn e
          /\ ((exists pre enc post,
                 encodings = pre ++ enc :: post
                 /\ (forall enc', In enc' pre -> decode_fails src enc')
                 /\ read_csv src enc Strict = Raises e
                 /\ forall m, e <> UnicodeDecodeError m)
              \/ ((forall enc, In enc encodings -> decode_fails src enc)
                  /\ read_csv src "utf-8" Replace = Raises e))).
Proof.
  unfold load_data.
  destruct (try_encodings_ends encodings)
    as [(pre & enc & post & Henc & Hpre & Hnot & Hrun) | [Hall Hrun]];
    rewrite Hrun; split.
  - intros df Hdf. left. exists pre, enc, post.
    repeat split; auto.
    destruct (read_csv src enc Strict); congruence.
  - intros msg Hmsg.
    destruct (read_csv src enc Strict) as [df|e] eqn:Hread; [discriminate|].
    exists e. split; [congruence|]. left. exists pre, enc, post.
    repeat split; auto.
    intros m ->. apply Hnot. now exists m.
  - intros df Hdf. right. split; [exact Hall|].
    destruct (read_csv src "utf-8" Replace); congruence.
  - intros msg Hmsg.
    destruct (read_csv src "utf-8" Replace) as [df|e] eqn:Hread;
      [discriminate|].
    exists e. split; [congruence|]. right. now split.
Qed.

End LoaderInversion.

(** ** What the preprocessor and the numeric selection keep *)

Section FrameFacts.

Lemma length_set_nth {A : Type} (i : nat) (x : A) (l : list A) :
  length (set_nth i x l) = length l.
Proof.
  revert i. induction l as [|y l IH]; intros [|i]; simpl; auto.
Qed.

Lemma nth_set_nth_other {A : Type} (i k : nat) (x d : A) (l : list A) :
  k <> i -> nth k (set_nth i x l) d = nth k l d.
Proof.
  revert i k. induction l as [|y l IH]; intros [|i] [|k] Hk; simpl; auto.
  contradiction.
Qed.

Lemma map_fst_set_nth (name : string) (cols : list (string * dtype))
    (i : nat) (d d' : dtype) :
  find_column name cols = Some (i, d) ->
  map fst (set_nth i (name, d') cols) = map fst cols.
Proof.
  revert i. induction cols as [|[n d0] cols IH]; intros i; simpl;
    [discriminate|].
  destruct (String.eqb n name) eqn:Hn.
  - intros [= <- _]. simpl. apply String.eqb_eq in Hn. now subst.
  - destruct (find_column name cols) as [[i' d1]|]; [|discriminate].
    intros [= <- <-]. simpl. now rewrite (IH i' eq_refl).
Qed.

Lemma set_cells_labels (i : nat) (vals : list cell) (rs : list row) :
  map label (set_cells i vals rs) = map label rs.
Proof.
  revert vals. induction rs as [|r rs IH]; intros vals; simpl;
    [reflexivity|]. now rewrite IH.
Qed.

(** A row of a frame whose column [i] was assigned is a row of the frame
    before, but for its cell at [i]. *)
Lemma set_cells_rows (i : nat) (vals : list cell) (rs : list row) (r' : row) :
  In r' (set_cells i vals rs) ->
  exists r, In r rs /\ same_but_at i r' r.
Proof.
  revert vals. induction rs as [|r rs IH]; intros vals; simpl; [intros []|].
  intros [<- | Hin].
  - exists r. split; [now left|]. unfold same_but_at, cell_at. simpl.
    split; [reflexivity|]. split; [apply length_set_nth|].
    intros k Hk. now apply nth_set_nth_other.
  - destruct (IH _ Hin) as (r0 & Hr0 & Hsame). exists r0. split; auto.
Qed.

(** Dropping rows keeps the index labels distinct. *)
Lemma kept_labels_distinct (keep : row -> bool) (rs : list row) :
  NoDup (map label rs) -> NoDup (map label (filter keep rs)).
Proof.
  induction rs as [|r rs IH]; simpl; intros Hnd; [constructor|].
  inversion Hnd as [|? ? Hnotin Hnd']; subst.
  destruct (keep r); simpl; [|now apply IH].
  constructor; [|now apply IH].
  intros Hin. apply Hnotin. apply in_map_iff in Hin.
  destruct Hin as (r0 & Hlabel & Hkept). apply filter_In in Hkept.
  apply in_map_iff. exists r0. tauto.
Qed.

Lemma length_filter_le {A : Type} (p : A -> bool) (l : list A) :
  (length (filter p l) <= length l)%nat.
Proof.
  induction l as [|x l IH]; simpl; [lia|]. destruct (p x); simpl; lia.
Qed.

Lemma mask_map_filter {A : Type} (f : A -> bool) (l : list A) :
  mask (map f l) l = filter f l.
Proof.
  induction l as [|x l IH]; simpl; [reflexivity|].
  destruct (f x); now rewrite IH.
Qed.

(** Masking two lists of the same length by the same flags leaves two
    lists of the same length. *)
Lemma length_mask {A B : Type} (m : list bool) (l : list A) (l' : list B) :
  length l = length l' -> length (mask m l) = length (mask m l').
Proof.
  revert l l'. induction m as [|b m IH]; intros [|x l] [|y l'] Hlen;
    simpl in *; try reflexivity; try discriminate.
  destruct b; simpl; auto.
Qed.

Lemma mask_sublist_notna (m : list bool) (l : list cell) :
  Forall (fun c => notna c = true) l ->
  Forall (fun c => notna c = true) (mask m l).
Proof.
  intros Hl. revert m. induction Hl as [|c l Hc _ IH]; intros [|b m]; simpl;
    try constructor.
  destruct b; [constructor; auto|auto].
Qed.

(** X7: the frame the projection hands to scikit-learn, [df_num], has
    the number columns of the table, in their order, and nothing else;
    none of its cells is null; its rows are rows of the table, under
    their labels, in their order; and it has one cell per column in every
    row when the table has. *)
Theorem df_num_is_numeric_and_complete (df : DataFrame) :
  columns (df_num df) = filter (fun c => is_number (snd c)) (columns df)
  /\ Forall (fun c => snd c = DNumber) (columns (df_num df))
  /\ Forall (fun r => Forall (fun c => isna c = false) (cells r))
       (rows (df_num df))
  /\ (exists keep, map label (rows (df_num df))
                   = map label (filter keep (rows df)))
  /\ (length (rows (df_num df)) <= length (rows df))%nat
  /\ (well_formed df -> well_formed (df_num df)).
Proof.
  unfold df_num, dropna, select_dtypes_number. simpl.
  rewrite mask_map_filter.
  split; [reflexivity|]. split; [|split; [|split; [|split]]].
  - apply Forall_forall. intros [n d] Hin. apply filter_In in Hin.
    simpl in *. destruct Hin as [_ Hd]. now destruct d.
  - apply Forall_forall. intros r Hr. apply filter_In in Hr.
    destruct Hr as [_ Hcells]. rewrite forallb_forall in Hcells.
    apply Forall_forall. intros c Hc. specialize (Hcells c Hc).
    unfold notna in Hcells. now apply negb_true_iff.
  - set (keep := map (fun c : string * dtype => is_number (snd c)) (columns df)).
    exists (fun r => forallb notna (mask keep (cells r))).
    induction (rows df) as [|r rs IH]; simpl; [reflexivity|].
    destruct (forallb notna (mask keep (cells r))); simpl; now rewrite IH.
  - eapply Nat.le_trans; [apply length_filter_le|].
    now rewrite length_map.
  - unfold well_formed. simpl. intros Hwf.
    apply Forall_forall. intros r Hr. apply filter_In in Hr.
    destruct Hr as [Hr _]. apply in_map_iff in Hr.
    destruct Hr as (r0 & <- & Hr0). simpl.
    rewrite Forall_forall in Hwf. specialize (Hwf r0 Hr0).
    rewrite <- mask_map_filter. now apply length_mask.
Qed.

End FrameFacts.

(** ** What the preprocessor leaves untouched *)

Section PreprocessorFrame.

Context {pd : Pandas}.

Hypothesis Hargsort : argsort_sorts.

Lemma parsed_rows (i : nat) (d : dtype) (df : DataFrame) :
  exists vals,
    rows (parsed i d df)
    = filter (fun r => notna (cell_at i r)) (set_cells i vals (rows df)).
Proof. eexists. reflexivity. Qed.

(** X6: the preprocessor only parses [ORDERDATE], drops rows and
    reorders them.  It keeps the column names; every row it returns is a
    row of the table under the same label, with the same cells in every
    other column; it returns no more rows than it got, and no label
    twice if none was there twice; a table with one cell per column in
    every row stays one. *)
Theorem preprocess_keeps_the_rest (df : DataFrame) :
  column_names (preprocess_data df) = column_names df
  /\ (forall r',
        In r' (rows (preprocess_data df)) ->
        exists r,
          In r (rows df)
          /\ label r' = label r
          /\ length (cells r') = length (cells r)
          /\ forall k,
               (forall d, find_column "ORDERDATE" (columns df) <> Some (k, d)) ->
               cell_at k r' = cell_at k r)
  /\ (length (rows (preprocess_data df)) <= length (rows df))%nat
  /\ (NoDup (map label (rows df)) ->
      NoDup (map label (rows (preprocess_data df))))
  /\ (well_formed df -> well_formed (preprocess_data df)).
Proof.
  destruct (find_column "ORDERDATE" (columns df)) as [[i d]|] eqn:Hfind.
  - rewrite (preprocess_data_present df i d Hfind).
    pose proof (sort_values_permutation Hargsort i (parsed i d df)) as Hperm.
    destruct (parsed_rows i d df) as [vals Hrows].
    assert (Hfrom : forall r',
               In r' (rows (sort_values_at i (parsed i d df))) ->
               exists r, In r (rows df) /\ same_but_at i r' r).
    { intros r' Hr'. apply (Permutation_in _ Hperm) in Hr'.
      rewrite Hrows in Hr'. apply filter_In in Hr'.
      now apply set_cells_rows with (vals := vals). }
    split; [|split; [|split; [|split]]].
    + unfold column_names.
      change (columns (sort_values_at i (parsed i d df)))
        with (columns (parsed i d df)).
      rewrite parsed_columns. now apply map_fst_set_nth with (d := d).
    + intros r' Hr'. destruct (Hfrom r' Hr') as (r & Hr & Hl & Hlen & Hcells).
      exists r. repeat split; auto.
      intros k Hk. apply Hcells. intros ->. now apply (Hk d).
    + rewrite (Permutation_length Hperm), Hrows.
      eapply Nat.le_trans; [apply length_filter_le|].
      rewrite <- (length_map label), set_cells_labels. now rewrite length_map.
    + intros Hnd.
      apply (Permutation_NoDup
               (Permutation_sym (Permutation_map label Hperm))).
      rewrite Hrows. apply kept_labels_distinct. now rewrite set_cells_labels.
    + unfold well_formed. intros Hwf. apply Forall_forall. intros r' Hr'.
      destruct (Hfrom r' Hr') as (r & Hr & _ & Hlen & _).
      change (columns (sort_values_at i (parsed i d df)))
        with (columns (parsed i d df)).
      rewrite parsed_columns, length_set_nth, Hlen.
      rewrite Forall_forall in Hwf. now apply Hwf.
  - assert (Hsame : preprocess_data df = df).
    { unfold preprocess_data. now rewrite Hfind. }
    rewrite Hsame. split; [reflexivity|]. split; [|split; [lia|tauto]].
    intros r' Hr'. exists r'. repeat split; auto.
Qed.

End PreprocessorFrame.

(** ** The shape of what the projection returns *)

Section ProjectionResult.

Context {sk : Sklearn}.

Lemma length_pc_column_names (k : Z) :
  length (pc_column_names k) = Z.to_nat k.
Proof. unfold pc_column_names. now rewrite length_map, length_seq. Qed.

Lemma make_pca_frame_returns (Y : matrix) (names : list string)
    (f : PcaFrame) :
  make_pca_frame Y names = Returns f ->
  f = mkPcaFrame names Y None
  /\ Forall (fun row => length row = length names) Y.
Proof.
  unfold make_pca_frame.
  destruct (forallb _ Y) eqn:Hw; [|discriminate].
  intros [= <-]. split; [reflexivity|].
  rewrite forallb_forall in Hw. apply Forall_forall. intros row Hrow.
  now apply Nat.eqb_eq, Hw.
Qed.

Lemma set_cluster_returns (f f' : PcaFrame) (labels : list Z) :
  set_cluster f labels = Returns f' ->
  f' = mkPcaFrame (pc_names f) (pc_rows f) (Some labels)
  /\ length labels = length (pc_rows f).
Proof.
  unfold set_cluster.
  destruct (Nat.eqb_spec (length labels) (length (pc_rows f))) as [Hl|];
    [|discriminate].
  intros [= <-]. now split.
Qed.

Lemma map_fst_combine {A B : Type} (l : list A) (l' : list B) :
  length l = length l' -> map fst (combine l l') = l.
Proof.
  revert l'. induction l as [|x l IH]; intros [|y l'] Hlen; simpl in *;
    try reflexivity; try discriminate.
  rewrite IH; auto.
Qed.

(** The keys of the records of a frame whose rows have the width of its
    names. *)
Lemma to_records_keys (f : PcaFrame) :
  Forall (fun row => length row = length (pc_names f)) (pc_rows f) ->
  Forall (fun rec =>
            map fst rec
            = match cluster f with
              | None => pc_names f
              | Some _ => pc_names f ++ ["cluster"]
              end)
         (to_records f).
Proof.
  intros Hw. rewrite Forall_forall in Hw. unfold to_records.
  destruct (cluster f) as [labels|]; apply Forall_forall; intros rec Hrec;
    apply in_map_iff in Hrec.
  - destruct Hrec as ([row l] & <- & Hin). simpl.
    apply in_combine_l in Hin.
    rewrite map_app, map_fst_combine; [reflexivity|].
    rewrite length_map. symmetry. now apply Hw.
  - destruct Hrec as (row & <- & Hin).
    apply map_fst_combine. rewrite length_map. symmetry. now apply Hw.
Qed.

Lemma length_to_records (f : PcaFrame) :
  match cluster f with
  | Some labels => length labels = length (pc_rows f)
  | None => True
  end ->
  length (to_records f) = length (pc_rows f).
Proof.
  unfold to_records. destruct (cluster f) as [labels|]; intros Hl.
  - rewrite length_map, length_combine, Hl. apply Nat.min_id.
  - now rewrite length_map.
Qed.

(** X8: whenever the projection returns its pair, the data was
    sufficient; the components are those PCA returned, one record per
    row, under the names PC1 .. PCk in every record; with clustering
    every row has got the label k-means gave it, under the key
    [cluster]; without clustering there is no such key. *)
Theorem projection_result_is_well_formed (e : entropy) (df : DataFrame)
    (k : Z) (cl : bool) (c : Z) (f : PcaFrame) (r : PcaResult) :
  perform_pca_analysis e df k cl c = Returns (PcaPair f r) ->
  (0 < fst (shape (df_num df)) /\ k <= snd (shape (df_num df)))
  /\ (exists X,
        StandardScaler_fit_transform (df_num df) = Returns X
        /\ PCA_fit_transform k None e X
           = Returns (pc_rows f, explained_variance_ratio r))
  /\ pc_names f = pc_column_names k
  /\ Forall (fun row => length row = Z.to_nat k) (pc_rows f)
  /\ components r = to_records f
  /\ length (components r) = length (pc_rows f)
  /\ (if cl
      then exists labels,
             KMeans_fit_predict c (Some 42) e (pc_names f) (pc_rows f)
             = Returns labels
             /\ cluster f = Some labels
             /\ length labels = length (pc_rows f)
             /\ Forall (fun rec => map fst rec = pc_column_names k ++ ["cluster"])
                  (components r)
      else cluster f = None
           /\ Forall (fun rec => map fst rec = pc_column_names k)
                (components r)).
Proof.
  unfold perform_pca_analysis.
  destruct ((fst (shape (df_num df)) =? 0)
            || (snd (shape (df_num df)) <? k)) eqn:Hg; [discriminate|].
  apply orb_false_iff in Hg. destruct Hg as [Hrows Hcols].
  apply Z.eqb_neq in Hrows. apply Z.ltb_ge in Hcols.
  destruct (StandardScaler_fit_transform (df_num df)) as [X|ex]; simpl;
    [|discriminate].
  destruct (PCA_fit_transform k None e X) as [[Y ratio]|ex] eqn:Hpca; simpl;
    [|discriminate].
  destruct (make_pca_frame Y (pc_column_names k)) as [f0|ex] eqn:Hframe;
    simpl; [|discriminate].
  destruct (make_pca_frame_returns _ _ _ Hframe) as [-> Hwidth].
  rewrite length_pc_column_names in Hwidth.
  assert (Hshape : 0 < fst (shape (df_num df)) /\ k <= snd (shape (df_num df))).
  { split; [|exact Hcols]. unfold shape in *. simpl in *. lia. }
  destruct cl.
  - simpl pc_names. simpl pc_rows.
    destruct (KMeans_fit_predict c (Some 42) e (pc_column_names k) Y)
      as [labels|ex] eqn:Hkm; simpl; [|discriminate].
    destruct (set_cluster (mkPcaFrame (pc_column_names k) Y None) labels)
      as [f1|ex] eqn:Hset; simpl; [|discriminate].
    destruct (set_cluster_returns _ _ _ Hset) as [-> Hlen]. simpl in Hlen.
    intros [= <- <-]. simpl.
    split; [exact Hshape|]. split; [now exists X|].
    split; [reflexivity|]. split; [exact Hwidth|]. split; [reflexivity|].
    split.
    + apply (length_to_records (mkPcaFrame (pc_column_names k) Y (Some labels))).
      exact Hlen.
    + exists labels. repeat split; auto.
      apply (to_records_keys (mkPcaFrame (pc_column_names k) Y (Some labels))).
      simpl. now rewrite length_pc_column_names.
  - intros [= <- <-]. simpl.
    split; [exact Hshape|]. split; [now exists X|].
    split; [reflexivity|]. split; [exact Hwidth|]. split; [reflexivity|].
    split.
    + now apply (length_to_records (mkPcaFrame (pc_column_names k) Y None)).
    + split; [reflexivity|].
      apply (to_records_keys (mkPcaFrame (pc_column_names k) Y None)).
      simpl. now rewrite length_pc_column_names.
Qed.

End ProjectionResult.

(** ** The summary, the distribution and the groups, value by value *)

Section SummaryBounds.

Context {pd : Pandas}.

Open Scope R_scope.

Lemma Rsum_between (lo hi : R) (xs : list R) :
  (forall x, In x xs -> lo <= x <= hi) ->
  INR (length xs) * lo <= Rsum xs <= INR (length xs) * hi.
Proof.
  induction xs as [|x xs IH]; intros Hb.
  - simpl. lra.
  - change (Rsum (x :: xs)) with (x + Rsum xs).
    change (length (x :: xs)) with (S (length xs)). rewrite S_INR.
    assert (Hx : lo <= x <= hi) by (apply Hb; now left).
    assert (Hxs : INR (length xs) * lo <= Rsum xs <= INR (length xs) * hi)
      by (apply IH; intros y Hy; apply Hb; now right).
    lra.
Qed.

(** The mean of a sample lies between any bounds of its values. *)
Lemma mean_between (lo hi : R) (xs : list R) :
  xs <> [] ->
  (forall x, In x xs -> lo <= x <= hi) ->
  lo <= Rsum xs / INR (length xs) <= hi.
Proof.
  intros Hne Hb.
  assert (Hn : 0 < INR (length xs)).
  { apply lt_0_INR. destruct xs; [contradiction|simpl; lia]. }
  pose proof (Rsum_between lo hi xs Hb) as [Hlo Hhi].
  split.
  - apply (Rmult_le_reg_r (INR (length xs))); [exact Hn|].
    unfold Rdiv. rewrite Rmult_assoc, Rinv_l by lra. lra.
  - apply (Rmult_le_reg_r (INR (length xs))); [exact Hn|].
    unfold Rdiv. rewrite Rmult_assoc, Rinv_l by lra. lra.
Qed.

Lemma has_sales (df : DataFrame) (j : nat) (d : dtype) :
  find_column "SALES" (columns df) = Some (j, d) ->
  has_column "SALES" df = true.
Proof.
  intros Hfind. destruct (has_column "SALES" df) eqn:Hh; [reflexivity|].
  apply has_column_find in Hh. congruence.
Qed.

(** X9: on a table with a number column [SALES], the summary and the
    distribution of [SALES] agree on mean, minimum and maximum.  When
    [SALES] has no value (no row, or nulls only), the total is 0 and
    every other statistic is NaN.  When it has one, minimum and maximum
    are values of the column, the minimum not above the maximum; and
    where sum and mean are computed without rounding or wrapping, the
    mean lies between them and the total is the mean times the number of
    values. *)
Theorem summary_and_distribution_agree (df : DataFrame) (j : nat) :
  find_column "SALES" (columns df) = Some (j, DNumber) ->
  exists s d,
    get_sales_summary df = Returns s
    /\ get_sales_distribution df "SALES" = Returns (Some d)
    /\ d_mean d = average_sales s
    /\ d_min d = min_sales s
    /\ d_max d = max_sales s
    /\ (non_null (column_cells j df) = [] ->
        total_sales s = Some 0
        /\ average_sales s = None /\ min_sales s = None /\ max_sales s = None
        /\ d_std d = None /\ d_q25 d = None /\ d_q50 d = None
        /\ d_q75 d = None)
    /\ (non_null (column_cells j df) <> [] ->
        exists lo hi,
          min_sales s = Some lo /\ max_sales s = Some hi
          /\ In lo (non_null (column_cells j df))
          /\ In hi (non_null (column_cells j df))
          /\ lo <= hi
          /\ (exact_sum (non_null (column_cells j df)) ->
              exact_mean (non_null (column_cells j df)) ->
              exists t m,
                total_sales s = Some t /\ average_sales s = Some m
                /\ lo <= m <= hi
                /\ t = m * INR (length (non_null (column_cells j df))))).
Proof.
  intros Hfind. pose proof (has_sales df j _ Hfind) as Hhas.
  unfold get_sales_summary, get_sales_distribution, getitem.
  rewrite Hhas, Hfind. simpl. fold (column_cells j df).
  set (xs := non_null (column_cells j df)).
  eexists. eexists. split; [reflexivity|]. split; [reflexivity|]. simpl.
  split; [reflexivity|]. split; [reflexivity|]. split; [reflexivity|].
  split.
  - intros ->. repeat split; try reflexivity.
  - intros Hne. clearbody xs. destruct xs as [|x xs']; [contradiction|].
    exists (fold_left Rmin xs' x), (fold_left Rmax xs' x).
    do 2 (split; [reflexivity|]).
    split; [apply fold_min_attained|]. split; [apply fold_max_attained|].
    destruct (fold_min_lower xs' x) as [Hlo Hlos].
    destruct (fold_max_upper xs' x) as [Hhi Hhis].
    split; [lra|].
    intros Hsum Hmean. unfold exact_sum in Hsum.
    specialize (Hmean Hne).
    exists (Rsum (x :: xs')), (Rsum (x :: xs') / INR (length (x :: xs'))).
    split; [exact Hsum|]. split; [exact Hmean|]. split.
    + apply mean_between; [discriminate|].
      rewrite Forall_forall in Hlos, Hhis.
      intros y [<- | Hy]; [lra|].
      split; [now apply Hlos|now apply Hhis].
    + field. apply not_0_INR. discriminate.
Qed.

(** C10: [total_orders] is the number of rows of the frame, whether
    their [SALES] is null or not, while the total, the mean, the maximum
    and the minimum are those of the non-null [SALES] values: they are
    what the library's sum and mean make of these values, and the
    greatest and the least of them, and they do not change when the rows
    without a [SALES] value are dropped.  So where sum and mean are
    exact, some [SALES] value is missing and the total is not 0, the
    mean differs from the total over the count. *)
Theorem summary_counts_all_rows (df : DataFrame) (j : nat) :
  find_column "SALES" (columns df) = Some (j, DNumber) ->
  exists s s',
    get_sales_summary df = Returns s
    /\ get_sales_summary (dropna_subset_at j df) = Returns s'
    /\ total_orders s = Z.of_nat (length (rows df))
    /\ total_orders s'
       = Z.of_nat (length (filter (fun r => notna (cell_at j r)) (rows df)))
    /\ total_sales s = total_sales s'
    /\ average_sales s = average_sales s'
    /\ max_sales s = max_sales s'
    /\ min_sales s = min_sales s'
    /\ (non_null (column_cells j df) = [] ->
        total_sales s = Some 0 /\ average_sales s = None
        /\ max_sales s = None /\ min_sales s = None)
    /\ (non_null (column_cells j df) <> [] ->
        total_sales s = Some (series_sum (non_null (column_cells j df)))
        /\ average_sales s
           = Some (series_mean (non_null (column_cells j df)))
        /\ exists hi lo,
             max_sales s = Some hi /\ min_sales s = Some lo
             /\ In hi (non_null (column_cells j df))
             /\ In lo (non_null (column_cells j df))
             /\ forall x, In x (non_null (column_cells j df)) -> lo <= x <= hi)
    /\ (exact_sum (non_null (column_cells j df)) ->
        exact_mean (non_null (column_cells j df)) ->
        (0 < length (non_null (column_cells j df)) < length (rows df))%nat ->
        Rsum (non_null (column_cells j df)) <> 0 ->
        exists t m,
          total_sales s = Some t /\ average_sales s = Some m
          /\ m <> t / IZR (total_orders s)).
Proof.
  intros Hfind.
  unfold get_sales_summary, getitem, dropna_subset_at. simpl.
  rewrite Hfind. simpl. rewrite non_null_dropna. fold (column_cells j df).
  set (xs := non_null (column_cells j df)).
  eexists. eexists. split; [reflexivity|]. split; [reflexivity|]. simpl.
  do 6 (split; [reflexivity|]).
  split; [|split].
  - intros ->. repeat split; reflexivity.
  - intros Hne. clearbody xs. destruct xs as [|x xs']; [contradiction|].
    do 2 (split; [reflexivity|]).
    exists (fold_left Rmax xs' x), (fold_left Rmin xs' x).
    do 2 (split; [reflexivity|]).
    split; [apply fold_max_attained|]. split; [apply fold_min_attained|].
    destruct (fold_min_lower xs' x) as [Hlo Hlos].
    destruct (fold_max_upper xs' x) as [Hhi Hhis].
    rewrite Forall_forall in Hlos, Hhis.
    intros y [<- | Hy]; [lra|].
    split; [now apply Hlos|now apply Hhis].
  - intros Hsum Hmean [Hpos Hless] Htotal. clearbody xs.
    assert (Hne : xs <> []) by (intros ->; simpl in Hpos; lia).
    unfold exact_sum in Hsum. specialize (Hmean Hne).
    exists (Rsum xs), (Rsum xs / INR (length xs)).
    split; [exact Hsum|]. split; [exact Hmean|].
    rewrite <- INR_IZR_INZ. unfold Rdiv. intros Heq.
    apply Rmult_eq_reg_l in Heq; [|exact Htotal].
    assert (Hm : INR (length xs) <> 0) by (apply not_0_INR; lia).
    assert (Hn : INR (length (rows df)) <> 0) by (apply not_0_INR; lia).
    assert (Hsame : INR (length xs) = INR (length (rows df))).
    { rewrite <- (Rinv_inv (INR (length xs))),
        <- (Rinv_inv (INR (length (rows df)))).
      now rewrite Heq. }
    apply INR_eq in Hsame. lia.
Qed.

End SummaryBounds.

Section Groups.

Context {pd : Pandas}.

Open Scope R_scope.

(** X10: on a table with a datetime [ORDERDATE] and a number [SALES],
    [group_sales_by_date] returns one record per timestamp that some
    row has, in strictly ascending order of the timestamps, holding the
    timestamp formatted as a date and the sum the library makes of the
    non-null [SALES] of the rows with that timestamp, in the order of
    the rows (0 when there is none); rows without a timestamp are in no
    group. *)
Theorem groups_are_the_dates (df : DataFrame) (i j : nat) :
  find_column "ORDERDATE" (columns df) = Some (i, DDatetime) ->
  find_column "SALES" (columns df) = Some (j, DNumber) ->
  exists sums,
    group_sales_by_date df
    = Returns (map (fun g => (strftime_ymd (fst g), CNum (snd g))) sums)
    /\ StronglySorted Z.lt (map fst sums)
    /\ (forall t,
          In t (map fst sums)
          <-> exists r, In r (rows df) /\ date_key i r = Some t)
    /\ (forall t s,
          In (t, s) sums ->
          s = group_total
                (non_null (map (cell_at j) (filter (on_date i t) (rows df))))).
Proof.
  intros Hdate Hsales.
  exists (groupby_sum (keyed_values i j (rows df))).
  assert (Hkeys : map fst (groupby_sum (keyed_values i j (rows df)))
                  = map fst (groupby_values (keyed_values i j (rows df)))).
  { unfold groupby_sum. now rewrite map_map. }
  split; [|split; [|split]].
  - unfold group_sales_by_date. rewrite Hdate, Hsales. simpl.
    now rewrite map_map.
  - rewrite Hkeys. apply sorted_groupby_agg.
  - intros t. rewrite Hkeys. unfold groupby_values.
    rewrite keys_groupby_agg. apply keyed_values_keys.
  - intros t s Hin. unfold groupby_sum in Hin.
    apply in_map_iff in Hin. destruct Hin as ([t' vs] & [= -> <-] & Hin).
    now rewrite (group_of_date i j t vs _ Hin).
Qed.

End Groups.

(** ** The session over a sequence of requests *)

Section SessionRuns.

Context {pd : Pandas} {sk : Sklearn} {rd : Renderer}.

Lemma initialize_data_done {fs : FileSystem} (s : session) :
  data_initialized s = true -> initialize_data s = s.
Proof. unfold initialize_data. now intros ->. Qed.

Lemma initialize_data_sets_flag {fs : FileSystem} (s : session) :
  data_initialized (initialize_data s) = true.
Proof.
  unfold initialize_data. destruct (data_initialized s) eqn:Hflag;
    [exact Hflag|].
  destruct data_file as [src|]; [|reflexivity].
  now destruct (load_data src).
Qed.

Lemma initialize_data_preprocessed {fs : FileSystem} (s : session) :
  holds_preprocessed_table s ->
  holds_preprocessed_table (initialize_data s).
Proof.
  unfold initialize_data. intros Hs.
  destruct (data_initialized s); [exact Hs|].
  destruct data_file as [src|]; [|exact Hs].
  destruct (load_data src) as [df|msg]; simpl; [now exists df|exact I].
Qed.

Lemma upload_file_flag (file : option (string * source)) (s : session) :
  data_initialized (fst (upload_file file s)) = data_initialized s.
Proof.
  unfold upload_file. destruct file as [[name src]|]; [|reflexivity].
  destruct (String.eqb name ""); [reflexivity|].
  now destruct (load_data src).
Qed.

Lemma upload_file_preprocessed (file : option (string * source))
    (s : session) :
  holds_preprocessed_table s ->
  holds_preprocessed_table (fst (upload_file file s)).
Proof.
  unfold upload_file. intros Hs.
  destruct file as [[name src]|]; [|exact Hs].
  destruct (String.eqb name ""); [exact Hs|].
  destruct (load_data src) as [df|msg]; simpl; [now exists df|exact I].
Qed.

Lemma handle_flag {fs : FileSystem} (ev : event) (s : session) :
  data_initialized (handle ev s) = true.
Proof.
  destruct ev as [e r| |file]; simpl.
  - apply initialize_data_sets_flag.
  - apply initialize_data_sets_flag.
  - unfold post_upload. rewrite upload_file_flag.
    apply initialize_data_sets_flag.
Qed.

Lemma handle_preprocessed {fs : FileSystem} (ev : event) (s : session) :
  holds_preprocessed_table s -> holds_preprocessed_table (handle ev s).
Proof.
  intros Hs. destruct ev as [e r| |file]; simpl.
  - now apply initialize_data_preprocessed.
  - now apply initialize_data_preprocessed.
  - unfold post_upload.
    now apply upload_file_preprocessed, initialize_data_preprocessed.
Qed.

(** Once the flag is set a request is answered without [DATA_FILE]. *)
Lemma handle_without_file (fs1 fs2 : FileSystem) (ev : event) (s : session) :
  data_initialized s = true ->
  @handle pd sk rd fs1 ev s = @handle pd sk rd fs2 ev s.
Proof.
  intros Hflag. destruct ev as [e r| |file]; simpl; unfold post_upload;
    now rewrite (@initialize_data_done fs1 s Hflag),
                (@initialize_data_done fs2 s Hflag).
Qed.

(** X11: over any sequence of requests from start-up, every table the
    session holds has come out of the preprocessor; from the first
    request on the initialized flag is set, the data file is not read
    again (the session no longer depends on it), the GET routes leave
    the session as it is, and only an upload changes it. *)
Theorem session_over_requests {fs : FileSystem} (evs : list event) :
  holds_preprocessed_table (run evs initial_session)
  /\ (evs <> [] -> data_initialized (run evs initial_session) = true)
  /\ (forall s e r,
        data_initialized s = true ->
        handle (Get e r) s = s /\ handle GetStatus s = s)
  /\ (forall s (fs' : FileSystem) more,
        data_initialized s = true ->
        @run pd sk rd fs more s = @run pd sk rd fs' more s)
  /\ (forall s, initialize_data (initialize_data s) = initialize_data s).
Proof.
  assert (Hinv : forall l s,
             holds_preprocessed_table s ->
             holds_preprocessed_table (run l s)).
  { induction l as [|ev l IH]; intros s Hs; simpl; [exact Hs|].
    apply IH. now apply handle_preprocessed. }
  assert (Hflag : forall l s,
             data_initialized s = true -> data_initialized (run l s) = true).
  { induction l as [|ev l IH]; intros s Hs; simpl; [exact Hs|].
    apply IH. apply handle_flag. }
  split; [|split; [|split; [|split]]].
  - apply Hinv. exact I.
  - destruct evs as [|ev evs]; [now intros []|]. intros _. simpl.
    apply Hflag. apply handle_flag.
  - intros s e r Hs. simpl. now rewrite (initialize_data_done s Hs).
  - intros s fs' more. revert s.
    induction more as [|ev more IH]; intros s Hs; simpl; [reflexivity|].
    rewrite (handle_without_file fs fs' ev s Hs).
    apply IH. apply handle_flag.
  - intros s. apply initialize_data_done, initialize_data_sets_flag.
Qed.

Lemma preprocess_column_names (df : DataFrame) :
  column_names (preprocess_data df) = column_names df
  /\ length (columns (preprocess_data df)) = length (columns df).
Proof.
  unfold preprocess_data.
  destruct (find_column "ORDERDATE" (columns df)) as [[i d]|] eqn:Hfind;
    [|now split].
  unfold column_names. simpl. rewrite to_datetime_dtype. split.
  - now apply map_fst_set_nth with (d := d).
  - apply length_set_nth.
Qed.

(** X12: when an upload is accepted, the file was named and
    [load_data] read a frame from it; the session holds that frame
    preprocessed; the answer reports the columns of the file and the
    number of rows left after preprocessing; and [/status] reports the
    same three values until the next upload. *)
Theorem accepted_upload_is_reported (file : option (string * source))
    (s s' : session) (n m : Z) (names : list string) :
  upload_file file s = (s', mkResponse (JUploaded n m names) 200) ->
  exists name src raw,
    file = Some (name, src)
    /\ name <> ""
    /\ load_data src = Frame raw
    /\ df_global s' = PyFrame (preprocess_data raw)
    /\ data_initialized s' = data_initialized s
    /\ n = Z.of_nat (length (rows (preprocess_data raw)))
    /\ m = Z.of_nat (length (columns raw))
    /\ names = column_names raw
    /\ status (df_global s')
       = mkResponse
           (JStatusLoaded n m names
              (has_column "SALES" (preprocess_data raw))
              (has_column "ORDERDATE" (preprocess_data raw))
              (column_names (select_dtypes_number (preprocess_data raw))))
           200.
Proof.
  unfold upload_file.
  destruct file as [[name src]|]; [|discriminate].
  destruct (String.eqb name "") eqn:Hname; [discriminate|].
  destruct (load_data src) as [raw|msg] eqn:Hload; [|discriminate].
  intros [= <- <- <- <-].
  destruct (preprocess_column_names raw) as [Hnames Hwidth].
  exists name, src, raw. simpl.
  split; [reflexivity|]. split; [now apply String.eqb_neq|].
  split; [exact Hload|]. split; [reflexivity|]. split; [reflexivity|].
  split; [reflexivity|]. split; [now rewrite Hwidth|].
  split; [exact Hnames|reflexivity].
Qed.

(** X13: on a loaded table without a [SALES] column, [/distribution]
    and [/plot/distribution] answer 400, while [/summary], [/grouped]
    and [/plot/grouped] raise [KeyError]; without an [ORDERDATE] column
    [/grouped] and [/plot/grouped] raise [KeyError] too. *)
Theorem routes_on_missing_columns (df : DataFrame) :
  (has_column "SALES" df = false ->
   distribution (PyFrame df) = Returns (mkResponse (JError no_sales_msg) 400)
   /\ plot_dist (PyFrame df) = Returns (mkResponse (JError no_sales_msg) 400)
   /\ summary (PyFrame df) = Raises (KeyError "SALES")
   /\ exists key,
        grouped (PyFrame df) = Raises (KeyError key)
        /\ plot_grouped (PyFrame df) = Raises (KeyError key))
  /\ (has_column "ORDERDATE" df = false ->
      grouped (PyFrame df) = Raises (KeyError "ORDERDATE")
      /\ plot_grouped (PyFrame df) = Raises (KeyError "ORDERDATE")).
Proof.
  split.
  - intros Hsales. pose proof Hsales as Hfind.
    apply has_column_find in Hfind.
    unfold distribution, plot_dist, summary, grouped, plot_grouped,
      get_sales_distribution, plot_sales_distribution, plot_grouped_sales,
      get_sales_summary, group_sales_by_date, getitem.
    simpl. rewrite Hsales, Hfind. simpl.
    repeat split; try reflexivity.
    destruct (find_column "ORDERDATE" (columns df)) as [[i d]|];
      eexists; split; reflexivity.
  - intros Hdate. apply has_column_find in Hdate.
    unfold grouped, plot_grouped, plot_grouped_sales, group_sales_by_date.
    simpl. now rewrite Hdate.
Qed.

End SessionRuns.

(** ** The charts and the data routes *)

Section Charts.

Context {pd : Pandas} {sk : Sklearn} {rd : Renderer}.

Lemma non_null_filter_notna (vals : list cell) :
  non_null (filter notna vals) = non_null vals.
Proof.
  induction vals as [|c vals IH]; [reflexivity|].
  destruct c; simpl; now rewrite ?IH.
Qed.

Lemma pair_components (e : entropy) (df : DataFrame) (k : Z) (cl : bool)
    (c : Z) (f : PcaFrame) (r : PcaResult) :
  perform_pca_analysis e df k cl c = Returns (PcaPair f r) ->
  components r = to_records f.
Proof.
  unfold perform_pca_analysis.
  destruct ((fst (shape (df_num df)) =? 0)
            || (snd (shape (df_num df)) <? k)); [discriminate|].
  destruct (StandardScaler_fit_transform (df_num df)) as [X|ex]; simpl;
    [|discriminate].
  destruct (PCA_fit_transform k None e X) as [[Y ratio]|ex]; simpl;
    [|discriminate].
  destruct (make_pca_frame Y (pc_column_names k)) as [f0|ex]; simpl;
    [|discriminate].
  destruct cl; [|now intros [= <- <-]].
  destruct (KMeans_fit_predict c (Some 42) e (pc_names f0) (pc_rows f0))
    as [labels|ex]; simpl; [|discriminate].
  destruct (set_cluster f0 labels) as [f1|ex]; simpl; [|discriminate].
  now intros [= <- <-].
Qed.

(** X14: each chart is drawn from what its data route answers with.
    When [/grouped] answers with records, [/plot/grouped] draws those
    records; when [/distribution] answers with statistics,
    [/plot/distribution] draws the non-null [SALES] values they were
    computed from; when [/pca] answers with components, [/plot/pca]
    draws, in three dimensions, the frame these are the records of.
    When [/grouped] or [/pca] raise, so does the chart. *)
Theorem charts_show_the_data (e : entropy) (df : DataFrame) :
  (forall records,
     grouped (PyFrame df) = Returns (mkResponse (JRecords records) 200) ->
     plot_grouped (PyFrame df) = (img <- render_line records ;; ok (Png img)))
  /\ (forall ex,
        grouped (PyFrame df) = Raises ex ->
        plot_grouped (PyFrame df) = Raises ex)
  /\ (forall d,
        distribution (PyFrame df) = Returns (mkResponse (JDistribution d) 200) ->
        exists vals,
          plot_dist (PyFrame df)
          = (img <- render_hist "SALES" vals ;; ok (Png img))
          /\ Forall (fun c => notna c = true) vals
          /\ d = distribution_of (non_null vals))
  /\ (forall result,
        pca e (PyFrame df) = Returns (mkResponse (JPca result) 200) ->
        exists pca_df,
          plot_pca e (PyFrame df)
          = (img <- render_scatter3d pca_df ;; ok (Png img))
          /\ components result = to_records pca_df)
  /\ (forall ex,
        pca e (PyFrame df) = Raises ex -> plot_pca e (PyFrame df) = Raises ex).
Proof.
  split; [|split; [|split; [|split]]].
  - unfold grouped, plot_grouped, plot_grouped_sales. simpl.
    intros records.
    destruct (group_sales_by_date df) as [r|ex]; simpl; [|discriminate].
    unfold ok. now intros [= ->].
  - unfold grouped, plot_grouped, plot_grouped_sales. simpl.
    intros ex.
    destruct (group_sales_by_date df) as [r|ex']; simpl;
      [discriminate|now intros [= ->]].
  - unfold distribution, plot_dist, get_sales_distribution,
      plot_sales_distribution. simpl. intros d.
    destruct (has_column "SALES" df); simpl; [|discriminate].
    destruct (getitem df "SALES") as [s|ex]; simpl; [|discriminate].
    assert (Hvalues : forall xs,
               numeric_values s = Returns xs -> xs = non_null (s_values s)).
    { unfold numeric_values. intros xs.
      destruct (s_dtype s); [|discriminate|]; simpl.
      - now intros [= <-].
      - destruct (existsb is_text (s_values s)); [discriminate|].
        now intros [= <-]. }
    destruct (numeric_values s) as [xs|ex]; simpl; [|discriminate].
    rewrite (Hvalues xs eq_refl).
    unfold ok. intros [= <-].
    exists (filter notna (s_values s)). split; [|split].
    + now destruct (render_hist "SALES" (filter notna (s_values s))).
    + apply Forall_forall. intros c Hc. now apply filter_In in Hc.
    + now rewrite non_null_filter_notna.
  - unfold pca, plot_pca, plot_pca_clusters. simpl. intros result.
    destruct (perform_pca_analysis e df 3 true 3) as [[msg|f r]|ex] eqn:Hrun;
      simpl; try discriminate.
    unfold ok. intros [= <-]. exists f. split.
    + now destruct (render_scatter3d f).
    + now apply pair_components with (1 := Hrun).
  - unfold pca, plot_pca, plot_pca_clusters. simpl. intros ex.
    destruct (perform_pca_analysis e df 3 true 3) as [[msg|f r]|ex'];
      simpl; try discriminate; now intros [= ->].
Qed.

End Charts.

(** * The service on examples *)

(** C2 at a frame of text only: two rows are left, no column. *)
Lemma insufficient_data_exactly_witness :
  @perform_pca_analysis toy_sklearn 0 df_text 3 true 3
  = Returns (PcaErrorDict insufficient_msg).
Proof.
  apply (proj2 (@insufficient_data_exactly toy_sklearn 0 df_text 3 true 3)).
  intros col [<- | []]. reflexivity.
Defined.





(** C4 on three files: one that only iso-8859-1 decodes, one that no
    strict encoding decodes, and an empty one. *)
Lemma load_data_fallback_witness :
  @load_data (toy_pandas true) [Byte.x80] = Frame df_three
  /\ @load_data (toy_pandas true) [Byte.xff] = Frame df_text
  /\ @load_data (toy_pandas true) [] = ErrorStr "No columns to parse from file".
Proof.
  split; [|split].
  - apply (proj1 (@load_data_fallback (toy_pandas true) [Byte.x80]))
      with (pre := ["latin1"]) (enc := "iso-8859-1") (post := ["cp1252"]).
    + reflexivity.
    + intros enc' [<- | []]. now exists "invalid start byte".
    + reflexivity.
  - rewrite (proj1 (proj2 (@load_data_fallback (toy_pandas true) [Byte.xff]))).
    + reflexivity.
    + intros enc [<- | [<- | [<- | []]]]; now exists "invalid start byte".
  - apply (proj2 (proj2 (@load_data_fallback (toy_pandas true) [])))
      with (pre := []) (enc := "latin1") (post := ["iso-8859-1"; "cp1252"])
           (e := LibraryError "No columns to parse from file").
    + reflexivity.
    + intros enc' [].
    + reflexivity.
    + intros m. discriminate.
Defined.

(** C3 at start-up without a data file: [/summary] answers 400, from the
    first request on. *)
Lemma reads_fail_until_loaded_witness :
  no_table PyNone
  /\ @dispatch (toy_pandas true) toy_sklearn toy_renderer 0 RSummary PyNone
     = Returns (mkResponse (JError no_data_msg) 400)
  /\ exists msg,
       snd (@request (toy_pandas true) toy_sklearn toy_renderer no_data_file
              0 RSummary initial_session)
       = Returns (mkResponse (JError msg) 400).
Proof.
  assert (Hg : no_table PyNone) by exact I.
  split; [exact Hg|].
  destruct (@reads_fail_until_loaded (toy_pandas true) toy_sklearn toy_renderer
              PyNone Hg) as ((msg & Hresp & Hall) & _ & Hfirst & _).
  split.
  - rewrite Hall. simpl in Hresp. now inversion Hresp.
  - apply (Hfirst no_data_file). now left.
Defined.

(** The stand-in pandas adds without rounding. *)
Lemma toy_sums_are_exact (before_ties : bool) (df : DataFrame) :
  @sums_are_exact_in (toy_pandas before_ties) df.
Proof.
  intros i j _ _. split.
  - unfold exact_sum, sum_of. now destruct (non_null (column_cells j df)).
  - intros t. unfold group_total.
    now destruct (non_null (map (cell_at j) (filter (on_date i t) (rows df)))).
Qed.

(** C6 on the scenario table of the specification, added up without
    rounding. *)
Lemma grouping_preserves_total_witness :
  dated_sales_table df_scenario
  /\ @sums_are_exact_in (toy_pandas true) df_scenario
  /\ exists g s,
       @group_sales_by_date (toy_pandas true) df_scenario = Returns g
       /\ @get_sales_summary (toy_pandas true) df_scenario = Returns s
       /\ total_sales s = Some (Rsum (grouped_sales g)).
Proof.
  assert (Hvalid : dated_sales_table df_scenario).
  { exists 0%nat, 1%nat. repeat split; try reflexivity.
    repeat constructor. }
  assert (Hexact : @sums_are_exact_in (toy_pandas true) df_scenario)
    by apply toy_sums_are_exact.
  split; [exact Hvalid|]. split; [exact Hexact|].
  exact (@grouping_preserves_total (toy_pandas true) df_scenario Hvalid Hexact).
Defined.

Lemma absorbing_add_from_zero (y : R) :
  (0 < y)%R -> absorbing_add 0 y = y.
Proof.
  intros Hy. unfold absorbing_add.
  rewrite Rabs_R0, (Rabs_pos_eq y) by lra.
  destruct Rlt_dec as [Hlt|_]; [lra|].
  destruct Rlt_dec as [_|Hge]; [reflexivity|lra].
Qed.

Lemma absorbing_add_lost (x y : R) :
  (0 <= y)%R -> (y * 9007199254740992 < x)%R -> absorbing_add x y = x.
Proof.
  intros Hy Hsmall. unfold absorbing_add.
  rewrite (Rabs_pos_eq y), (Rabs_pos_eq x) by lra.
  destruct Rlt_dec as [_|Hge]; [reflexivity|lra].
Qed.

Lemma absorbing_add_kept (x y : R) :
  (0 <= x)%R -> (0 <= y)%R ->
  (x <= y * 9007199254740992)%R -> (y <= x * 9007199254740992)%R ->
  absorbing_add x y = (x + y)%R.
Proof.
  intros Hx Hy Hxy Hyx. unfold absorbing_add.
  rewrite (Rabs_pos_eq y), (Rabs_pos_eq x) by lra.
  destruct Rlt_dec as [Hlt|_]; [lra|].
  destruct Rlt_dec as [Hlt|_]; [lra|reflexivity].
Qed.

Lemma absorbing_sum_large_and_small :
  absorbing_sum [10000000000000000; 1; 1]%R = 10000000000000000%R.
Proof.
  unfold absorbing_sum. cbn [fold_left].
  rewrite absorbing_add_from_zero by lra.
  now rewrite !(absorbing_add_lost 10000000000000000 1) by lra.
Qed.

Lemma absorbing_sum_large :
  absorbing_sum [10000000000000000]%R = 10000000000000000%R.
Proof.
  unfold absorbing_sum. simpl. apply absorbing_add_from_zero. lra.
Qed.

Lemma absorbing_sum_small : absorbing_sum [1; 1]%R = 2%R.
Proof.
  unfold absorbing_sum. cbn [fold_left].
  rewrite absorbing_add_from_zero by lra.
  rewrite absorbing_add_kept by lra. lra.
Qed.

Lemma absorbing_sum_of_sums :
  absorbing_sum [10000000000000000; 2]%R = 10000000000000002%R.
Proof.
  unfold absorbing_sum. cbn [fold_left].
  rewrite absorbing_add_from_zero by lra.
  rewrite absorbing_add_kept by lra. lra.
Qed.

(** C6 refuted as stated: with sums that lose small addends as float64
    sums do, the total of an order of 1e16 and two orders of 1 the day
    after is 1e16, while the sums of the two days are 1e16 and 2, which
    add up to more, in exact arithmetic and in the library's. *)
Lemma grouped_total_differs_after_rounding :
  dated_sales_table df_large_and_small
  /\ exists g s,
       @group_sales_by_date absorbing_pandas df_large_and_small = Returns g
       /\ @get_sales_summary absorbing_pandas df_large_and_small = Returns s
       /\ total_sales s = Some 10000000000000000%R
       /\ grouped_sales g = [10000000000000000; 2]%R
       /\ total_sales s <> Some (Rsum (grouped_sales g))
       /\ total_sales s <> @sum_of absorbing_pandas (grouped_sales g).
Proof.
  split.
  { exists 0%nat, 1%nat. repeat split; try reflexivity.
    repeat constructor. }
  assert (Hg : @group_sales_by_date absorbing_pandas df_large_and_small
               = Returns
                   [("2021-01-01",
                     CNum (absorbing_sum [10000000000000000]%R));
                    ("2021-01-02", CNum (absorbing_sum [1; 1]%R))])
    by reflexivity.
  assert (Hs : @get_sales_summary absorbing_pandas df_large_and_small
               = Returns
                   (mkSummary
                      (Some (absorbing_sum [10000000000000000; 1; 1]%R))
                      (@mean_of absorbing_pandas [10000000000000000; 1; 1]%R)
                      (max_of [10000000000000000; 1; 1]%R)
                      (min_of [10000000000000000; 1; 1]%R) 3))
    by reflexivity.
  rewrite absorbing_sum_large, absorbing_sum_small in Hg.
  rewrite absorbing_sum_large_and_small in Hs.
  eexists. eexists. split; [exact Hg|]. split; [exact Hs|].
  split; [reflexivity|]. split; [reflexivity|].
  cbn [total_sales grouped_sales map snd num_or_zero]. split.
  - unfold Rsum. cbn [fold_right]. intros [= Heq]. lra.
  - unfold sum_of. cbn [series_sum absorbing_pandas].
    rewrite absorbing_sum_of_sums. intros [= Heq]. lra.
Qed.

(** The scenario of the specification: two dates, 150 and 30. *)
Example scenario_grouped :
  exists a b,
    @group_sales_by_date (toy_pandas true) df_scenario
    = Returns [("2021-01-01", CNum a); ("2021-01-02", CNum b)]
    /\ a = 150%R /\ b = 30%R.
Proof.
  eexists. eexists. split; [cbv - [Rplus]; reflexivity|]. split; lra.
Qed.

(** The scenario of the specification: total 180, mean 60, maximum 100,
    minimum 30, count 3. *)
Example scenario_summary :
  exists t m hi lo,
    @get_sales_summary (toy_pandas true) df_scenario
    = Returns (mkSummary (Some t) (Some m) (Some hi) (Some lo) 3)
    /\ t = 180%R /\ m = 60%R /\ hi = 100%R /\ lo = 30%R.
Proof.
  eexists. eexists. eexists. eexists. split; [reflexivity|].
  repeat split; simpl.
  - lra.
  - unfold exact_mean_of. simpl. lra.
  - unfold Rmax. repeat (destruct Rle_dec; try lra).
  - unfold Rmin. repeat (destruct Rle_dec; try lra).
Qed.

(** The scenario of the specification: mean 60, minimum 30, maximum 100,
    median 50; the quartiles are 40 and 75. *)
Example scenario_distribution :
  exists m sd lo hi q1 q2 q3,
    @get_sales_distribution (toy_pandas true) df_scenario "SALES"
    = Returns (Some (mkDistribution (Some m) (Some sd) (Some lo) (Some hi)
                       (Some q1) (Some q2) (Some q3)))
    /\ m = 60%R /\ lo = 30%R /\ hi = 100%R
    /\ q1 = 40%R /\ q2 = 50%R /\ q3 = 75%R.
Proof.
  unfold get_sales_distribution, distribution_of. simpl.
  unfold quantile_of, median_of, sort_R, min_of, max_of, Rmin, Rmax,
    exact_mean_of. simpl.
  repeat (destruct Rle_dec; try lra; simpl).
  do 7 eexists. split; [reflexivity|].
  repeat split; lra.
Qed.

(** C10 on a frame whose [SALES] column has a null in the second row:
    three orders are counted, and the mean of 100 and 50 is not their
    total over three. *)
Lemma summary_counts_all_rows_witness :
  find_column "SALES" (columns df_missing_sales) = Some (0%nat, DNumber)
  /\ exists s s',
       @get_sales_summary (toy_pandas true) df_missing_sales = Returns s
       /\ @get_sales_summary (toy_pandas true)
            (dropna_subset_at 0 df_missing_sales) = Returns s'
       /\ total_orders s = 3
       /\ total_orders s' = 2
       /\ average_sales s = average_sales s'
       /\ exists t m,
            total_sales s = Some t /\ average_sales s = Some m
            /\ m <> (t / IZR (total_orders s))%R.
Proof.
  assert (Hsales : find_column "SALES" (columns df_missing_sales)
                   = Some (0%nat, DNumber)) by reflexivity.
  split; [exact Hsales|].
  destruct (@summary_counts_all_rows (toy_pandas true) df_missing_sales 0%nat
              Hsales)
    as (s & s' & Hs & Hs' & Hn & Hn' & _ & Hmean & _ & _ & _ & _ & Hdiffer).
  exists s, s'. do 5 (split; [assumption|]).
  apply Hdiffer.
  - reflexivity.
  - intros _. reflexivity.
  - simpl. lia.
  - simpl. lra.
Defined.

(** C7 refuted as stated: [CITY] is a column of the frame, and asking
    for its distribution raises instead of returning the statistics. *)
Lemma distribution_of_text_column_raises :
  has_column "CITY" df_text = true
  /\ @get_sales_distribution (toy_pandas true) df_text "CITY"
     = Raises (TypeError "Could not convert string to numeric")
  /\ ~ (exists d,
          @get_sales_distribution (toy_pandas true) df_text "CITY"
          = Returns (Some d)).
Proof.
  split; [reflexivity|]. split; [reflexivity|].
  intros [d Hd]. discriminate Hd.
Qed.

(** C7 on the frame with a null: the statistics are those of 100 and
    50; on a frame without the column: [None]; on a file without rows:
    seven NaN. *)
Lemma distribution_by_column_witness :
  find_column "SALES" (columns df_missing_sales) = Some (0%nat, DNumber)
  /\ @get_sales_distribution (toy_pandas true) df_missing_sales "SALES"
     = Returns (Some (@distribution_of (toy_pandas true) [100%R; 50%R]))
  /\ @get_sales_distribution (toy_pandas true) df_text "SALES" = Returns None
  /\ @get_sales_distribution (toy_pandas true) df_header_only "SALES"
     = Returns (Some (mkDistribution None None None None None None None)).
Proof.
  split; [reflexivity|]. split; [|split].
  - exact (proj1 (proj1 (proj2 (proj2
             (@distribution_by_column (toy_pandas true) df_missing_sales
                "SALES"))) 0%nat eq_refl)).
  - exact (proj1 (proj1 (@distribution_by_column (toy_pandas true) df_text
                           "SALES") eq_refl)).
  - destruct (@distribution_by_column (toy_pandas true) df_header_only
                "SALES") as (_ & _ & _ & Hobject & _).
    exact (Hobject 1%nat eq_refl eq_refl).
Defined.

(** C8 on a frame with the number columns X, Y = 2 X and a constant Z:
    the diagonal entry of X is 1, the entries of Z are NaN, and Z keeps
    its place among the labels. *)
Lemma correlation_matrix_properties_witness :
  corr_entry (get_correlation_matrix df_corr) 0 0 = Some 1%R
  /\ corr_entry (get_correlation_matrix df_corr) 2 0 = None
  /\ corr_entry (get_correlation_matrix df_corr) 0 2 = None
  /\ corr_labels (get_correlation_matrix df_corr) = ["X"; "Y"; "Z"].
Proof.
  pose proof (correlation_matrix_properties df_corr) as Hcorr.
  cbv zeta in Hcorr.
  destruct Hcorr as (_ & Hdiag & (Hlabels & _) & Hzero).
  assert (Hz : zero_variance (column_cells 2 (select_dtypes_number df_corr))).
  { unfold zero_variance, codeviation. simpl. lra. }
  split; [|split; [|split]].
  - apply Hdiag.
    + simpl. lia.
    + unfold zero_variance, codeviation. simpl. lra.
  - apply (Hzero 2%nat 0%nat); [simpl; lia|simpl; lia|exact Hz].
  - apply (Hzero 2%nat 0%nat); [simpl; lia|simpl; lia|exact Hz].
  - exact Hlabels.
Defined.

(** C5 refuted as stated: with an argsort that does what pandas
    documents (it sorts) and, like quicksort, is not stable on more than
    16 keys, eighteen orders of the same day do not come out of a second
    pass in the order the first pass left them in. *)
Lemma preprocess_twice_reorders_ties :
  @argsort_sorts quicksort_pandas
  /\ @preprocess_data quicksort_pandas
       (@preprocess_data quicksort_pandas df_busy_day)
     <> @preprocess_data quicksort_pandas df_busy_day.
Proof.
  split; [apply quicksort_pandas_argsort_sorts|].
  intros Heq. apply (f_equal (fun df => map label (rows df))) in Heq.
  vm_compute in Heq. discriminate Heq.
Qed.

(** The same on two orders of the same day, with an argsort that hands
    equal keys back in the opposite order whatever their number. *)
Example two_orders_change_places :
  map label (rows (@preprocess_data (toy_pandas false) df_same_day))
  = [1; 0]
  /\ map label
       (rows (@preprocess_data (toy_pandas false)
                (@preprocess_data (toy_pandas false) df_same_day)))
     = [0; 1].
Proof. split; reflexivity. Qed.

(** C5 with the same argsort on orders of two different days: the second
    pass changes nothing. *)
Lemma preprocess_twice_witness :
  @argsort_sorts (toy_pandas false)
  /\ map label (rows (@preprocess_data (toy_pandas false) df_two_days))
     = [2; 0]
  /\ @preprocess_data (toy_pandas false)
       (@preprocess_data (toy_pandas false) df_two_days)
     = @preprocess_data (toy_pandas false) df_two_days.
Proof.
  assert (Hsorts : @argsort_sorts (toy_pandas false))
    by apply toy_pandas_argsort_sorts.
  split; [exact Hsorts|]. split; [reflexivity|].
  destruct (@preprocess_twice (toy_pandas false) Hsorts df_two_days)
    as (_ & _ & _ & Hpresent).
  destruct (Hpresent 0%nat DObject eq_refl) as (_ & _ & Hdistinct & _).
  apply Hdistinct. simpl.
  repeat constructor; simpl; intuition discriminate.
Defined.

(** X1: [/pca] on a frame of text only. *)
Lemma pca_routes_raise_on_insufficient_data_witness :
  (fst (shape (df_num df_text)) = 0 \/ snd (shape (df_num df_text)) < 3)
  /\ @pca toy_sklearn 0 (PyFrame df_text) = Raises unpack_error.
Proof.
  assert (Hg : fst (shape (df_num df_text)) = 0
               \/ snd (shape (df_num df_text)) < 3) by (right; simpl; lia).
  split; [exact Hg|].
  exact (proj1 (@pca_routes_raise_on_insufficient_data toy_sklearn toy_renderer
                  0 df_text Hg)).
Defined.

(** X2: an empty upload after a successful load. *)
Lemma failed_upload_discards_table_witness :
  "data.csv" <> ""
  /\ df_global
       (fst (@upload_file (toy_pandas true) (Some ("data.csv", []))
               (mkSession (PyFrame df_one) true)))
     = PyStr "No columns to parse from file".
Proof.
  assert (Hname : "data.csv" <> "") by discriminate.
  split; [exact Hname|].
  exact (@failed_upload_discards_table (toy_pandas true)
           (mkSession (PyFrame df_one) true) "data.csv" []
           "No columns to parse from file" Hname eq_refl).
Defined.

(** X3: the session's table for the two orders of the same day. *)
Lemma session_table_preserves_total_witness :
  @argsort_sorts (toy_pandas false)
  /\ @sums_are_exact_in (toy_pandas false)
       (@preprocess_data (toy_pandas false) df_same_day)
  /\ exists g s,
       @group_sales_by_date (toy_pandas false)
         (@preprocess_data (toy_pandas false) df_same_day) = Returns g
       /\ @get_sales_summary (toy_pandas false)
            (@preprocess_data (toy_pandas false) df_same_day)
          = Returns s
       /\ total_sales s = Some (Rsum (grouped_sales g)).
Proof.
  assert (Hsorts : @argsort_sorts (toy_pandas false))
    by apply toy_pandas_argsort_sorts.
  assert (Hexact : @sums_are_exact_in (toy_pandas false)
                     (@preprocess_data (toy_pandas false) df_same_day))
    by apply toy_sums_are_exact.
  split; [exact Hsorts|]. split; [exact Hexact|].
  apply (@session_table_preserves_total (toy_pandas false) Hsorts df_same_day
           0%nat 1%nat DObject);
    [reflexivity|discriminate|reflexivity|exact Hexact].
Defined.

(** The standard deviation of 1, 2, 3 is 1. *)
Example std_of_one_two_three : std_of [1; 2; 3]%R = Some 1%R.
Proof.
  unfold std_of. simpl. f_equal.
  transitivity (sqrt 1); [f_equal; field|apply sqrt_1].
Qed.

(** X and Y = 2 X correlate by 1. *)
Example corr_of_proportional_columns :
  corr_entry (get_correlation_matrix df_corr) 0 1 = Some 1%R.
Proof.
  unfold get_correlation_matrix, corr_entry, corr, pearson, codeviation.
  simpl.
  match goal with
  | |- context [sqrt ?x] => replace x with (4 * 4)%R by field
  end.
  rewrite sqrt_square by lra.
  destruct Req_dec_T as [Hz|_]; [lra|].
  f_equal.
  match goal with
  | |- clip ?x = _ => replace x with 1%R by field
  end.
  apply clip_one.
Qed.

Example pc_column_names_three : pc_column_names 3 = ["PC1"; "PC2"; "PC3"].
Proof. reflexivity. Qed.

(** The whole projection on the frame with four full rows. *)
Example projection_of_df_four :
  @perform_pca_analysis toy_sklearn 0 df_four 3 true 2
  = Returns
      (PcaPair
         (mkPcaFrame ["PC1"; "PC2"; "PC3"]
            [[1; 20; 20]; [2; 10; 20]; [3; 5; 15]; [4; 5; 20]]%R
            (Some [0; 0; 0; 0]))
         (mkPcaResult [0; 0; 0]%R
            [[("PC1", VFloat 1); ("PC2", VFloat 20); ("PC3", VFloat 20);
              ("cluster", VInt 0)];
             [("PC1", VFloat 2); ("PC2", VFloat 10); ("PC3", VFloat 20);
              ("cluster", VInt 0)];
             [("PC1", VFloat 3); ("PC2", VFloat 5); ("PC3", VFloat 15);
              ("cluster", VInt 0)];
             [("PC1", VFloat 4); ("PC2", VFloat 5); ("PC3", VFloat 20);
              ("cluster", VInt 0)]])).
Proof. reflexivity. Qed.

(** Three components cannot be had from two full rows: the stand-in
    PCA refuses, as scikit-learn's does. *)
Example projection_of_df_three :
  @perform_pca_analysis toy_sklearn 0 df_three 3 true 2
  = Raises (LibraryError "n_components out of range").
Proof. reflexivity. Qed.

(** Preprocessing the three orders on two days: the unreadable date is
    dropped, the earlier day comes first, the dates are timestamps. *)
Example preprocess_df_two_days :
  @preprocess_data (toy_pandas true) df_two_days
  = mkDF [("ORDERDATE", DDatetime); ("SALES", DNumber)]
         [mkRow 2 [CDate 1; CNum 100]; mkRow 0 [CDate 2; CNum 30]].
Proof. reflexivity. Qed.

(** [/status] after that load. *)
Example status_of_df_two_days :
  status (PyFrame (@preprocess_data (toy_pandas true) df_two_days))
  = mkResponse
      (JStatusLoaded 2 2 ["ORDERDATE"; "SALES"] true true ["SALES"]) 200.
Proof. reflexivity. Qed.

(** A frame without [ORDERDATE] goes through the preprocessor as it is. *)
Example preprocess_df_text :
  @preprocess_data (toy_pandas true) df_text = df_text.
Proof. reflexivity. Qed.

(** X4 on the scenario table. *)
Lemma distribution_quartiles_ordered_witness :
  find_column "SALES" (columns df_scenario) = Some (1%nat, DNumber)
  /\ non_null (column_cells 1 df_scenario) <> []
  /\ exists d lo q1 q2 q3 hi,
       @get_sales_distribution (toy_pandas true) df_scenario "SALES"
       = Returns (Some d)
       /\ d_min d = Some lo /\ d_q25 d = Some q1 /\ d_q50 d = Some q2
       /\ d_q75 d = Some q3 /\ d_max d = Some hi
       /\ (lo <= q1 /\ q1 <= q2 /\ q2 <= q3 /\ q3 <= hi)%R.
Proof.
  assert (Hsome : non_null (column_cells 1 df_scenario) <> [])
    by discriminate.
  split; [reflexivity|]. split; [exact Hsome|].
  exact (@distribution_quartiles_ordered (toy_pandas true) df_scenario "SALES"
           1%nat eq_refl Hsome).
Defined.

(** A successful upload at start-up: the table is stored and described. *)
Example upload_of_a_readable_file :
  @upload_file (toy_pandas true) (Some ("sales.csv", [Byte.x61]))
    initial_session
  = (mkSession (PyFrame df_one) false,
     mkResponse (JUploaded 1 1 ["SALES"]) 200).
Proof. reflexivity. Qed.

(** An upload without a file name leaves the session as it is. *)
Example upload_without_a_name :
  @upload_file (toy_pandas true) (Some ("", [Byte.x61])) initial_session
  = (initial_session,
     mkResponse (JError "No se seleccionó ningún archivo") 400).
Proof. reflexivity. Qed.

(** Correlation is taken over the rows where both columns hold a number. *)
Example complete_pairs_skip_nulls :
  complete_pairs [CNum 1; CNull; CNum 3; CNum 4] [CNum 5; CNum 6; CNull; CNum 8]
  = [(1, 5); (4, 8)]%R.
Proof. reflexivity. Qed.

(** Groups come out by ascending date, whatever the order of the rows,
    each with its values in the order of the rows. *)
Example groups_are_ascending :
  groupby_values [(2, [30%R]); (1, [100%R]); (2, [5%R]); (1, [50%R])]
  = [(1, [100; 50]%R); (2, [30; 5]%R)].
Proof. reflexivity. Qed.

(** X5 on a file that only iso-8859-1 decodes: the frame is what
    [read_csv] gave under that encoding, after two that failed. *)
Lemma load_data_inversion_witness :
  @load_data (toy_pandas true) [Byte.x80] = Frame df_three
  /\ ((exists pre enc post,
         encodings = pre ++ enc :: post
         /\ (forall enc',
               In enc' pre -> @decode_fails (toy_pandas true) [Byte.x80] enc')
         /\ @read_csv (toy_pandas true) [Byte.x80] enc Strict
            = Returns df_three)
      \/ ((forall enc,
             In enc encodings -> @decode_fails (toy_pandas true) [Byte.x80] enc)
          /\ @read_csv (toy_pandas true) [Byte.x80] "utf-8" Replace
             = Returns df_three)).
Proof.
  assert (Hload : @load_data (toy_pandas true) [Byte.x80] = Frame df_three)
    by reflexivity.
  split; [exact Hload|].
  exact (proj1 (@load_data_inversion (toy_pandas true) [Byte.x80])
           df_three Hload).
Defined.

(** X6 on three orders, one with an unreadable date. *)
Lemma preprocess_keeps_the_rest_witness :
  @argsort_sorts (toy_pandas true)
  /\ NoDup (map label (rows df_two_days))
  /\ column_names (@preprocess_data (toy_pandas true) df_two_days)
     = column_names df_two_days
  /\ NoDup (map label (rows (@preprocess_data (toy_pandas true) df_two_days))).
Proof.
  assert (Hsorts : @argsort_sorts (toy_pandas true))
    by apply toy_pandas_argsort_sorts.
  assert (Hlabels : NoDup (map label (rows df_two_days))).
  { simpl. repeat constructor; simpl; intuition discriminate. }
  split; [exact Hsorts|]. split; [exact Hlabels|].
  destruct (@preprocess_keeps_the_rest (toy_pandas true) Hsorts df_two_days)
    as (Hnames & _ & _ & Hnodup & _).
  split; [exact Hnames|]. exact (Hnodup Hlabels).
Defined.

(** X7 on a frame with a text column and nulls. *)
Lemma df_num_is_numeric_and_complete_witness :
  well_formed df_three
  /\ well_formed (df_num df_three)
  /\ Forall (fun r => Forall (fun c => isna c = false) (cells r))
       (rows (df_num df_three)).
Proof.
  assert (Hwf : well_formed df_three) by (repeat constructor).
  split; [exact Hwf|].
  destruct (df_num_is_numeric_and_complete df_three)
    as (_ & _ & Hfull & _ & _ & Hkeeps).
  split; [exact (Hkeeps Hwf)|exact Hfull].
Defined.

(** X8 on three number columns, four full rows and two clusters. *)
Lemma projection_result_is_well_formed_witness :
  exists f r,
    @perform_pca_analysis toy_sklearn 0 df_four 3 true 2
    = Returns (PcaPair f r)
    /\ pc_names f = pc_column_names 3
    /\ Forall (fun row => length row = 3%nat) (pc_rows f)
    /\ components r = to_records f
    /\ Forall (fun rec => map fst rec = pc_column_names 3 ++ ["cluster"])
         (components r).
Proof.
  eexists. eexists.
  assert (Hrun : @perform_pca_analysis toy_sklearn 0 df_four 3 true 2
                 = Returns
                     (PcaPair
                        (mkPcaFrame ["PC1"; "PC2"; "PC3"]
                           [[1; 20; 20]; [2; 10; 20]; [3; 5; 15]; [4; 5; 20]]%R
                           (Some [0; 0; 0; 0]))
                        (mkPcaResult [0; 0; 0]%R
                           (to_records
                              (mkPcaFrame ["PC1"; "PC2"; "PC3"]
                                 [[1; 20; 20]; [2; 10; 20]; [3; 5; 15];
                                  [4; 5; 20]]%R
                                 (Some [0; 0; 0; 0]))))))
    by reflexivity.
  split; [exact Hrun|].
  destruct (@projection_result_is_well_formed toy_sklearn 0 df_four 3 true 2
              _ _ Hrun)
    as (_ & _ & Hnames & Hwidth & Hrecords & _ & labels & _ & _ & _ & Hkeys).
  split; [exact Hnames|]. split; [exact Hwidth|].
  split; [exact Hrecords|exact Hkeys].
Defined.

(** X9 on three orders, one without a [SALES] value. *)
Lemma summary_and_distribution_agree_witness :
  find_column "SALES" (columns df_missing_sales) = Some (0%nat, DNumber)
  /\ exists s d,
       @get_sales_summary (toy_pandas true) df_missing_sales = Returns s
       /\ @get_sales_distribution (toy_pandas true) df_missing_sales "SALES"
          = Returns (Some d)
       /\ d_mean d = average_sales s
       /\ d_min d = min_sales s
       /\ d_max d = max_sales s.
Proof.
  assert (Hsales : find_column "SALES" (columns df_missing_sales)
                   = Some (0%nat, DNumber)) by reflexivity.
  split; [exact Hsales|].
  destruct (@summary_and_distribution_agree (toy_pandas true) df_missing_sales
              0%nat Hsales)
    as (s & d & Hs & Hd & Hmean & Hmin & Hmax & _).
  exists s, d. repeat split; assumption.
Defined.

(** X10 on the scenario table. *)
Lemma groups_are_the_dates_witness :
  find_column "ORDERDATE" (columns df_scenario) = Some (0%nat, DDatetime)
  /\ find_column "SALES" (columns df_scenario) = Some (1%nat, DNumber)
  /\ exists sums,
       @group_sales_by_date (toy_pandas true) df_scenario
       = Returns
           (map (fun g => (@strftime_ymd (toy_pandas true) (fst g),
                           CNum (snd g))) sums)
       /\ StronglySorted Z.lt (map fst sums)
       /\ (forall t s,
             In (t, s) sums ->
             s = @group_total (toy_pandas true)
                   (non_null (map (cell_at 1)
                                (filter (on_date 0 t) (rows df_scenario))))).
Proof.
  assert (Hdate : find_column "ORDERDATE" (columns df_scenario)
                  = Some (0%nat, DDatetime)) by reflexivity.
  assert (Hsales : find_column "SALES" (columns df_scenario)
                   = Some (1%nat, DNumber)) by reflexivity.
  split; [exact Hdate|]. split; [exact Hsales|].
  destruct (@groups_are_the_dates (toy_pandas true) df_scenario 0%nat 1%nat
              Hdate Hsales)
    as (sums & Hgroups & Hsorted & _ & Hsums).
  exists sums. split; [exact Hgroups|]. split; [exact Hsorted|exact Hsums].
Defined.

(** Two orders at different hours of one day are two groups, and two
    records with the same date. *)
Example two_hours_of_one_day :
  map fst (match @group_sales_by_date hourly_pandas df_hours with
           | Returns records => records
           | Raises _ => []
           end)
  = ["1970-01-01"; "1970-01-01"; "1970-01-02"].
Proof. reflexivity. Qed.

(** X11 with a readable data file: a status request, then an upload
    without a file. *)
Lemma session_over_requests_witness :
  [GetStatus; Upload None] <> []
  /\ @holds_preprocessed_table (toy_pandas true)
       (@run (toy_pandas true) toy_sklearn toy_renderer one_order_file
          [GetStatus; Upload None] initial_session)
  /\ data_initialized
       (@run (toy_pandas true) toy_sklearn toy_renderer one_order_file
          [GetStatus; Upload None] initial_session)
     = true.
Proof.
  assert (Hsome : [GetStatus; Upload None] <> []) by discriminate.
  split; [exact Hsome|].
  destruct (@session_over_requests (toy_pandas true) toy_sklearn toy_renderer
              one_order_file [GetStatus; Upload None])
    as (Htable & Hflag & _).
  split; [exact Htable|exact (Hflag Hsome)].
Defined.

(** X12 on the upload of a readable file at start-up. *)
Lemma accepted_upload_is_reported_witness :
  @upload_file (toy_pandas true) (Some ("sales.csv", [Byte.x61]))
    initial_session
  = (mkSession (PyFrame df_one) false,
     mkResponse (JUploaded 1 1 ["SALES"]) 200)
  /\ exists raw,
       @load_data (toy_pandas true) [Byte.x61] = Frame raw
       /\ ["SALES"] = column_names raw
       /\ status (PyFrame df_one)
          = mkResponse
              (JStatusLoaded 1 1 ["SALES"]
                 (has_column "SALES" (@preprocess_data (toy_pandas true) raw))
                 (has_column "ORDERDATE"
                    (@preprocess_data (toy_pandas true) raw))
                 (column_names
                    (select_dtypes_number
                       (@preprocess_data (toy_pandas true) raw))))
              200.
Proof.
  assert (Hup : @upload_file (toy_pandas true)
                  (Some ("sales.csv", [Byte.x61])) initial_session
                = (mkSession (PyFrame df_one) false,
                   mkResponse (JUploaded 1 1 ["SALES"]) 200))
    by reflexivity.
  split; [exact Hup|].
  destruct (@accepted_upload_is_reported (toy_pandas true) _ _ _ _ _ _ Hup)
    as (name & src & raw & Hfile & _ & Hload & _ & _ & _ & _ & Hnames
        & Hstatus).
  injection Hfile as _ <-.
  exists raw. split; [exact Hload|]. split; [exact Hnames|exact Hstatus].
Defined.

(** X13 on a table of text only. *)
Lemma routes_on_missing_columns_witness :
  has_column "SALES" df_text = false
  /\ @distribution (toy_pandas true) (PyFrame df_text)
     = Returns (mkResponse (JError no_sales_msg) 400)
  /\ @summary (toy_pandas true) (PyFrame df_text) = Raises (KeyError "SALES").
Proof.
  assert (Hnone : has_column "SALES" df_text = false) by reflexivity.
  split; [exact Hnone|].
  destruct (proj1 (@routes_on_missing_columns (toy_pandas true) toy_renderer
                     df_text) Hnone)
    as (Hdist & _ & Hsum & _).
  split; [exact Hdist|exact Hsum].
Defined.

(** X14 on the scenario table and on four orders: the chart of the
    grouped sales draws the two records [/grouped] answers with, the
    histogram draws the three values behind [/distribution], and the
    scatter plot draws the frame behind [/pca]. *)
Lemma charts_show_the_data_witness :
  (exists records,
     @grouped (toy_pandas true) (PyFrame df_scenario)
     = Returns (mkResponse (JRecords records) 200)
     /\ map fst records = ["2021-01-01"; "2021-01-02"]
     /\ @plot_grouped (toy_pandas true) toy_renderer (PyFrame df_scenario)
        = (img <- @render_line toy_renderer records ;; ok (Png img)))
  /\ (exists d vals,
        @distribution (toy_pandas true) (PyFrame df_scenario)
        = Returns (mkResponse (JDistribution d) 200)
        /\ @plot_dist toy_renderer (PyFrame df_scenario)
           = (img <- @render_hist toy_renderer "SALES" vals ;; ok (Png img))
        /\ d = @distribution_of (toy_pandas true) (non_null vals))
  /\ (exists result pca_df,
        @pca toy_sklearn 0 (PyFrame df_four)
        = Returns (mkResponse (JPca result) 200)
        /\ @plot_pca toy_sklearn toy_renderer 0 (PyFrame df_four)
           = (img <- @render_scatter3d toy_renderer pca_df ;; ok (Png img))
        /\ components result = to_records pca_df).
Proof.
  destruct (@charts_show_the_data (toy_pandas true) toy_sklearn toy_renderer
              0 df_scenario)
    as (Hline & _ & Hhist & _).
  destruct (@charts_show_the_data (toy_pandas true) toy_sklearn toy_renderer
              0 df_four)
    as (_ & _ & _ & Hscatter & _).
  split; [|split].
  - eexists. split; [reflexivity|]. split; [reflexivity|].
    apply Hline. reflexivity.
  - eexists.
    destruct (Hhist _ eq_refl) as (vals & Hplot & _ & Hstats).
    exists vals. split; [reflexivity|]. split; [exact Hplot|exact Hstats].
  - eexists.
    destruct (Hscatter _ eq_refl) as (pca_df & Hplot & Hrecords).
    exists pca_df. split; [reflexivity|]. split; [exact Hplot|exact Hrecords].
Defined.

(** The summary of amounts read as text: the sum joins the strings, and
    [float] refuses the result. *)
Example summary_of_text_sales :
  joined (column_cells 0 df_text_sales) = "1,200n/a"
  /\ @get_sales_summary (toy_pandas true) df_text_sales
     = Raises (ValueError "could not convert string to float").
Proof. split; reflexivity. Qed.

(** The summary of a file without rows: no order, a total of 0, and NaN
    for the rest. *)
Example summary_of_header_only :
  @get_sales_summary (toy_pandas true) df_header_only
  = Returns (mkSummary (Some 0%R) None None None 0).
Proof. reflexivity. Qed.

(** ** float64 itself *)

Module Float64.

Import PrimFloat.

(** On the numbers of the example of the sums: 1 added to 1e16 is lost,
    twice over, and 2 is not. *)
Example small_addends_are_lost :
  ((10000000000000000 + 1 + 1 =? 10000000000000000) = true
   /\ (10000000000000000 + (1 + 1) =? 10000000000000002) = true
   /\ (10000000000000000 =? 10000000000000002) = false)%float.
Proof. repeat split; vm_compute; reflexivity. Qed.

(** Three tenths added one by one and by groups differ. *)
#[warnings="-inexact-float"]
Example tenths_differ_by_grouping :
  (0.1 + 0.2 + 0.3 =? 0.1 + (0.2 + 0.3))%float = false.
Proof. vm_compute. reflexivity. Qed.

End Float64.
